(** * Canteen-Management: the order and pricing engine of [main.py]

    A shallow embedding of the functions the ordering core consists of:

    - [calculate_discounted_price]                     (module level),
    - [DatabaseHandler._generate_unique_token], [create_order],
      [update_order_status], [revenue_per_day],
      [get_active_offers_for_item]                    (class DatabaseHandler),
    - [Order.create]                                   (class Order),

    and, around them,

    - [list_orders], [list_orders_for_user], [sales_by_item],
      [orders_per_hour], the users, menu and offers of
      [DatabaseHandler] with [_ensure_db] and [_seed_menu],
    - what the windows compute before they draw: [_register] and
      [_login], [_add_to_cart] and [_refresh_cart], [_load_orders],
      and the items of [most_selling_items_figure].

    Conventions of the embedding.

    - A Python [float] is an IEEE-754 binary64 number: the kernel's
      primitive [float], whose operations round to nearest, ties to even,
      as CPython's do.  [round(x, 2)] and the format specifications
      [.0f] and [.2f] are written out on the exact value of the double
      (CPython rounds the exact binary value correctly, half to even).
    - The arithmetic the code uses is collected in the class [Arith], so
      that every function below is written once.  Its instance [binary64]
      is the code as it runs; the instance [exact] reads the same program
      text over exact rationals and is only used where a statement is
      explicitly about arithmetic without representation error.
    - The SQLite file is a record of tables, each table the list of its
      rows in rowid order; a statement run on a connection is a function
      on that record.
    - [random.randint] and [datetime.now] are inputs: a call receives the
      draws made for it and the clock reading.
    - A statement is modelled on identifiers of the INTEGER range;
      [Bound] has the functions as they are called with any [int], with
      the OverflowError of binding one outside that range.
    - Where a statement is about the words of the specification
      (formatted to two decimals, a date not after today, the weekday
      of today), those words are defined on their own, after the
      program, and compared with it. *)

From Stdlib Require Import ZArith List String Ascii Bool Lia Permutation.
From Stdlib Require Import Floats QArith Qcanon DecimalString DecimalPos DecimalZ.
From Stdlib Require Import Sorted.
Import ListNotations.

Local Open Scope string_scope.
Local Open Scope Z_scope.

(** ** Decimal text *)

(** [str(n)] for a Python [int]. *)
Definition str (n : Z) : string := NilZero.string_of_int (Z.to_int n).

Fixpoint zeros (n : nat) : string :=
  match n with
  | O => EmptyString
  | S n' => String "0" (zeros n')
  end.

(** The digits of [k >= 0], padded on the left with zeros to at least
    [w] characters. *)
Definition zero_padded (w : nat) (k : Z) : string :=
  let ds := str k in
  zeros (w - String.length ds) ++ ds.

(** Fixed-point text of [k / 10^p] for [k >= 0]: what [format(x, '.pf')]
    prints once [x] has been rounded to [k] units of [10^-p]. *)
Definition fixed_text (neg : bool) (p : nat) (k : Z) : string :=
  let ds := zero_padded (S p) k in
  let n := (String.length ds - p)%nat in
  (if neg then "-" else "") ++
  substring 0 n ds ++
  (match p with O => "" | _ => "." ++ substring n p ds end).

(** Nearest integer to [n / d] for [n >= 0], halves to the even one. *)
Definition round_half_even (n : Z) (d : positive) : Z :=
  let q := n / Zpos d in
  let r := n mod Zpos d in
  match 2 * r ?= Zpos d with
  | Lt => q
  | Gt => q + 1
  | Eq => if Z.even q then q else q + 1
  end.

Definition digit (k : Z) : ascii := ascii_of_nat (48 + Z.to_nat k).

(** [%0wd] for [0 <= n < 10^w]: the [w] decimal digits of [n]. *)
Fixpoint fixed_width (w : nat) (n : Z) : string :=
  match w with
  | O => EmptyString
  | S w' => fixed_width w' (n / 10) ++ String (digit (n mod 10)) EmptyString
  end.

(** ** The arithmetic of the program *)

Class Arith := {
  num : Type;
  zero : num;                       (* the literal [0.0] *)
  hundred : num;                    (* the [int] literal [100] as an operand of [/] *)
  add : num -> num -> num;
  sub : num -> num -> num;
  mul : num -> num -> num;
  div : num -> num -> num;
  gtb : num -> num -> bool;         (* [x > y] *)
  geb : num -> num -> bool;         (* [x >= y] *)
  eqb : num -> num -> bool;         (* [x == y] *)
  is_nan : num -> bool;
  of_int : Z -> option num;         (* an [int] operand of a float operation;
                                       [None] is OverflowError *)
  round2 : num -> num;              (* [round(x, 2)] *)
  format_0f : num -> string;        (* [f"{x:.0f}"] *)
  format_2f : num -> string         (* [f"{x:.2f}"] *)
}.

Declare Scope num_scope.
Delimit Scope num_scope with num.
Infix "+" := add : num_scope.
Infix "-" := sub : num_scope.
Infix "*" := mul : num_scope.
Infix "/" := div : num_scope.
Infix ">?" := gtb (at level 70, no associativity) : num_scope.
Infix ">=?" := geb (at level 70, no associativity) : num_scope.
Infix "==" := eqb (at level 70, no associativity) : num_scope.

(** What the proofs about the best-discount loop use of [>], [>=] and
    [==]; [gtb_chain] is: [x <= y < z] or [x] unordered, then not
    [x >= z]. *)
Class OrderLaws (A : Arith) : Prop := {
  gtb_asym : forall x y : num, (x >? y)%num = true -> (y >? x)%num = false;
  gtb_trans : forall x y z : num,
    (x >? y)%num = true -> (y >? z)%num = true -> (x >? z)%num = true;
  gtb_chain : forall x y z : num,
    (x >? y)%num = false -> (z >? y)%num = true -> (x >=? z)%num = false;
  geb_of_gtb : forall x y : num, (x >? y)%num = true -> (x >=? y)%num = true;
  eqb_not_gtb : forall x y : num, (x == y)%num = true -> (x >? y)%num = false
}.

(** *** binary64 *)

Module B64.

(** [|x| * 10^p] as a fraction, for a finite double [m * 2^e]. *)
Definition scaled (p : nat) (m : positive) (e : Z) : Z * positive :=
  match e with
  | Zneg k => (Zpos m * 10 ^ Z.of_nat p, Pos.pow 2 k)
  | _ => (Zpos m * 2 ^ e * 10 ^ Z.of_nat p, 1%positive)
  end.

(** [|x|] rounded to [p] decimals, in units of [10^-p]. *)
Definition units (p : nat) (m : positive) (e : Z) : Z :=
  let '(n, d) := scaled p m e in round_half_even n d.

(** The double nearest to [k / 100]: the division of two integers,
    correctly rounded. *)
Definition nearest_hundredth (neg : bool) (k : Z) : float :=
  match k with
  | Zpos k' =>
      SF2Prim (SFdiv prec emax (S754_finite neg k' 0) (S754_finite false 100 0))
  | _ => if neg then neg_zero else PrimFloat.zero
  end.

(** [round(x, 2)]: infinities, NaN and zeros are returned as they are;
    a finite [x] goes to the decimal text with two places and back. *)
Definition round2 (x : float) : float :=
  match Prim2SF x with
  | S754_finite s m e => nearest_hundredth s (units 2 m e)
  | _ => x
  end.

Definition format_f (p : nat) (x : float) : string :=
  match Prim2SF x with
  | S754_nan => "nan"
  | S754_infinity s => if s then "-inf" else "inf"
  | S754_zero s => fixed_text s p 0
  | S754_finite s m e => fixed_text s p (units p m e)
  end.

(** An [int] converted for a float operation: the nearest double, and
    OverflowError when that is not finite. *)
Definition of_int (n : Z) : option float :=
  match binary_normalize prec emax n 0 false with
  | S754_infinity _ => None
  | sf => Some (SF2Prim sf)
  end.

Definition hundred : float :=
  Eval vm_compute in SF2Prim (binary_normalize prec emax 100 0 false).

End B64.

#[export] Instance binary64 : Arith := {|
  num := float;
  zero := PrimFloat.zero;
  hundred := B64.hundred;
  add := PrimFloat.add;
  sub := PrimFloat.sub;
  mul := PrimFloat.mul;
  div := PrimFloat.div;
  gtb := fun x y => PrimFloat.ltb y x;
  geb := fun x y => PrimFloat.leb y x;
  eqb := PrimFloat.eqb;
  is_nan := PrimFloat.is_nan;
  of_int := B64.of_int;
  round2 := B64.round2;
  format_0f := B64.format_f 0;
  format_2f := B64.format_f 2
|}.

(** The compensated summation of CPython 3.12 and later (Neumaier's):
    the first item is added to the [int] start value, the others go
    through the loop on [(f_result, c)]. *)
Definition neumaier_step (st : float * float) (x : float) : float * float :=
  let '(f_result, c) := st in
  let t := (f_result + x)%float in
  if (abs x <=? abs f_result)%float
  then (t, (c + ((f_result - t) + x))%float)
  else (t, (c + ((x - t) + f_result))%float).

Definition sum_compensated (l : list float) : float :=
  match l with
  | [] => PrimFloat.zero
  | x :: rest =>
      let '(f_result, c) :=
        fold_left neumaier_step rest ((PrimFloat.zero + x)%float, PrimFloat.zero) in
      if negb (c =? PrimFloat.zero)%float && is_finite c
      then (f_result + c)%float
      else f_result
  end.

(** *** Exact rationals *)

Module Exact.

Definition units (p : nat) (q : Qc) : Z :=
  round_half_even (Z.abs (Qnum q) * 10 ^ Z.of_nat p) (Qden q).

Definition negative (q : Qc) : bool := Qnum q <? 0.

Definition round2 (q : Qc) : Qc :=
  let k := units 2 q in
  Q2Qc ((if negative q then - k else k) # 100).

Definition format_f (p : nat) (q : Qc) : string :=
  fixed_text (negative q) p (units p q).

Definition gtb (x y : Qc) : bool :=
  match (y ?= x)%Qc with Lt => true | _ => false end.

Definition geb (x y : Qc) : bool :=
  match (x ?= y)%Qc with Lt => false | _ => true end.

Definition eqb (x y : Qc) : bool :=
  match (x ?= y)%Qc with Eq => true | _ => false end.

End Exact.

#[export] Instance exact : Arith := {|
  num := Qc;
  zero := Q2Qc 0;
  hundred := Q2Qc 100;
  add := Qcplus;
  sub := Qcminus;
  mul := Qcmult;
  div := Qcdiv;
  gtb := Exact.gtb;
  geb := Exact.geb;
  eqb := Exact.eqb;
  is_nan := fun _ => false;
  of_int := fun n => Some (Q2Qc (inject_Z n));
  round2 := Exact.round2;
  format_0f := Exact.format_f 0;
  format_2f := Exact.format_f 2
|}.

(** ** Offers and the best discount *)

Section Pricing.

Context {A : Arith}.
Local Open Scope num_scope.

(** The dictionary [get_active_offers_for_item] builds for a row of
    [offers]; [None] is SQL NULL. *)
Record offer := {
  offer_id : Z;
  offer_name : string;
  offer_item_id : option Z;
  discount_type : string;
  discount_value : num;
  start_date : option string;
  end_date : option string;
  day_of_week : option string
}.

(** [max(a, b)] of two floats: [b] only when [b > a]. *)
Definition py_max (a b : num) : num := if b >? a then b else a.

(** The [discount] computed in the loop body for one offer. *)
Definition discount_of (original_price : num) (o : offer) : num :=
  if String.eqb (discount_type o) "PERCENTAGE"
  then original_price * (discount_value o / hundred)
  else discount_value o.

(** One iteration of [for offer in offers], on the pair
    [(best_offer, best_discount)]. *)
Definition best_step (original_price : num)
    (st : option offer * num) (o : offer) : option offer * num :=
  let discount := discount_of original_price o in
  if discount >? snd st then (Some o, discount) else st.

Definition best_loop (original_price : num) (offers : list offer)
    : option offer * num :=
  fold_left (best_step original_price) offers (None, zero).

Definition describe (o : offer) : string :=
  (offer_name o ++ ": ") ++
  (if String.eqb (discount_type o) "PERCENTAGE"
   then format_0f (discount_value o) ++ "% off"
   else "Rs " ++ format_2f (discount_value o) ++ " off").

(** [if not offers] returns at once on the empty list; [if best_offer]
    is true of every dictionary the loop can have stored. *)
Definition calculate_discounted_price (original_price : num)
    (offers : list offer) : num * option string :=
  match offers with
  | [] => (original_price, None)
  | _ =>
      match best_loop original_price offers with
      | (Some best_offer, best_discount) =>
          (py_max zero (original_price - best_discount),
           Some (describe best_offer))
      | (None, _) => (original_price, None)
      end
  end.

(** The state of the loop after the offers [seen]: no offer and [0.0]
    while no amount was positive; otherwise an offer of [seen] with its
    amount, which is positive, is reached by none of the amounts before
    it and is exceeded by none. *)
Definition loop_inv (original_price : num) (seen : list offer)
    (st : option offer * num) : Prop :=
  match st with
  | (None, bd) =>
      bd = zero /\
      Forall (fun o => (discount_of original_price o >? zero) = false) seen
  | (Some b, bd) =>
      bd = discount_of original_price b /\
      (discount_of original_price b >? zero) = true /\
      exists before after,
        seen = (before ++ b :: after)%list /\
        Forall (fun o => (discount_of original_price o >=?
                          discount_of original_price b) = false) before /\
        Forall (fun o => (discount_of original_price o >?
                          discount_of original_price b) = false) seen
  end.

End Pricing.

Arguments offer : clear implicits.
Arguments offer {A}.

(** ** The clock *)

(** A reading of [datetime.now()], without the microseconds that
    [isoformat(timespec="seconds")] drops. *)
Record datetime := {
  year : Z; month : Z; day : Z;
  hour : Z; minute : Z; second : Z
}.

(** The fields of a [datetime] object are in these ranges. *)
Definition datetime_ok (t : datetime) : Prop :=
  1 <= year t <= 9999 /\ 1 <= month t <= 12 /\ 1 <= day t <= 31 /\
  0 <= hour t <= 23 /\ 0 <= minute t <= 59 /\ 0 <= second t <= 59.

(** [now.date().isoformat()]: [%04d-%02d-%02d]. *)
Definition date_isoformat (t : datetime) : string :=
  fixed_width 4 (year t) ++ "-" ++ fixed_width 2 (month t) ++ "-" ++
  fixed_width 2 (day t).

(** [now.isoformat(timespec="seconds")] *)
Definition isoformat (t : datetime) : string :=
  date_isoformat t ++ "T" ++ fixed_width 2 (hour t) ++ ":" ++
  fixed_width 2 (minute t) ++ ":" ++ fixed_width 2 (second t).

(** The calendar order of two days. *)
Definition date_le (t1 t2 : datetime) : Prop :=
  year t1 < year t2 \/
  (year t1 = year t2 /\
   (month t1 < month t2 \/ (month t1 = month t2 /\ day t1 <= day t2))).

Definition is_leap (y : Z) : bool :=
  (y mod 4 =? 0) && (negb (y mod 100 =? 0) || (y mod 400 =? 0)).

Definition days_before_year (y : Z) : Z :=
  let y1 := y - 1 in y1 * 365 + y1 / 4 - y1 / 100 + y1 / 400.

Definition days_before_month (y m : Z) : Z :=
  nth (Z.to_nat m) [0; 0; 31; 59; 90; 120; 151; 181; 212; 243; 273; 304; 334] 0
  + (if (2 <? m) && is_leap y then 1 else 0).

(** [date.toordinal()] and [date.weekday()] (Monday is 0). *)
Definition toordinal (t : datetime) : Z :=
  days_before_year (year t) + days_before_month (year t) (month t) + day t.

Definition weekday (t : datetime) : Z := (toordinal t + 6) mod 7.

(** [now.strftime("%a")] in the C locale. *)
Definition strftime_a (t : datetime) : string :=
  nth (Z.to_nat (weekday t)) ["Mon"; "Tue"; "Wed"; "Thu"; "Fri"; "Sat"; "Sun"] "".

Definition upper_char (c : ascii) : ascii :=
  let n := nat_of_ascii c in
  if ((97 <=? n) && (n <=? 122))%nat then ascii_of_nat (n - 32) else c.

(** [str.upper()] on ASCII text. *)
Fixpoint upper (s : string) : string :=
  match s with
  | EmptyString => EmptyString
  | String c s' => String (upper_char c) (upper s')
  end.

(** [ts.split("T")[0]]: the text before the first [T]. *)
Fixpoint before_T (ts : string) : string :=
  match ts with
  | EmptyString => EmptyString
  | String c rest =>
      if Ascii.eqb c "T" then EmptyString else String c (before_T rest)
  end.

(** ** SQL conditions *)

(** The value of a condition: true, false or NULL ([None]). *)
Module Sql.

Definition cond := option bool.

Definition and_ (a b : cond) : cond :=
  match a, b with
  | Some false, _ | _, Some false => Some false
  | Some true, Some true => Some true
  | _, _ => None
  end.

Definition or_ (a b : cond) : cond :=
  match a, b with
  | Some true, _ | _, Some true => Some true
  | Some false, Some false => Some false
  | _, _ => None
  end.

Definition is_null {T} (v : option T) : cond :=
  Some (match v with None => true | Some _ => false end).

(** [column = ?] with an INTEGER parameter. *)
Definition eq_int (v : option Z) (p : Z) : cond :=
  option_map (fun x => x =? p) v.

(** [column = ?], [column <= ?] and [column >= ?] with a TEXT
    parameter: the BINARY collation compares the bytes. *)
Definition eq_text (v : option string) (p : string) : cond :=
  option_map (fun x => String.eqb x p) v.

Definition le_text (v : option string) (p : string) : cond :=
  option_map (fun x => String.leb x p) v.

Definition ge_text (v : option string) (p : string) : cond :=
  option_map (fun x => String.leb p x) v.

(** A row is selected when the WHERE clause is true. *)
Definition holds (c : cond) : bool :=
  match c with Some true => true | _ => false end.

End Sql.

(** ** The tables *)

Inductive exn :=
  | OverflowError      (* int too large to convert to float *)
  | IntegrityError     (* NOT NULL constraint failed *)
  | OperationalError.  (* database or disk is full *)

(** What a call has done once the draws handed to it are consumed:
    returned a value, raised, or is still inside its [while True]. *)
Inductive outcome (R : Type) :=
  | Returned (r : R)
  | Raised (e : exn)
  | Retrying.

Arguments Returned {R} r.
Arguments Raised {R} e.
Arguments Retrying {R}.

Section Store.

Context {A : Arith}.
Local Open Scope num_scope.

(** A cart entry as [_add_to_cart] builds it; the list of them is the
    JSON payload of an order. *)
Record cart_item := {
  item_id : Z;
  item_name : string;
  price : num;
  original_price : num;
  offer_desc : option string;
  qty : Z
}.

Record order := {
  order_id : Z;
  user_id : string;
  items : list cart_item;
  total_amount : num;
  token_number : string;
  status : string;
  timestamp : string
}.

(** A row of [offers]: the eight columns the resolver selects, and
    [active]. *)
Record offer_row := {
  columns : offer;
  active : Z
}.

(** [orders_seq] is the entry of [sqlite_sequence] for the
    AUTOINCREMENT key of [orders]. *)
Record database := {
  orders : list order;
  orders_seq : Z;
  offers : list offer_row
}.

Definition empty_database : database :=
  {| orders := []; orders_seq := 0; offers := [] |}.

Definition tokens (db : database) : list string :=
  map token_number (orders db).

(** [SELECT 1 FROM orders WHERE token_number = ?] finds a row. *)
Definition token_in_use (db : database) (token : string) : bool :=
  existsb (fun o => String.eqb (token_number o) token) (orders db).

(** The loop of [_generate_unique_token] on the values
    [random.randint(1000, 9999)] returns one after the other; [None]
    when every one of them was in use and the loop goes on. *)
Fixpoint _generate_unique_token (draws : list Z) (db : database)
    : option string :=
  match draws with
  | [] => None
  | r :: rest =>
      let token := str r in
      if token_in_use db token then _generate_unique_token rest db
      else Some token
  end.

Definition max_rowid : Z := 9223372036854775807.

(** The rowid AUTOINCREMENT assigns: one more than the largest that
    ever existed in the table. *)
Definition next_order_id (db : database) : Z :=
  Z.max (orders_seq db) (fold_right Z.max 0 (map order_id (orders db))) + 1.

Definition create_order (now : datetime) (draws : list Z)
    (user : string) (its : list cart_item) (total : num)
    (db : database) : outcome (Z * database) :=
  match _generate_unique_token draws db with
  | None => Retrying
  | Some token =>
      if is_nan total then Raised IntegrityError   (* NaN is bound as NULL *)
      else
        let id := next_order_id db in
        if (max_rowid <? id)%Z then Raised OperationalError
        else
          Returned (id,
            {| orders := (orders db ++
                 [{| order_id := id; user_id := user; items := its;
                     total_amount := total; token_number := token;
                     status := "PLACED"; timestamp := isoformat now |}])%list;
               orders_seq := id;
               offers := offers db |})
  end.

(** [UPDATE orders SET status = ? WHERE order_id = ?] *)
Definition set_status (id : Z) (new_status : string) (o : order) : order :=
  if (order_id o =? id)%Z then
    {| order_id := order_id o; user_id := user_id o; items := items o;
       total_amount := total_amount o; token_number := token_number o;
       status := new_status; timestamp := timestamp o |}
  else o.

Definition update_order_status (id : Z) (new_status : string)
    (db : database) : database :=
  {| orders := map (set_status id new_status) (orders db);
     orders_seq := orders_seq db;
     offers := offers db |}.

(** *** Order.create *)

(** [float(i["price"]) * int(i["qty"])] *)
Definition line_total (i : cart_item) : option num :=
  option_map (fun q => price i * q) (of_int (qty i)).

Fixpoint line_totals (cart : list cart_item) : option (list num) :=
  match cart with
  | [] => Some []
  | i :: rest =>
      match line_total i, line_totals rest with
      | Some t, Some ts => Some (t :: ts)
      | _, _ => None
      end
  end.

(** [sum] adds the items to [0] from left to right: the algorithm of
    CPython up to 3.11, and of the exact instance. *)
Definition sum_left_to_right (l : list num) : num := fold_left add l zero.

(** The line [i] with quantity 1. *)
Definition single (i : cart_item) : cart_item :=
  {| item_id := item_id i; item_name := item_name i; price := price i;
     original_price := original_price i; offer_desc := offer_desc i; qty := 1 |}.

Section Checkout.

(** The built-in [sum] on floats; CPython 3.12 replaced the plain loop
    by a compensated one, so it is a parameter here. *)
Variable builtin_sum : list num -> num.

(** [round(total, 2)] of [Order.create]: the cart total. *)
Definition cart_total (cart : list cart_item) : option num :=
  option_map (fun ts => round2 (builtin_sum ts)) (line_totals cart).

Definition Order_create (now : datetime) (draws : list Z)
    (user : string) (cart : list cart_item) (db : database)
    : outcome (Z * database) :=
  match cart_total cart with
  | None => Raised OverflowError
  | Some total => create_order now draws user cart total db
  end.

(** What the application does to the ledger: a checkout
    ([Order(db).create]) or a status change. *)
Inductive call :=
  | PlaceOrder (now : datetime) (draws : list Z) (user : string)
               (cart : list cart_item)
  | SetStatus (id : Z) (new_status : string).

(** The tables after a call; [None] when the call is still drawing
    tokens.  An exception leaves the tables as they were. *)
Definition run_call (c : call) (db : database) : option database :=
  match c with
  | PlaceOrder now draws user cart =>
      match Order_create now draws user cart db with
      | Returned (_, db') => Some db'
      | Raised _ => Some db
      | Retrying => None
      end
  | SetStatus id new_status => Some (update_order_status id new_status db)
  end.

Fixpoint session (calls : list call) (db : database) : option database :=
  match calls with
  | [] => Some db
  | c :: rest =>
      match run_call c db with
      | Some db' => session rest db'
      | None => None
      end
  end.

End Checkout.

(** *** Reporting *)

(** A [dict] with [str] keys, in insertion order. *)
Definition dict := list (string * num).

Fixpoint dict_get (d : dict) (k : string) (default : num) : num :=
  match d with
  | [] => default
  | (k', v) :: rest => if String.eqb k' k then v else dict_get rest k default
  end.

Fixpoint dict_set (d : dict) (k : string) (v : num) : dict :=
  match d with
  | [] => [(k, v)]
  | (k', v') :: rest =>
      if String.eqb k' k then (k, v) :: rest else (k', v') :: dict_set rest k v
  end.

Section Revenue.

(** [datetime.fromisoformat(ts).date().isoformat()], [None] when
    [fromisoformat] raises; the texts it accepts depend on the Python
    version. *)
Variable fromisoformat_date : string -> option string.

Definition day_of (ts : string) : string :=
  match fromisoformat_date ts with
  | Some d => d
  | None => before_T ts
  end.

Definition revenue_step (totals : dict) (o : order) : dict :=
  let d := day_of (timestamp o) in
  dict_set totals d (round2 (dict_get totals d zero + total_amount o)).

Definition revenue_per_day (db : database) : dict :=
  fold_left revenue_step (orders db) [].

End Revenue.

(** The sum of the values of a report, and the sum of the amounts of
    all orders, for a given summation. *)
Definition buckets_total (sum : list num -> num) (report : dict) : num :=
  sum (map snd report).

Definition grand_total (sum : list num -> num) (db : database) : num :=
  sum (map total_amount (orders db)).

(** *** The offer resolver *)

Definition offer_where (item : Z) (current_date current_day : string)
    (r : offer_row) : Sql.cond :=
  let o := columns r in
  Sql.and_ (Sql.and_ (Sql.and_ (Sql.and_
    (Some (active r =? 1)%Z)
    (Sql.or_ (Sql.eq_int (offer_item_id o) item) (Sql.is_null (offer_item_id o))))
    (Sql.or_ (Sql.is_null (start_date o)) (Sql.le_text (start_date o) current_date)))
    (Sql.or_ (Sql.is_null (end_date o)) (Sql.ge_text (end_date o) current_date)))
    (Sql.or_ (Sql.is_null (day_of_week o)) (Sql.eq_text (day_of_week o) current_day)).

(** The query of [get_active_offers_for_item], with the clock reading
    for [datetime.now()]; [item] is an identifier of the INTEGER range. *)
Definition get_active_offers_for_item (now : datetime) (item : Z)
    (db : database) : list offer :=
  let current_date := date_isoformat now in
  let current_day := upper (strftime_a now) in
  map columns
    (filter (fun r => Sql.holds (offer_where item current_date current_day r))
            (offers db)).

(** What the WHERE clause asks of a row: active, for all items or for
    this one, a start date that as text is not after today's, an end
    date that as text is not before it, and for all days or for the
    day given.  The dates are compared as the texts they are stored
    as. *)
Definition applicable_as_text (now : datetime) (item : Z) (r : offer_row) : Prop :=
  let o := columns r in
  active r = 1%Z /\
  (offer_item_id o = None \/ offer_item_id o = Some item) /\
  (start_date o = None \/
   exists s, start_date o = Some s /\ String.leb s (date_isoformat now) = true) /\
  (end_date o = None \/
   exists e, end_date o = Some e /\ String.leb (date_isoformat now) e = true) /\
  (day_of_week o = None \/ day_of_week o = Some (upper (strftime_a now))).

End Store.

Arguments cart_item : clear implicits.
Arguments cart_item {A}.
Arguments order : clear implicits.
Arguments order {A}.
Arguments offer_row : clear implicits.
Arguments offer_row {A}.
Arguments database : clear implicits.
Arguments database {A}.
Arguments dict : clear implicits.
Arguments dict {A}.
Arguments call : clear implicits.
Arguments call {A}.

(** The values [random.randint(1000, 9999)] can return. *)
Definition all_draws : list Z :=
  map (fun n => 1000 + Z.of_nat n) (seq 0 (Z.to_nat 9000)).

Definition in_range (r : Z) : Prop := 1000 <= r <= 9999.

(** An amount with at most two decimals, in exact arithmetic. *)
Definition two_decimals (q : Qc) : Prop := exists k : Z, q = Q2Qc (k # 100).

(** ** Sample data *)

(** An offer for all items, without dates or day. *)
Definition sample_offer (id : Z) (name kind : string) (value : float)
    : @offer binary64 :=
  @Build_offer binary64 id name None kind value None None None.

Definition lunch_20_percent : @offer binary64 := sample_offer 1 "Lunch" "PERCENTAGE" 20.
Definition happy_hour_2_off : @offer binary64 := sample_offer 2 "Happy Hour" "FIXED" 2.
Definition mega_10_off : @offer binary64 := sample_offer 3 "Mega" "FIXED" 10.
Definition free_nothing : @offer binary64 := sample_offer 4 "Nothing" "FIXED" 0.
Definition zero_percent : @offer binary64 := sample_offer 5 "Zero" "PERCENTAGE" 0.

Definition tea_tuesday : @offer binary64 :=
  @Build_offer binary64 7 "Tea Tuesday" (Some 6) "FIXED" 2%float
    (Some "2025-11-01") None (Some "TUE").

(** Four rows of [offers]: one for all items and days, one switched
    off, one that ended in October 2025, one for item 6 on Tuesdays
    from November 2025 on. *)
Definition sample_offers : list (@offer_row binary64) :=
  [ {| columns := lunch_20_percent; active := 1 |};
    {| columns := mega_10_off; active := 0 |};
    {| columns := @Build_offer binary64 6 "Autumn" None "FIXED" 5%float
                    (Some "2025-09-01") (Some "2025-10-31") None;
       active := 1 |};
    {| columns := tea_tuesday; active := 1 |} ].

Definition sample_database : @database binary64 :=
  {| orders := []; orders_seq := 0; offers := sample_offers |}.

(** Tuesday 4 November 2025, at 00:18:55 and at 09:30:00; the first of
    that month. *)
Definition clock_0018 : datetime :=
  {| year := 2025; month := 11; day := 4; hour := 0; minute := 18; second := 55 |}.

Definition clock_0930 : datetime :=
  {| year := 2025; month := 11; day := 4; hour := 9; minute := 30; second := 0 |}.

Definition first_of_november : datetime :=
  {| year := 2025; month := 11; day := 1; hour := 0; minute := 0; second := 0 |}.

(** A cart line of the binary64 instance. *)
Definition line (id : Z) (name : string) (unit_price : float) (quantity : Z)
    : @cart_item binary64 :=
  @Build_cart_item binary64 id name unit_price unit_price None quantity.

(** Three teas at the price left by [happy_hour_2_off]. *)
Definition three_teas : list (@cart_item binary64) :=
  [@Build_cart_item binary64 6 "Tea" 8%float 10%float
     (Some "Happy Hour: Rs 2.00 off") 3].

(** An order holding the token [t]. *)
Definition order_with_token (id : Z) (t : string) : @order binary64 :=
  @Build_order binary64 id "S001" three_teas 24%float t "PLACED"
    "2025-11-04T00:18:55".

(** A ledger in which the token ["1000"] is taken and the others are
    free. *)
Definition ledger_1000 : @database binary64 :=
  {| orders := [order_with_token 1 "1000"]; orders_seq := 1; offers := [] |}.

(** A ledger in which each of the 9000 tokens is taken. *)
Definition full_ledger : @database binary64 :=
  {| orders := map (fun r => order_with_token (r - 999) (str r)) all_draws;
     orders_seq := 9000; offers := [] |}.

(** Prices [0.625], [2^-54] and [2^-107]: the second is half the gap
    between [0.625] and the next double, the third a quarter of the gap
    after [2^-54]. *)
Definition cart_big_first : list (@cart_item binary64) :=
  [line 1 "a" 0x1.4p-1 1; line 2 "b" 0x1p-54 1; line 3 "c" 0x1p-107 1;
   line 4 "d" 0x1p-107 1].

Definition cart_small_first : list (@cart_item binary64) :=
  [line 3 "c" 0x1p-107 1; line 4 "d" 0x1p-107 1; line 2 "b" 0x1p-54 1;
   line 1 "a" 0x1.4p-1 1].

(** A line of three at the price [0x1.5555555555556p-56] (a third of
    [2^-54], rounded up) between lines at [0.125] and [0.5]. *)
Definition line_of_three : @cart_item binary64 :=
  line 2 "b" 0x1.5555555555556p-56 3.

Definition cart_one_line_of_three : list (@cart_item binary64) :=
  [line 1 "a" 0x1p-3 1; line_of_three; line 3 "c" 0x1p-1 1].

Definition cart_three_lines_of_one : list (@cart_item binary64) :=
  [line 1 "a" 0x1p-3 1; single line_of_three; single line_of_three;
   single line_of_three; line 3 "c" 0x1p-1 1].

(** Prices 0.47, 1.875 and 0.03 as doubles. *)
Definition cart_snacks : list (@cart_item binary64) :=
  [line 1 "Bun" 0x1.e147ae147ae14p-2 1; line 2 "Dosa" 0x1.ep+0 1;
   line 3 "Mint" 0x1.eb851eb851eb8p-6 1].

Definition cart_snacks_reordered : list (@cart_item binary64) :=
  [line 3 "Mint" 0x1.eb851eb851eb8p-6 1; line 1 "Bun" 0x1.e147ae147ae14p-2 1;
   line 2 "Dosa" 0x1.ep+0 1].

(** A cart line of the exact instance. *)
Definition exact_line (id : Z) (name : string) (unit_price : Q) (quantity : Z)
    : @cart_item exact :=
  @Build_cart_item exact id name (Q2Qc unit_price) (Q2Qc unit_price) None quantity.

Definition exact_snacks : list (@cart_item exact) :=
  [exact_line 1 "Bun" (47 # 100) 1; exact_line 2 "Dosa" (15 # 8) 3;
   exact_line 3 "Mint" (3 # 100) 1].

Definition exact_snacks_reordered : list (@cart_item exact) :=
  [exact_line 3 "Mint" (3 # 100) 1; exact_line 1 "Bun" (47 # 100) 1;
   exact_line 2 "Dosa" (15 # 8) 3].

Definition exact_snacks_split : list (@cart_item exact) :=
  [exact_line 1 "Bun" (47 # 100) 1; exact_line 2 "Dosa" (15 # 8) 1;
   exact_line 2 "Dosa" (15 # 8) 1; exact_line 2 "Dosa" (15 # 8) 1;
   exact_line 3 "Mint" (3 # 100) 1].

(** [fromisoformat] on the timestamps [create_order] writes,
    [YYYY-MM-DDTHH:MM:SS]; in the examples any other text is taken to
    raise. *)
Fixpoint has_shape (pattern ts : string) : bool :=
  match pattern, ts with
  | EmptyString, EmptyString => true
  | String p pattern', String c ts' =>
      (if Ascii.eqb p "d"
       then let n := nat_of_ascii c in ((48 <=? n) && (n <=? 57))%nat
       else Ascii.eqb p c) && has_shape pattern' ts'
  | _, _ => false
  end.

Definition fromisoformat_written (ts : string) : option string :=
  if has_shape "dddd-dd-ddTdd:dd:dd" ts then Some (substring 0 10 ts) else None.

(** Two orders of one day, of 0.1 and 0.2 (as doubles). *)
Definition ledger_two_small : @database binary64 :=
  {| orders :=
       [@Build_order binary64 1 "S001" [line 1 "Mint" 0x1.999999999999ap-4 1]
          0x1.999999999999ap-4%float "1234" "PLACED" "2025-11-04T00:18:55";
        @Build_order binary64 2 "S002" [line 2 "Gum" 0x1.999999999999ap-3 1]
          0x1.999999999999ap-3%float "5678" "PLACED" "2025-11-04T09:30:00"];
     orders_seq := 2; offers := [] |}.

(** Three orders of two days, in exact arithmetic. *)
Definition exact_ledger : @database exact :=
  {| orders :=
       [@Build_order exact 1 "S001" [] (Q2Qc (1 # 10)) "1234" "PLACED"
          "2025-11-04T00:18:55";
        @Build_order exact 2 "S002" [] (Q2Qc (2 # 10)) "5678" "READY"
          "2025-11-04T09:30:00";
        @Build_order exact 3 "S001" [] (Q2Qc (2375 # 100)) "9012" "PLACED"
          "2025-11-05T12:00:00"];
     orders_seq := 3; offers := [] |}.

(** Two checkouts and a status change, and the tables they leave. *)
Definition sample_session : list (@call binary64) :=
  [PlaceOrder clock_0018 [1234] "S001" three_teas;
   PlaceOrder clock_0930 [1234; 1234; 5678] "S002" three_teas;
   SetStatus 1 "READY"].

Definition ledger_after_session : @database binary64 :=
  {| orders :=
       [@Build_order binary64 1 "S001" three_teas 24%float "1234" "READY"
          "2025-11-04T00:18:55";
        @Build_order binary64 2 "S002" three_teas 24%float "5678" "PLACED"
          "2025-11-04T09:30:00"];
     orders_seq := 2; offers := [] |}.

(** [ledger_1000] after a checkout of [three_teas] at 09:30 on the
    draws 1000 and 4321. *)
Definition ledger_1000_4321 : @database binary64 :=
  {| orders :=
       [order_with_token 1 "1000";
        @Build_order binary64 2 "S002" three_teas 24%float "4321" "PLACED"
          "2025-11-04T09:30:00"];
     orders_seq := 2; offers := [] |}.

(** ** Ordered results *)

Section OrderBy.

Context {T : Type}.

(** [before y x]: the key of the row [y] puts it strictly before the
    row [x]. *)
Variable before : T -> T -> bool.

(** [x] goes in front of the first row that does not have to come
    before it. *)
Fixpoint place (x : T) (rows : list T) : list T :=
  match rows with
  | [] => [x]
  | y :: rest => if before y x then y :: place x rest else x :: y :: rest
  end.

(** The rows in the order of the key, rows of equal keys in the order
    they had: Python's [sorted], and an [ORDER BY] of SQLite on a key
    that is unique in the table. *)
Definition order_by (rows : list T) : list T := fold_right place [] rows.

(** No row of the list has a later row that has to come before it. *)
Definition in_order : list T -> Prop :=
  StronglySorted (fun a b => before b a = false).

End OrderBy.

(** The order of an integer key, largest first: [ORDER BY key DESC],
    and [sorted(..., key=..., reverse=True)]. *)
Definition larger_first {T : Type} (key : T -> Z) (y x : T) : bool :=
  (key y >? key x)%Z.

(** A [dict] in insertion order, with the equality of its keys. *)
Section PyDict.

Context {K V : Type}.
Variable key_eqb : K -> K -> bool.

Fixpoint pydict_get (d : list (K * V)) (k : K) (default : V) : V :=
  match d with
  | [] => default
  | (k', v) :: rest => if key_eqb k' k then v else pydict_get rest k default
  end.

Fixpoint pydict_set (d : list (K * V)) (k : K) (v : V) : list (K * V) :=
  match d with
  | [] => [(k, v)]
  | (k', v') :: rest =>
      if key_eqb k' k then (k, v) :: rest else (k', v') :: pydict_set rest k v
  end.

Definition pydict_has (d : list (K * V)) (k : K) : bool :=
  existsb (fun kv => key_eqb (fst kv) k) d.

End PyDict.

(** The sum of integers. *)
Definition int_sum (l : list Z) : Z := fold_right Z.add 0 l.

(** ** Reading the ledger *)

Section Reads.

Context {A : Arith}.
Local Open Scope num_scope.

(** [ORDER BY order_id DESC] *)
Definition latest_first (rows : list order) : list order :=
  order_by (larger_first order_id) rows.

(** [list_orders(status)]: [if status] is false of [None] and of the
    empty text, and the query then has no WHERE clause.  The [items]
    column is the JSON text of the cart, read back by [json.loads]. *)
Definition list_orders (status_filter : option string) (db : database)
    : list order :=
  latest_first
    (match status_filter with
     | None => orders db
     | Some s =>
         if String.eqb s "" then orders db
         else filter (fun o => String.eqb (status o) s) (orders db)
     end).

Definition list_orders_for_user (user : string) (db : database) : list order :=
  latest_first (filter (fun o => String.eqb (user_id o) user) (orders db)).

(** The key of [sorted] in [StudentDashboard._load_orders],
    [(d["status"] != "PLACED", -d["order_id"])], and the order of two
    such tuples. *)
Definition current_first_key (o : order) : bool * Z :=
  (negb (String.eqb (status o) "PLACED"), - order_id o).

Definition tuple_ltb (k1 k2 : bool * Z) : bool :=
  match fst k1, fst k2 with
  | false, true => true
  | true, false => false
  | _, _ => (snd k1 <? snd k2)%Z
  end.

(** The rows [_load_orders] shows, top to bottom. *)
Definition _load_orders (user : string) (db : database) : list order :=
  order_by (fun y x => tuple_ltb (current_first_key y) (current_first_key x))
           (list_orders_for_user user db).

(** *** Reports *)

(** [counts[name] = counts.get(name, 0) + qty] for a line of an order;
    every line [_add_to_cart] builds has its ["qty"]. *)
Definition sales_step (counts : list (string * Z)) (it : cart_item)
    : list (string * Z) :=
  let name := item_name it in
  pydict_set String.eqb counts name (pydict_get String.eqb counts name 0 + qty it)%Z.

Definition sales_by_item (db : database) : list (string * Z) :=
  fold_left (fun counts o => fold_left sales_step (items o) counts) (orders db) [].

(** All lines of all orders, in the order the report reads them. *)
Definition sold_lines (db : database) : list cart_item :=
  flat_map items (orders db).

(** The quantity sold under a name. *)
Definition quantity_sold (name : string) (lines : list cart_item) : Z :=
  int_sum (map qty (filter (fun it => String.eqb (item_name it) name) lines)).

(** What the loop of [sales_by_item] keeps true of [counts] and the
    lines read so far. *)
Definition sales_inv (counts : list (string * Z)) (lines : list cart_item) : Prop :=
  (forall name, pydict_get String.eqb counts name 0%Z = quantity_sold name lines) /\
  NoDup (map fst counts) /\
  (forall name, In name (map fst counts) <-> In name (map item_name lines)) /\
  int_sum (map snd counts) = int_sum (map qty lines).

(** [labels] and [values] of [most_selling_items_figure]:
    [sorted(counts.items(), key=lambda x: x[1], reverse=True)[:10]]. *)
Definition top_selling (counts : list (string * Z)) : list (string * Z) :=
  firstn 10 (order_by (larger_first snd) counts).

Definition most_selling_items (db : database) : list string * list Z :=
  let items := top_selling (sales_by_item db) in
  (map fst items, map snd items).

Section Hours.

(** [datetime.fromisoformat(ts).hour], [None] when [fromisoformat]
    raises. *)
Variable fromisoformat_hour : string -> option Z.

(** [{h: 0 for h in range(24)}] *)
Definition empty_hours : list (Z * Z) :=
  map (fun h => (Z.of_nat h, 0%Z)) (seq 0 24).

(** The body of the loop: [buckets[dt_obj.hour] += 1] inside the
    [try]; a KeyError is passed over like a ValueError. *)
Definition hour_step (buckets : list (Z * Z)) (o : order) : list (Z * Z) :=
  match fromisoformat_hour (timestamp o) with
  | Some h =>
      if pydict_has Z.eqb buckets h
      then pydict_set Z.eqb buckets h (pydict_get Z.eqb buckets h 0 + 1)%Z
      else buckets
  | None => buckets
  end.

Definition orders_per_hour (db : database) : list (Z * Z) :=
  fold_left hour_step (orders db) empty_hours.

(** The orders counted for the hour [h]. *)
Definition placed_in_hour (h : Z) (db : database) : Z :=
  Z.of_nat (List.length
    (filter (fun o => match fromisoformat_hour (timestamp o) with
                      | Some h' => (h' =? h)%Z
                      | None => false
                      end) (orders db))).

End Hours.

End Reads.

(** ** Users, menu and offers *)

(** A row of [menu]; [available] is the INTEGER column. *)
Module Menu.
Section Rows.
Context {A : Arith}.
Record row := {
  item_id : Z;
  item_name : string;
  price : num;
  available : Z
}.
End Rows.
Arguments row : clear implicits.
Arguments row {A}.
End Menu.

(** The dictionary [list_menu] builds for a row: [available] is
    [bool(r[3])]. *)
Module MenuItem.
Section Dicts.
Context {A : Arith}.
Record dict := {
  item_id : Z;
  item_name : string;
  price : num;
  available : bool
}.
End Dicts.
Arguments dict : clear implicits.
Arguments dict {A}.
End MenuItem.

(** A row of [users], and the dictionary [get_user] builds for it. *)
Module User.
Record row := {
  user_id : string;
  name : string;
  role : string
}.
End User.

Section Catalog.

Context {A : Arith}.
Local Open Scope num_scope.

(** The file [canteen.db]: the orders and offers of [database] with the
    other tables; [offers_seq] and [menu_seq] are the entries of
    [sqlite_sequence] for the AUTOINCREMENT keys of [offers] and
    [menu]. *)
Record canteen_db := {
  ledger : database;
  offers_seq : Z;
  menu : list Menu.row;
  menu_seq : Z;
  users : list User.row
}.

(** The file once [_ensure_db] has created the four tables in it. *)
Definition new_file : canteen_db :=
  {| ledger := empty_database; offers_seq := 0; menu := []; menu_seq := 0;
     users := [] |}.

Definition with_offers (rows : list offer_row) (sequence : Z) (db : canteen_db)
    : canteen_db :=
  {| ledger := {| orders := orders (ledger db);
                  orders_seq := orders_seq (ledger db);
                  offers := rows |};
     offers_seq := sequence; menu := menu db; menu_seq := menu_seq db;
     users := users db |}.

Definition with_menu (rows : list Menu.row) (sequence : Z) (db : canteen_db)
    : canteen_db :=
  {| ledger := ledger db; offers_seq := offers_seq db; menu := rows;
     menu_seq := sequence; users := users db |}.

Definition with_users (rows : list User.row) (db : canteen_db) : canteen_db :=
  {| ledger := ledger db; offers_seq := offers_seq db; menu := menu db;
     menu_seq := menu_seq db; users := rows |}.

(** The rowid AUTOINCREMENT assigns in a table with the identifiers
    [ids] and the sequence entry [sequence]. *)
Definition next_rowid (sequence : Z) (ids : list Z) : Z :=
  Z.max sequence (fold_right Z.max 0 ids) + 1.

(** *** Users *)

(** [SELECT ... FROM users WHERE user_id = ?] and [fetchone]. *)
Definition get_user (uid : string) (db : canteen_db) : option User.row :=
  find (fun u => String.eqb (User.user_id u) uid) (users db).

Definition get_user_by_name_and_id (name uid : string) (db : canteen_db)
    : option User.row :=
  find (fun u => String.eqb (User.user_id u) uid && String.eqb (User.name u) name)
       (users db).

(** [user_id] is the primary key: a second row with it is refused. *)
Definition create_user (uid name role : string) (db : canteen_db)
    : outcome canteen_db :=
  if existsb (fun u => String.eqb (User.user_id u) uid) (users db)
  then Raised IntegrityError
  else Returned
         (with_users
            (users db ++ [{| User.user_id := uid; User.name := name;
                             User.role := role |}])%list db).

Section Login.

(** [str.lower] *)
Variable lower : string -> string.

(** [LoginWindow._register] on the texts of the three fields after
    [strip()]: the title of the message box it shows, and the file. *)
Definition _register (name uid role : string) (db : canteen_db)
    : outcome (string * canteen_db) :=
  if String.eqb name "" || String.eqb uid "" then Returned ("Missing", db)
  else
    match get_user uid db with
    | Some _ => Returned ("Exists", db)
    | None =>
        match create_user uid name role db with
        | Returned db' => Returned ("Registered", db')
        | Raised e => Raised e
        | Retrying => Retrying
        end
    end.

(** [LoginWindow._login]: the title of the message box, or the user
    handed to [set_user]. *)
Definition _login (name uid role : string) (db : canteen_db)
    : string + User.row :=
  if String.eqb name "" || String.eqb uid "" then inl "Missing"
  else
    match get_user_by_name_and_id name uid db with
    | None => inl "Not found"
    | Some user =>
        if String.eqb (lower (User.role user)) (lower role) then inr user
        else inl "Role mismatch"
    end.

End Login.

(** *** Menu *)

Definition name_taken (rows : list Menu.row) (name : string) : bool :=
  existsb (fun m => String.eqb (Menu.item_name m) name) rows.

Definition menu_row (id : Z) (name : string) (price : num) (is_available : bool)
    : Menu.row :=
  {| Menu.item_id := id; Menu.item_name := name; Menu.price := price;
     Menu.available := if is_available then 1 else 0 |}.

(** [INSERT INTO menu]: the rowid is assigned first, then the NOT NULL
    and UNIQUE constraints are checked (a NaN is bound as NULL). *)
Definition add_menu_item (name : string) (price : num) (is_available : bool)
    (db : canteen_db) : outcome canteen_db :=
  let id := next_rowid (menu_seq db) (map Menu.item_id (menu db)) in
  if (max_rowid <? id)%Z then Raised OperationalError
  else if is_nan price || name_taken (menu db) name then Raised IntegrityError
  else Returned (with_menu (menu db ++ [menu_row id name price is_available])%list
                           id db).

(** [UPDATE menu SET ... WHERE item_id = ?]: the constraints are
    checked on a row that is updated, the name against the other
    rows. *)
Definition update_menu_item (id : Z) (name : string) (price : num)
    (is_available : bool) (db : canteen_db) : outcome canteen_db :=
  if existsb (fun m => (Menu.item_id m =? id)%Z) (menu db) &&
     (is_nan price ||
      existsb (fun m => negb (Menu.item_id m =? id)%Z &&
                        String.eqb (Menu.item_name m) name) (menu db))
  then Raised IntegrityError
  else Returned
         (with_menu
            (map (fun m => if (Menu.item_id m =? id)%Z
                           then menu_row id name price is_available else m)
                 (menu db))
            (menu_seq db) db).

Definition delete_menu_item (id : Z) (db : canteen_db) : canteen_db :=
  with_menu (filter (fun m => negb (Menu.item_id m =? id)%Z) (menu db))
            (menu_seq db) db.

(** [ORDER BY item_name ASC], in the BINARY collation. *)
Definition list_menu (db : canteen_db) : list MenuItem.dict :=
  map (fun m => {| MenuItem.item_id := Menu.item_id m;
                   MenuItem.item_name := Menu.item_name m;
                   MenuItem.price := Menu.price m;
                   MenuItem.available := negb (Menu.available m =? 0)%Z |})
      (order_by (fun y x => String.ltb (Menu.item_name y) (Menu.item_name x))
                (menu db)).

(** The statements of an [executemany], one after the other; an
    exception ends it, and the transaction is rolled back. *)
Fixpoint executemany {X : Type} (statement : X -> canteen_db -> outcome canteen_db)
    (parameters : list X) (db : canteen_db) : outcome canteen_db :=
  match parameters with
  | [] => Returned db
  | p :: rest =>
      match statement p db with
      | Returned db' => executemany statement rest db'
      | other => other
      end
  end.

(** [INSERT OR IGNORE INTO menu]: a row that fails a constraint is
    left out, and its rowid is used up all the same. *)
Definition insert_or_ignore (item : string * num * Z) (db : canteen_db)
    : outcome canteen_db :=
  let '(name, price, avail) := item in
  let id := next_rowid (menu_seq db) (map Menu.item_id (menu db)) in
  if (max_rowid <? id)%Z then Raised OperationalError
  else if is_nan price || name_taken (menu db) name
       then Returned (with_menu (menu db) id db)
       else Returned
              (with_menu
                 (menu db ++ [{| Menu.item_id := id; Menu.item_name := name;
                                 Menu.price := price; Menu.available := avail |}])%list
                 id db).

(** The keys of [menu] are unique (PRIMARY KEY, UNIQUE) and none is
    above the sequence entry. *)
Definition menu_ok (db : canteen_db) : Prop :=
  NoDup (map Menu.item_id (menu db)) /\
  NoDup (map Menu.item_name (menu db)) /\
  Forall (fun m => Menu.item_id m <= menu_seq db)%Z (menu db).

(** *** Offers *)

Definition offer_ids (db : canteen_db) : list Z :=
  map (fun r => offer_id (columns r)) (offers (ledger db)).

Definition offer_row_of (id : Z) (name : string) (item : option Z) (kind : string)
    (value : num) (starts ends day : option string) (is_active : bool)
    : offer_row :=
  {| columns := {| offer_id := id; offer_name := name; offer_item_id := item;
                   discount_type := kind; discount_value := value;
                   start_date := starts; end_date := ends; day_of_week := day |};
     active := if is_active then 1 else 0 |}.

(** [create_offer]; the foreign key on [item_id] is declared, and
    SQLite does not enforce it on a connection that has not switched
    foreign keys on. *)
Definition create_offer (name : string) (item : option Z) (kind : string)
    (value : num) (starts ends day : option string) (is_active : bool)
    (db : canteen_db) : outcome (Z * canteen_db) :=
  let id := next_rowid (offers_seq db) (offer_ids db) in
  if (max_rowid <? id)%Z then Raised OperationalError
  else if is_nan value then Raised IntegrityError
  else Returned
         (id, with_offers
                (offers (ledger db) ++
                 [offer_row_of id name item kind value starts ends day is_active])%list
                id db).

Definition update_offer (id : Z) (name : string) (item : option Z) (kind : string)
    (value : num) (starts ends day : option string) (is_active : bool)
    (db : canteen_db) : outcome canteen_db :=
  if existsb (fun r => (offer_id (columns r) =? id)%Z) (offers (ledger db)) &&
     is_nan value
  then Raised IntegrityError
  else Returned
         (with_offers
            (map (fun r => if (offer_id (columns r) =? id)%Z
                           then offer_row_of id name item kind value starts ends day
                                             is_active
                           else r)
                 (offers (ledger db)))
            (offers_seq db) db).

Definition delete_offer (id : Z) (db : canteen_db) : canteen_db :=
  with_offers (filter (fun r => negb (offer_id (columns r) =? id)%Z)
                      (offers (ledger db)))
              (offers_seq db) db.

(** The dictionary [list_offers] builds: the eight columns, the name of
    the menu item and [bool(active)]. *)
Record listed_offer := {
  listed : offer;
  listed_item_name : string;
  listed_active : bool
}.

(** [offers o LEFT JOIN menu m ON o.item_id = m.item_id]: the row with
    the name of each menu row it meets, or once with NULL. *)
Definition left_join_menu (rows : list Menu.row) (r : offer_row)
    : list (offer_row * option string) :=
  match filter (fun m => Sql.holds (Sql.eq_int (offer_item_id (columns r))
                                               (Menu.item_id m))) rows with
  | [] => [(r, None)]
  | met => map (fun m => (r, Some (Menu.item_name m))) met
  end.

(** The name the join finds for an offer when [item_id] is unique in
    [menu], as its primary key makes it. *)
Definition joined_name (rows : list Menu.row) (r : offer_row) : option string :=
  match offer_item_id (columns r) with
  | Some i =>
      option_map Menu.item_name (find (fun m => (i =? Menu.item_id m)%Z) rows)
  | None => None
  end.

(** [r[3] if r[3] else "All Items"] *)
Definition shown_item_name (joined : option string) : string :=
  match joined with
  | Some n => if String.eqb n "" then "All Items" else n
  | None => "All Items"
  end.

Definition list_offers (db : canteen_db) : list listed_offer :=
  map (fun rn : offer_row * option string =>
         {| listed := columns (fst rn);
            listed_item_name := shown_item_name (snd rn);
            listed_active := negb (active (fst rn) =? 0)%Z |})
      (order_by (larger_first (fun rn : offer_row * option string =>
                                 offer_id (columns (fst rn))))
                (flat_map (left_join_menu (menu db)) (offers (ledger db)))).

End Catalog.

Arguments canteen_db : clear implicits.
Arguments canteen_db {A}.
Arguments listed_offer : clear implicits.
Arguments listed_offer {A}.

(** *** The default menu *)

(** [default_items] of [_seed_menu]. *)
Definition default_items : list (string * float * Z) :=
  [("Masala Dosa", 50%float, 1); ("Idli Sambar", 35%float, 1);
   ("Veg Sandwich", 45%float, 1); ("Pav Bhaji", 70%float, 1);
   ("Chole Bhature", 80%float, 1); ("Tea", 10%float, 1);
   ("Coffee", 15%float, 1)].

Definition _seed_menu (db : @canteen_db binary64) : outcome (@canteen_db binary64) :=
  executemany (insert_or_ignore (A:=binary64)) default_items db.

(** [_ensure_db] on a file that has its tables (CREATE TABLE IF NOT
    EXISTS leaves them alone): the menu is seeded when [list_menu()]
    is empty. *)
Definition _ensure_db (db : @canteen_db binary64) : outcome (@canteen_db binary64) :=
  match list_menu db with
  | [] => _seed_menu db
  | _ => Returned db
  end.

(** ** The cart of the student dashboard *)

Section Cart.

Context {A : Arith}.
Local Open Scope num_scope.

(** [self.cart]: the lines by [item_id], in insertion order. *)
Definition cart := list (Z * cart_item).

(** A line with the price and description that
    [calculate_discounted_price] gives for its [original_price] and the
    offers of the moment. *)
Definition priced (now : datetime) (db : database) (it : cart_item) : cart_item :=
  let offers := get_active_offers_for_item now (item_id it) db in
  let '(discounted_price, desc) :=
    calculate_discounted_price (original_price it) offers in
  {| item_id := item_id it; item_name := item_name it; price := discounted_price;
     original_price := original_price it; offer_desc := desc; qty := qty it |}.

Section Refresh.

(** The clock reading when the offers of an item are looked up. *)
Variable now_at : Z -> datetime.
Variable db : database.

(** The loop of [_refresh_cart] from the running [total]: each line is
    priced again and its total added; an OverflowError of
    [float(price) * int(qty)] leaves the lines after it as they were
    ([None] for the total). *)
Fixpoint refresh_lines (lines : cart) (total : num) : cart * option num :=
  match lines with
  | [] => ([], Some total)
  | (k, it) :: rest =>
      let it' := priced (now_at (item_id it)) db it in
      match line_total it' with
      | None => ((k, it') :: rest, None)
      | Some line =>
          let '(rest', t) := refresh_lines rest (total + line) in
          ((k, it') :: rest', t)
      end
  end.

(** [_refresh_cart]: the cart it leaves and the [total] it has added
    up; [total_var] is set to [f"{total:.2f}"]. *)
Definition _refresh_cart (c : cart) : cart * option num := refresh_lines c zero.

Definition total_var (total : num) : string := format_2f total.

(** [_add_to_cart] for the selected menu row [selected] with the name
    and price its row shows and the quantity of the spin box; [now1]
    and [now2] are the clock readings of its own two look-ups. *)
Definition _add_to_cart (now1 now2 : datetime) (selected : Z) (name : string)
    (original : num) (quantity : Z) (c : cart) : cart * option num :=
  let '(price1, desc1) :=
    calculate_discounted_price original
      (get_active_offers_for_item now1 selected db) in
  let '(price2, desc2) :=
    calculate_discounted_price original
      (get_active_offers_for_item now2 selected db) in
  _refresh_cart
    (if pydict_has Z.eqb c selected
     then
       map (fun kv : Z * cart_item =>
              if (fst kv =? selected)%Z
              then (fst kv,
                    {| item_id := item_id (snd kv); item_name := item_name (snd kv);
                       price := price2; original_price := original;
                       offer_desc := desc2;
                       qty := (qty (snd kv) + quantity)%Z |})
              else kv) c
     else
       pydict_set Z.eqb c selected
         {| item_id := selected; item_name := name; price := price1;
            original_price := original; offer_desc := desc1; qty := quantity |}).

End Refresh.

(** The key, item and quantity of a line. *)
Definition line_shape (kv : Z * cart_item) : Z * Z * Z :=
  (fst kv, item_id (snd kv), qty (snd kv)).

(** The quantity of an item in the cart. *)
Definition cart_qty (c : cart) (k : Z) : Z :=
  match find (fun kv => (fst kv =? k)%Z) c with
  | Some kv => qty (snd kv)
  | None => 0%Z
  end.

(** Every line is stored under its own [item_id]. *)
Definition cart_ok (c : cart) : Prop :=
  Forall (fun kv => item_id (snd kv) = fst kv) c /\ NoDup (map fst c).

End Cart.

Arguments cart : clear implicits.
Arguments cart {A}.

(** ** More sample data *)

(** The menu [_seed_menu] leaves in a new file. *)
Definition seeded_menu : list (@Menu.row binary64) :=
  [ @Menu.Build_row binary64 1 "Masala Dosa" 50%float 1;
    @Menu.Build_row binary64 2 "Idli Sambar" 35%float 1;
    @Menu.Build_row binary64 3 "Veg Sandwich" 45%float 1;
    @Menu.Build_row binary64 4 "Pav Bhaji" 70%float 1;
    @Menu.Build_row binary64 5 "Chole Bhature" 80%float 1;
    @Menu.Build_row binary64 6 "Tea" 10%float 1;
    @Menu.Build_row binary64 7 "Coffee" 15%float 1 ].

Definition sample_users : list User.row :=
  [ {| User.user_id := "S001"; User.name := "Asha"; User.role := "Student" |};
    {| User.user_id := "M001"; User.name := "Ravi"; User.role := "Manager" |} ].

(** A file with the seeded menu, the four offers of [sample_offers],
    two users and no order. *)
Definition sample_canteen : @canteen_db binary64 :=
  {| ledger := sample_database; offers_seq := 7; menu := seeded_menu;
     menu_seq := 7; users := sample_users |}.

Definition lower_char (c : ascii) : ascii :=
  let n := nat_of_ascii c in
  if ((65 <=? n) && (n <=? 90))%nat then ascii_of_nat (n + 32) else c.

(** [str.lower()] on ASCII text. *)
Fixpoint lower (s : string) : string :=
  match s with
  | EmptyString => EmptyString
  | String c s' => String (lower_char c) (lower s')
  end.

(** [sample_canteen] after an offer of 10 percent on all items has
    been created. *)
Definition canteen_with_diwali : @canteen_db binary64 :=
  with_offers
    (sample_offers ++
     [offer_row_of (A:=binary64) 8 "Diwali" None "PERCENTAGE" 10%float
        None None None true])%list
    8 sample_canteen.

(** That file after the offer has been deleted and an offer of 5
    rupees has been created. *)
Definition canteen_with_holi : @canteen_db binary64 :=
  with_offers
    (sample_offers ++
     [offer_row_of (A:=binary64) 9 "Holi" None "FIXED" 5%float
        None None None true])%list
    9 sample_canteen.

(** A cart with [quantity] teas, as [_add_to_cart] leaves it on a
    Tuesday with the offers of [sample_database]. *)
Definition tea_cart (quantity : Z) : @cart binary64 :=
  [(6, @Build_cart_item binary64 6 "Tea" 8%float 10%float
         (Some "Lunch: 20% off") quantity)].

(** The hour [fromisoformat] reads in a timestamp [create_order] has
    written; in the examples any other text is taken to raise. *)
Definition digit_value (c : ascii) : Z := Z.of_nat (nat_of_ascii c - 48).

Definition fromisoformat_hour_written (ts : string) : option Z :=
  if has_shape "dddd-dd-ddTdd:dd:dd" ts
  then match get 11 ts, get 12 ts with
       | Some c1, Some c2 => Some (10 * digit_value c1 + digit_value c2)
       | _, _ => None
       end
  else None.

(** ** Ties between positive amounts *)

(** Two amounts above [0.0] of which neither is greater than the other
    are the same number, and [0.0 >= 0.0]. *)
Class PositiveOrder (A : Arith) : Prop := {
  gtb_tie : forall x y : num,
    (x >? zero)%num = true -> (y >? zero)%num = true ->
    (x >? y)%num = false -> (y >? x)%num = false -> x = y;
  geb_zero : (zero >=? zero)%num = true
}.

(** ** The words of the specification *)

(** [k / 10^p] written with [p] decimals, for [k >= 0]: the digits of
    the whole part, and after a point the [p] digits of the rest. *)
Definition decimal (p : nat) (k : Z) : string :=
  str (k / 10 ^ Z.of_nat p) ++
  match p with
  | O => ""
  | _ => "." ++ fixed_width p (k mod 10 ^ Z.of_nat p)
  end.

(** *** Rounding to decimals, as the specification words it *)

(** [k] is the integer nearest to [m * 2^e * 10^p], the even one when
    two are as near: with [x = n / d], [|k - x| <= 1/2]. *)
Definition nearest_units (p : nat) (m : positive) (e : Z) (k : Z) : Prop :=
  let n := Zpos m * 10 ^ Z.of_nat p * 2 ^ Z.max e 0 in
  let d := 2 ^ Z.max (- e) 0 in
  2 * Z.abs (k * d - n) <= d /\
  (2 * Z.abs (k * d - n) = d -> Z.even k = true).

Definition sign_text (negative : bool) : string := if negative then "-" else "".

(** [text] is the double [x] formatted with [p] decimals. *)
Definition fixed_decimals (p : nat) (x : float) (text : string) : Prop :=
  match Prim2SF x with
  | S754_nan => text = "nan"
  | S754_infinity s => text = sign_text s ++ "inf"
  | S754_zero s => text = sign_text s ++ decimal p 0
  | S754_finite s m e =>
      exists k : Z, nearest_units p m e k /\ text = sign_text s ++ decimal p k
  end.


(** Offers of 0.05 rupees and of 12.5 percent, for all items. *)
Definition five_paise_off : @offer binary64 :=
  sample_offer 10 "Penny" "FIXED" 0x1.999999999999ap-5.

Definition half_quarter_percent : @offer binary64 :=
  sample_offer 11 "Eighth" "PERCENTAGE" 12.5.

(** *** Days and weekdays, as the specification words them *)

Definition days_in_year (y : Z) : Z := if is_leap y then 366 else 365.

Definition days_in_month (y m : Z) : Z :=
  if m =? 2 then (if is_leap y then 29 else 28)
  else if (m =? 4) || (m =? 6) || (m =? 9) || (m =? 11) then 30
  else 31.

(** A day of the calendar, in the years a [date] can have. *)
Definition calendar_day (t : datetime) : bool :=
  (1 <=? year t) && (year t <=? 9999) &&
  (1 <=? month t) && (month t <=? 12) &&
  (1 <=? day t) && (day t <=? days_in_month (year t) (month t)).

(** [t1 <= t2] as days. *)
Definition date_leb (t1 t2 : datetime) : bool :=
  (year t1 <? year t2) ||
  ((year t1 =? year t2) &&
   ((month t1 <? month t2) || ((month t1 =? month t2) && (day t1 <=? day t2)))).

(** The days of the years [1 .. n], and of the months [1 .. n] of the
    year [y]. *)
Fixpoint days_of_years (n : nat) : Z :=
  match n with
  | O => 0
  | S n' => days_of_years n' + days_in_year (Z.of_nat (S n'))
  end.

Fixpoint days_of_months (y : Z) (n : nat) : Z :=
  match n with
  | O => 0
  | S n' => days_of_months y n' + days_in_month y (Z.of_nat (S n'))
  end.

(** The number of a day, counted from 1 January of the year 1, which
    is day 1. *)
Definition day_number (t : datetime) : Z :=
  days_of_years (Z.to_nat (year t - 1)) +
  days_of_months (year t) (Z.to_nat (month t - 1)) + day t.

(** The weekday of a day, MON to SUN: day 1 is a Monday. *)
Definition day_name (t : datetime) : string :=
  nth (Z.to_nat ((day_number t - 1) mod 7))
      ["MON"; "TUE"; "WED"; "THU"; "FRI"; "SAT"; "SUN"] "".

(** *** Dates written as text *)

Definition is_digit (c : ascii) : bool :=
  let n := nat_of_ascii c in ((48 <=? n) && (n <=? 57))%nat.

(** The number that decimal digits write after the digits of [acc];
    [None] when the text has another character. *)
Fixpoint digits_value (acc : Z) (s : string) : option Z :=
  match s with
  | EmptyString => Some acc
  | String c rest =>
      if is_digit c then digits_value (10 * acc + digit_value c) rest else None
  end.

Definition number_of_text (s : string) : option Z :=
  match s with
  | EmptyString => None
  | _ => digits_value 0 s
  end.

(** The text before the first [sep], and the text after it when there
    is one. *)
Fixpoint split_at (sep : ascii) (s : string) : string * option string :=
  match s with
  | EmptyString => (EmptyString, None)
  | String c rest =>
      if Ascii.eqb c sep then (EmptyString, Some rest)
      else let '(before, after) := split_at sep rest in (String c before, after)
  end.

(** The day that a text [year-month-day] names, each number written
    with any number of digits; [None] when the text is not of that form
    or the calendar has no such day. *)
Definition date_of_text (s : string) : option datetime :=
  match split_at "-" s with
  | (y, Some rest) =>
      match split_at "-" rest with
      | (m, Some d) =>
          match number_of_text y, number_of_text m, number_of_text d with
          | Some y', Some m', Some d' =>
              let t := {| year := y'; month := m'; day := d';
                          hour := 0; minute := 0; second := 0 |} in
              if calendar_day t then Some t else None
          | _, _, _ => None
          end
      | _ => None
      end
  | _ => None
  end.

(** The text is the one [date.isoformat()] gives for the day it
    names: [YYYY-MM-DD]. *)
Definition iso_text (s : string) : bool :=
  match date_of_text s with
  | Some d => String.eqb s (date_isoformat d)
  | None => false
  end.

Section Applicable.

Context {A : Arith}.

(** The dates of a row are written [YYYY-MM-DD]. *)
Definition iso_dated (r : offer_row) : bool :=
  match start_date (columns r) with Some s => iso_text s | None => true end &&
  match end_date (columns r) with Some e => iso_text e | None => true end.

(** The applicability of section 3 of the specification, on a row at
    the time [now] for [item]: active, for all items or for this one,
    started ([start_date <= date(now)]), not ended
    ([end_date >= date(now)]), and for all days or for the weekday of
    [now].  The dates are days of the calendar. *)
Definition applicable (now : datetime) (item : Z) (r : offer_row) : bool :=
  let o := columns r in
  (active r =? 1) &&
  match offer_item_id o with Some i => i =? item | None => true end &&
  match start_date o with
  | Some s =>
      match date_of_text s with Some d => date_leb d now | None => false end
  | None => true
  end &&
  match end_date o with
  | Some e =>
      match date_of_text e with Some d => date_leb now d | None => false end
  | None => true
  end &&
  match day_of_week o with Some w => String.eqb w (day_name now) | None => true end.

End Applicable.

(** An offer from 1 September 2025 on and an offer until that day, the
    month written with one digit. *)
Definition from_september : @offer_row binary64 :=
  {| columns := @Build_offer binary64 12 "Autumn" None "FIXED" 5%float
                  (Some "2025-9-01") None None;
     active := 1 |}.

Definition until_september : @offer_row binary64 :=
  {| columns := @Build_offer binary64 13 "Summer" None "FIXED" 5%float
                  None (Some "2025-9-01") None;
     active := 1 |}.

(** ** Binding the parameters of a statement *)

(** [sqlite3] binds a Python [int] as an INTEGER of 64 bits: for an
    [int] outside that range [execute] raises OverflowError, before the
    statement runs. *)
Definition sqlite_integer (n : Z) : bool :=
  (- 2 ^ 63 <=? n) && (n <=? 2 ^ 63 - 1).

(** The functions that take an identifier, called with any [int]: the
    statement runs once its parameters are bound. *)
Module Bound.
Section Calls.

Context {A : Arith}.

Definition update_order_status (order_id : Z) (status : string)
    (db : database) : outcome database :=
  if sqlite_integer order_id
  then Returned (update_order_status order_id status db)
  else Raised OverflowError.

Definition update_menu_item (item_id : Z) (item_name : string) (price : num)
    (available : bool) (db : canteen_db) : outcome canteen_db :=
  if sqlite_integer item_id
  then update_menu_item item_id item_name price available db
  else Raised OverflowError.

Definition delete_menu_item (item_id : Z) (db : canteen_db)
    : outcome canteen_db :=
  if sqlite_integer item_id
  then Returned (delete_menu_item item_id db)
  else Raised OverflowError.

Definition update_offer (offer_id : Z) (offer_name : string)
    (item_id : option Z) (discount_type : string) (discount_value : num)
    (start_date end_date day_of_week : option string) (active : bool)
    (db : canteen_db) : outcome canteen_db :=
  if sqlite_integer offer_id &&
     match item_id with Some i => sqlite_integer i | None => true end
  then update_offer offer_id offer_name item_id discount_type discount_value
                    start_date end_date day_of_week active db
  else Raised OverflowError.

Definition delete_offer (offer_id : Z) (db : canteen_db)
    : outcome canteen_db :=
  if sqlite_integer offer_id
  then Returned (delete_offer offer_id db)
  else Raised OverflowError.

End Calls.
End Bound.

(** Three buns at 8.35: the product is 25.049999999999997. *)
Definition three_buns : list (@cart_item binary64) :=
  [line 1 "Bun" 0x1.0b33333333333p+3 3].

(** [ledger_1000] after a checkout of [three_buns] at 09:30 on the
    draws 1000 and 4321: the amount is 25.05. *)
Definition ledger_1000_buns : @database binary64 :=
  {| orders :=
       [order_with_token 1 "1000";
        @Build_order binary64 2 "S002" three_buns 0x1.90ccccccccccdp+4%float
          "4321" "PLACED" "2025-11-04T09:30:00"];
     orders_seq := 2; offers := [] |}.



(** * Properties *)

(** ** The comparison of doubles *)

Module SFOrder.

Ltac by_compare :=
  repeat match goal with
  | |- context [Z.compare ?a ?b] => destruct (Z.compare_spec a b)
  | H : context [Z.compare ?a ?b] |- _ => destruct (Z.compare_spec a b)
  | |- context [Pos.compare_cont Eq ?a ?b] =>
      change (Pos.compare_cont Eq a b) with (Pos.compare a b);
      destruct (Pos.compare_spec a b)
  | H : context [Pos.compare_cont Eq ?a ?b] |- _ =>
      change (Pos.compare_cont Eq a b) with (Pos.compare a b) in H;
      destruct (Pos.compare_spec a b)
  end;
  simpl in *; try discriminate; try reflexivity; try lia.

Lemma ltb_asym x y : SFltb x y = true -> SFltb y x = false.
Proof.
  unfold SFltb.
  destruct x as [[]|[]| |[] mx ex], y as [[]|[]| |[] my ey];
    simpl; try discriminate; try reflexivity; by_compare.
Qed.

Lemma ltb_trans x y z : SFltb x y = true -> SFltb y z = true -> SFltb x z = true.
Proof.
  unfold SFltb.
  destruct x as [[]|[]| |[] mx ex], y as [[]|[]| |[] my ey],
           z as [[]|[]| |[] mz ez];
    simpl; try discriminate; try reflexivity; by_compare.
Qed.

(** [x <= y < z], or [x] NaN and [y < z]: then not [z <= x]. *)
Lemma le_lt_not_le x y z :
  SFltb y x = false -> SFltb y z = true -> SFleb z x = false.
Proof.
  unfold SFltb, SFleb.
  destruct x as [[]|[]| |[] mx ex], y as [[]|[]| |[] my ey],
           z as [[]|[]| |[] mz ez];
    simpl; try discriminate; try reflexivity; by_compare.
Qed.

Lemma leb_of_ltb x y : SFltb x y = true -> SFleb x y = true.
Proof.
  unfold SFltb, SFleb. now destruct (SFcompare x y) as [[]|].
Qed.

Lemma eqb_not_ltb x y : SFeqb x y = true -> SFltb y x = false.
Proof.
  unfold SFltb, SFeqb.
  destruct x as [[]|[]| |[] mx ex], y as [[]|[]| |[] my ey];
    simpl; try discriminate; try reflexivity; by_compare.
Qed.

End SFOrder.

#[export] Instance binary64_order : OrderLaws binary64.
Proof.
  constructor; cbn; intros *;
    rewrite ?FloatAxioms.ltb_spec, ?FloatAxioms.leb_spec, ?FloatAxioms.eqb_spec.
  - apply SFOrder.ltb_asym.
  - intros H1 H2. exact (SFOrder.ltb_trans _ _ _ H2 H1).
  - apply SFOrder.le_lt_not_le.
  - apply SFOrder.leb_of_ltb.
  - apply SFOrder.eqb_not_ltb.
Qed.

(** ** The comparison of rationals *)

Lemma Qc_lt_of_compare (x y : Qc) : (x ?= y)%Qc = Lt -> (x < y)%Qc.
Proof. apply Qclt_alt. Qed.

Lemma Qc_compare_of_lt (x y : Qc) : (x < y)%Qc -> (x ?= y)%Qc = Lt.
Proof. apply Qclt_alt. Qed.

Lemma Qc_gt_of_compare (x y : Qc) : (x ?= y)%Qc = Gt -> (y < x)%Qc.
Proof. apply Qcgt_alt. Qed.

Lemma Qc_eq_of_compare (x y : Qc) : (x ?= y)%Qc = Eq -> x = y.
Proof. apply Qceq_alt. Qed.

Lemma Qc_lt_irrefl (x : Qc) : ~ (x < x)%Qc.
Proof. apply Qcle_not_lt, Qcle_refl. Qed.

#[export] Instance exact_order : OrderLaws exact.
Proof.
  constructor; cbn; unfold Exact.gtb, Exact.geb, Exact.eqb; intros x y.
  - destruct (y ?= x)%Qc eqn:E; try discriminate. intros _.
    apply Qc_lt_of_compare in E.
    destruct (x ?= y)%Qc eqn:E'; try reflexivity.
    apply Qc_lt_of_compare in E'.
    exfalso. exact (Qc_lt_irrefl _ (Qclt_trans _ _ _ E E')).
  - intros z. destruct (y ?= x)%Qc eqn:E; try discriminate.
    destruct (z ?= y)%Qc eqn:E'; try discriminate. intros _ _.
    apply Qc_lt_of_compare in E, E'.
    now rewrite (Qc_compare_of_lt _ _ (Qclt_trans _ _ _ E' E)).
  - intros z. destruct (y ?= x)%Qc eqn:E; try discriminate;
      destruct (y ?= z)%Qc eqn:E'; try discriminate; intros _ _.
    + apply Qc_eq_of_compare in E. subst. now rewrite E'.
    + apply Qc_gt_of_compare in E. apply Qc_lt_of_compare in E'.
      now rewrite (Qc_compare_of_lt _ _ (Qclt_trans _ _ _ E E')).
  - destruct (y ?= x)%Qc eqn:E; try discriminate. intros _.
    apply Qc_lt_of_compare in E.
    destruct (x ?= y)%Qc eqn:E'; try reflexivity.
    apply Qc_lt_of_compare in E'.
    exfalso. exact (Qc_lt_irrefl _ (Qclt_trans _ _ _ E E')).
  - destruct (x ?= y)%Qc eqn:E; try discriminate. intros _.
    apply Qc_eq_of_compare in E. subst.
    destruct (y ?= y)%Qc eqn:E'; try reflexivity.
    apply Qc_lt_of_compare in E'. exfalso. exact (Qc_lt_irrefl _ E').
Qed.

(** ** The best-discount loop *)

Section BestLoop.

Context {A : Arith}.
Variable original_price : num.
Local Open Scope num_scope.

Local Abbreviation amount := (discount_of original_price).

Lemma best_loop_snoc (seen : list offer) (o : offer) :
  best_loop original_price (seen ++ [o]) =
  best_step original_price (best_loop original_price seen) o.
Proof. unfold best_loop. now rewrite fold_left_app. Qed.

(** [best_discount] is the amount of [best_offer], which is one of the
    offers seen; with no [best_offer] it is still [0.0]. *)
Lemma best_loop_amount (seen : list offer) :
  match best_loop original_price seen with
  | (Some b, best_discount) => best_discount = amount b /\ In b seen
  | (None, best_discount) => best_discount = zero
  end.
Proof.
  induction seen as [|o seen IH] using rev_ind; [reflexivity|].
  rewrite best_loop_snoc. unfold best_step.
  destruct (best_loop original_price seen) as [[b|] bd]; cbn [snd];
    destruct (amount o >? bd); cbn.
  - split; [reflexivity | apply in_or_app; right; now left].
  - destruct IH as [-> Hin]. split; [reflexivity | apply in_or_app; now left].
  - split; [reflexivity | apply in_or_app; right; now left].
  - exact IH.
Qed.

(** No offer is selected while every amount compares equal to zero. *)
Lemma best_loop_all_zero `{!OrderLaws A} (seen : list offer) :
  Forall (fun o => (amount o == zero) = true) seen ->
  best_loop original_price seen = (None, zero).
Proof.
  induction seen as [|o seen IH] using rev_ind; [reflexivity|].
  intros H. apply Forall_app in H as [Hs Ho]. inversion_clear Ho as [|? ? Hz _].
  rewrite best_loop_snoc, (IH Hs). unfold best_step; cbn [snd].
  now rewrite (eqb_not_gtb _ _ Hz).
Qed.

Lemma gtb_irrefl `{!OrderLaws A} (x : num) : (x >? x) = false.
Proof.
  destruct (x >? x) eqn:E; [|reflexivity].
  now rewrite (gtb_asym _ _ E) in E.
Qed.

(** An offer whose amount exceeds [best_discount] is reached by none
    of the amounts seen, and exceeded by none. *)
Lemma new_best_dominates `{!OrderLaws A} (seen : list offer) (bd : num) (o : offer) :
  Forall (fun o' => (amount o' >? bd) = false) seen ->
  (amount o >? bd) = true ->
  Forall (fun o' => (amount o' >=? amount o) = false) seen /\
  Forall (fun o' => (amount o' >? amount o) = false) (seen ++ [o]).
Proof.
  intros Hall E.
  assert (Hge : Forall (fun o' => (amount o' >=? amount o) = false) seen).
  { apply Forall_impl with (2 := Hall). intros o' Ho'.
    exact (gtb_chain _ _ _ Ho' E). }
  split; [exact Hge|]. apply Forall_app. split.
  - apply Forall_impl with (2 := Hge). intros o' Ho'.
    destruct (amount o' >? amount o) eqn:G; [|reflexivity].
    now rewrite (geb_of_gtb _ _ G) in Ho'.
  - constructor; [apply gtb_irrefl | constructor].
Qed.

Lemma best_loop_inv `{!OrderLaws A} (seen : list offer) :
  loop_inv original_price seen (best_loop original_price seen).
Proof.
  induction seen as [|o seen IH] using rev_ind.
  - cbn. split; [reflexivity | constructor].
  - rewrite best_loop_snoc. unfold best_step.
    destruct (best_loop original_price seen) as [[b|] bd]; cbn [snd];
      destruct (amount o >? bd) eqn:E; cbn in IH |- *.
    + (* a better offer replaces [b] *)
      destruct IH as (-> & Hpos & before & after & Hsplit & Hbef & Hall).
      destruct (new_best_dominates seen (amount b) o Hall E) as [Hge Hle].
      split; [reflexivity|]. split; [exact (gtb_trans _ _ _ E Hpos)|].
      exists seen, []. auto.
    + (* [b] stays *)
      destruct IH as (-> & Hpos & before & after & -> & Hbef & Hall).
      split; [reflexivity|]. split; [exact Hpos|].
      exists before, (after ++ [o])%list. split; [now rewrite <- app_assoc|].
      split; [exact Hbef|]. apply Forall_app. split; [exact Hall|].
      constructor; [exact E | constructor].
    + (* the first offer with a positive amount *)
      destruct IH as (-> & Hall).
      destruct (new_best_dominates seen zero o Hall E) as [Hge Hle].
      split; [reflexivity|]. split; [exact E|].
      exists seen, []. auto.
    + destruct IH as (-> & Hall). split; [reflexivity|].
      apply Forall_app. split; [exact Hall|]. constructor; [exact E | constructor].
Qed.

Lemma calculate_of_loop (offers : list offer) (b : offer) (bd : num) :
  best_loop original_price offers = (Some b, bd) ->
  calculate_discounted_price original_price offers =
  (py_max zero (original_price - bd), Some (describe b)).
Proof.
  intros H. destruct offers as [|o rest]; [discriminate|].
  unfold calculate_discounted_price. now rewrite H.
Qed.

Lemma calculate_of_no_offer (offers : list offer) (bd : num) :
  best_loop original_price offers = (None, bd) ->
  calculate_discounted_price original_price offers = (original_price, None).
Proof.
  intros H. destruct offers as [|o rest]; [reflexivity|].
  unfold calculate_discounted_price. now rewrite H.
Qed.

End BestLoop.
(** ** Text *)

Lemma string_append_assoc (a b c : string) :
  ((a ++ b) ++ c = a ++ (b ++ c))%string.
Proof. induction a as [|x a IH]; cbn; [reflexivity | now rewrite IH]. Qed.

Lemma string_append_nil (a : string) : (a ++ "" = a)%string.
Proof. induction a as [|x a IH]; cbn; [reflexivity | now rewrite IH]. Qed.

Lemma length_append (a b : string) :
  String.length (a ++ b) = (String.length a + String.length b)%nat.
Proof. induction a as [|x a IH]; cbn; [reflexivity | now rewrite IH]. Qed.

Lemma fixed_width_length (w : nat) (n : Z) : String.length (fixed_width w n) = w.
Proof.
  revert n. induction w as [|w IH]; intros n; [reflexivity|].
  cbn [fixed_width]. rewrite length_append, IH. cbn. lia.
Qed.

(** ** Decimal text of an integer *)

Lemma string_of_revapp (l acc : Decimal.uint) :
  NilEmpty.string_of_uint (Decimal.revapp l acc) =
  NilEmpty.string_of_uint (Decimal.rev l) ++ NilEmpty.string_of_uint acc.
Proof.
  revert acc. unfold Decimal.rev.
  induction l; intros acc; cbn [Decimal.revapp]; [reflexivity|..];
    rewrite IHl; symmetry; rewrite IHl; cbn [NilEmpty.string_of_uint];
    rewrite string_append_assoc; reflexivity.
Qed.

Lemma to_lu_digit (q : positive) (r : N) :
  (r < 10)%N ->
  NilEmpty.string_of_uint (Decimal.rev (Unsigned.to_lu (10 * Npos q + r))) =
  NilEmpty.string_of_uint (Decimal.rev (Unsigned.to_lu (Npos q))) ++
  String (digit (Z.of_N r)) EmptyString.
Proof.
  intros Hr.
  assert (E : Unsigned.to_lu (10 * Npos q + r) =
              Nat.iter (N.to_nat r) Decimal.Little.succ
                (Decimal.D0 (Unsigned.to_lu (Npos q)))).
  { rewrite N.add_comm, Unsigned.Nadd_alt, <- Unsigned.to_ldec_tenfold.
    generalize (10 * N.pos q)%N. intros n.
    induction (N.to_nat r) as [|k IH]; [reflexivity|].
    rewrite !Unsigned.nat_iter_S, Unsigned.to_lu_succ, IH. reflexivity. }
  assert (Hc : (r = 0 \/ r = 1 \/ r = 2 \/ r = 3 \/ r = 4 \/ r = 5 \/ r = 6 \/
                r = 7 \/ r = 8 \/ r = 9)%N) by lia.
  repeat (destruct Hc as [->|Hc]); [..|subst r];
    cbv [N.to_nat Pos.to_nat Pos.iter_op Nat.add Nat.iter nat_rect
         Decimal.Little.succ] in E;
    rewrite E; unfold Decimal.rev at 1; cbn [Decimal.revapp];
    rewrite string_of_revapp; reflexivity.
Qed.

(** [str] of a number of several digits: the digits of its tenth, and
    its last digit. *)
Lemma str_snoc (k : Z) :
  10 <= k -> str k = str (k / 10) ++ String (digit (k mod 10)) EmptyString.
Proof.
  intros Hk.
  pose proof (Z.div_mod k 10 ltac:(lia)) as Hdm.
  pose proof (Z.mod_pos_bound k 10 ltac:(lia)) as Hr.
  assert (Hq : 0 < k / 10) by (apply Z.div_str_pos; lia).
  destruct (k / 10) as [|q|q] eqn:Eq; try lia.
  set (r := Z.to_N (k mod 10)).
  assert (Ek : k = Z.of_N (10 * Npos q + r)) by (subst r; lia).
  assert (Hrd : k mod 10 = Z.of_N r) by (subst r; lia).
  rewrite Ek at 1. rewrite Hrd.
  assert (Hlt : (r < 10)%N) by (subst r; lia).
  pose proof (to_lu_digit q r Hlt) as H.
  unfold str, Z.to_int.
  destruct (10 * N.pos q + r)%N as [|p] eqn:Ep; [lia|].
  cbn [Z.of_N]. unfold NilZero.string_of_int, NilZero.string_of_uint, Pos.to_uint.
  cbn [Unsigned.to_lu] in H.
  pose proof (Unsigned.to_uint_nonnil p) as Hp.
  pose proof (Unsigned.to_uint_nonnil q) as Hq'.
  unfold Pos.to_uint in Hp, Hq'.
  destruct (Decimal.rev (Pos.to_little_uint p)) eqn:E1; [contradiction|..];
    destruct (Decimal.rev (Pos.to_little_uint q)) eqn:E2; try contradiction;
    exact H.
Qed.

Lemma str_digit (k : Z) : 0 <= k < 10 -> str k = String (digit k) EmptyString.
Proof.
  intros Hk.
  assert (Hc : k = 0 \/ k = 1 \/ k = 2 \/ k = 3 \/ k = 4 \/ k = 5 \/ k = 6 \/
               k = 7 \/ k = 8 \/ k = 9) by lia.
  repeat (destruct Hc as [->|Hc]); [..|subst k]; reflexivity.
Qed.

Lemma str_length_pos (k : Z) : 0 <= k -> (1 <= String.length (str k))%nat.
Proof.
  intros Hk. destruct (Z_lt_le_dec k 10) as [H|H].
  - rewrite str_digit by lia. cbn. lia.
  - rewrite str_snoc by lia. rewrite length_append. cbn. lia.
Qed.

Lemma substring_whole (b : string) : substring 0 (String.length b) b = b.
Proof. induction b as [|c b IH]; cbn; [reflexivity | now rewrite IH]. Qed.

Lemma substring_none (b : string) : substring 0 0 b = "".
Proof. now destruct b. Qed.

Lemma substring_front (a b : string) :
  substring 0 (String.length a) (a ++ b) = a.
Proof.
  induction a as [|c a IH]; cbn; [apply substring_none | now rewrite IH].
Qed.

Lemma substring_back (a b : string) :
  substring (String.length a) (String.length b) (a ++ b) = b.
Proof. induction a as [|c a IH]; cbn; [apply substring_whole | exact IH]. Qed.

Lemma zeros_snoc (n : nat) : zeros n ++ "0" = zeros (S n).
Proof. induction n as [|n IH]; cbn; [reflexivity|]. cbn in IH. now rewrite IH. Qed.

Lemma zero_padded_snoc (w : nat) (k : Z) :
  0 <= k ->
  zero_padded (S (S w)) k =
  zero_padded (S w) (k / 10) ++ String (digit (k mod 10)) EmptyString.
Proof.
  intros Hk. unfold zero_padded. destruct (Z_lt_le_dec k 10) as [H|H].
  - rewrite (Z.div_small k 10), (Z.mod_small k 10) by lia.
    rewrite (str_digit k), (str_digit 0) by lia.
    change (String.length (String (digit k) "")) with 1%nat.
    change (String.length (String (digit 0) "")) with 1%nat.
    change (String (digit 0) "") with "0".
    replace (S (S w) - 1)%nat with (S w) by lia.
    replace (S w - 1)%nat with w by lia.
    now rewrite zeros_snoc.
  - rewrite (str_snoc k H), length_append. cbn [String.length].
    replace (S (S w) - (String.length (str (k / 10)) + 1))%nat
      with (S w - String.length (str (k / 10)))%nat by lia.
    now rewrite string_append_assoc.
Qed.

(** The padded digits of [k]: the digits of [k / 10^p], then the [p]
    digits of the rest. *)
Lemma zero_padded_digits (p : nat) : forall k : Z,
  0 <= k ->
  zero_padded (S p) k =
  str (k / 10 ^ Z.of_nat p) ++ fixed_width p (k mod 10 ^ Z.of_nat p).
Proof.
  induction p as [|p IH]; intros k Hk.
  - unfold zero_padded. cbn [fixed_width Z.of_nat].
    rewrite Z.pow_0_r, Z.div_1_r, string_append_nil.
    pose proof (str_length_pos k Hk).
    replace (1 - String.length (str k))%nat with 0%nat by lia. reflexivity.
  - rewrite zero_padded_snoc by exact Hk.
    rewrite IH by (apply Z.div_pos; lia).
    cbn [fixed_width]. rewrite string_append_assoc.
    assert (Hp : 0 < 10 ^ Z.of_nat p) by (apply Z.pow_pos_nonneg; lia).
    replace (10 ^ Z.of_nat (S p)) with (10 * 10 ^ Z.of_nat p)
      by (rewrite Nat2Z.inj_succ, Z.pow_succ_r; lia).
    rewrite Z.div_div by lia.
    rewrite (Z.mul_comm 10 (10 ^ Z.of_nat p)) at 2.
    rewrite Z.rem_mul_r by lia.
    replace ((k mod 10 + 10 * ((k / 10) mod 10 ^ Z.of_nat p)) / 10)
      with ((k / 10) mod 10 ^ Z.of_nat p).
    2:{ rewrite (Z.mul_comm 10), Z.div_add by lia.
        rewrite (Z.div_small (k mod 10)); [lia|]. apply Z.mod_pos_bound. lia. }
    replace ((k mod 10 + 10 * ((k / 10) mod 10 ^ Z.of_nat p)) mod 10)
      with (k mod 10).
    2:{ rewrite (Z.mul_comm 10), Z.mod_add by lia.
        now rewrite Z.mod_mod by lia. }
    now rewrite (Z.mul_comm (10 ^ Z.of_nat p) 10).
Qed.

Lemma fixed_text_decimal (neg : bool) (p : nat) (k : Z) :
  0 <= k ->
  fixed_text neg p k = (if neg then "-" else "") ++ decimal p k.
Proof.
  intros Hk. unfold fixed_text, decimal. rewrite zero_padded_digits by exact Hk.
  set (a := str (k / 10 ^ Z.of_nat p)).
  set (b := fixed_width p (k mod 10 ^ Z.of_nat p)).
  assert (Hb : String.length b = p) by apply fixed_width_length.
  rewrite length_append, Hb.
  replace (String.length a + p - p)%nat with (String.length a) by lia.
  rewrite substring_front.
  destruct p as [|p]; [reflexivity|].
  rewrite <- Hb at 1. now rewrite substring_back.
Qed.

(** ** Rounding to decimals *)

Lemma round_half_even_nearest (n : Z) (d : positive) :
  0 <= n ->
  2 * Z.abs (round_half_even n d * Zpos d - n) <= Zpos d /\
  (2 * Z.abs (round_half_even n d * Zpos d - n) = Zpos d ->
   Z.even (round_half_even n d) = true).
Proof.
  intros Hn. unfold round_half_even.
  pose proof (Z.div_mod n (Zpos d) ltac:(lia)) as Hdm.
  pose proof (Z.mod_pos_bound n (Zpos d) ltac:(lia)) as Hr.
  set (q := n / Zpos d) in *. set (r := n mod Zpos d) in *.
  destruct (Z.compare_spec (2 * r) (Zpos d)) as [E|E|E].
  - destruct (Z.even q) eqn:Ev.
    + split; [nia | intros _; exact Ev].
    + split; [nia|]. intros _. rewrite Z.even_add, Ev. reflexivity.
  - split; nia.
  - split; nia.
Qed.

Lemma round_half_even_nonneg (n : Z) (d : positive) :
  0 <= n -> 0 <= round_half_even n d.
Proof.
  intros Hn. unfold round_half_even.
  assert (0 <= n / Zpos d) by (apply Z.div_pos; lia).
  destruct (2 * (n mod Zpos d) ?= Zpos d); [destruct (Z.even _)|..]; lia.
Qed.

Lemma units_nearest (p : nat) (m : positive) (e : Z) :
  nearest_units p m e (B64.units p m e).
Proof.
  assert (Hp : 0 <= Zpos m * 10 ^ Z.of_nat p).
  { apply Z.mul_nonneg_nonneg; [lia|]. apply Z.pow_nonneg. lia. }
  unfold nearest_units, B64.units, B64.scaled.
  destruct e as [|e|e].
  - change (Z.max 0 0) with 0. change (Z.max (- 0) 0) with 0.
    rewrite !Z.pow_0_r, !Z.mul_1_r.
    pose proof (round_half_even_nearest _ 1 Hp) as H.
    rewrite !Z.mul_1_r in H. exact H.
  - replace (Z.max (Zpos e) 0) with (Zpos e) by lia.
    replace (Z.max (- Zpos e) 0) with 0 by lia.
    rewrite Z.pow_0_r, !Z.mul_1_r.
    replace (Zpos m * 10 ^ Z.of_nat p * 2 ^ Zpos e)
      with (Zpos m * 2 ^ Zpos e * 10 ^ Z.of_nat p) by ring.
    assert (Hx : 0 <= Zpos m * 2 ^ Zpos e * 10 ^ Z.of_nat p).
    { apply Z.mul_nonneg_nonneg; [|apply Z.pow_nonneg; lia].
      apply Z.mul_nonneg_nonneg; [lia | apply Z.pow_nonneg; lia]. }
    pose proof (round_half_even_nearest _ 1 Hx) as H.
    rewrite !Z.mul_1_r in H. exact H.
  - replace (Z.max (Zneg e) 0) with 0 by lia.
    replace (Z.max (- Zneg e) 0) with (Zpos e) by lia.
    rewrite Z.pow_0_r, Z.mul_1_r.
    rewrite <- Pos2Z.inj_pow.
    exact (round_half_even_nearest _ _ Hp).
Qed.

Lemma units_nonneg (p : nat) (m : positive) (e : Z) : 0 <= B64.units p m e.
Proof.
  unfold B64.units, B64.scaled.
  destruct e; apply round_half_even_nonneg;
    repeat (apply Z.mul_nonneg_nonneg || apply Z.pow_nonneg); lia.
Qed.

(** There is one nearest integer. *)
Lemma nearest_units_unique (p : nat) (m : positive) (e : Z) (k1 k2 : Z) :
  nearest_units p m e k1 -> nearest_units p m e k2 -> k1 = k2.
Proof.
  unfold nearest_units.
  set (n := Zpos m * 10 ^ Z.of_nat p * 2 ^ Z.max e 0).
  set (d := 2 ^ Z.max (- e) 0).
  assert (Hd : 0 < d) by (apply Z.pow_pos_nonneg; lia).
  clearbody n d. intros [H1 E1] [H2 E2].
  assert (Hc : k1 = k2 \/ k1 = k2 + 1 \/ k2 = k1 + 1) by nia.
  destruct Hc as [Hc|[Hc|Hc]]; [exact Hc|..]; exfalso; subst.
  - assert (T1 : 2 * Z.abs ((k2 + 1) * d - n) = d) by nia.
    assert (T2 : 2 * Z.abs (k2 * d - n) = d) by nia.
    specialize (E1 T1). specialize (E2 T2).
    rewrite Z.even_add, E2 in E1. discriminate.
  - assert (T1 : 2 * Z.abs (k1 * d - n) = d) by nia.
    assert (T2 : 2 * Z.abs ((k1 + 1) * d - n) = d) by nia.
    specialize (E1 T1). specialize (E2 T2).
    rewrite Z.even_add, E1 in E2. discriminate.
Qed.

(** [format(x, ".pf")], as modelled, is [x] formatted with [p]
    decimals. *)
Lemma format_f_fixed_decimals (p : nat) (x : float) :
  fixed_decimals p x (B64.format_f p x).
Proof.
  unfold fixed_decimals, B64.format_f.
  destruct (Prim2SF x) as [s|s| |s m e].
  - apply fixed_text_decimal. lia.
  - now destruct s.
  - reflexivity.
  - exists (B64.units p m e). split; [apply units_nearest|].
    apply fixed_text_decimal, units_nonneg.
Qed.



(** ** Claims on [calculate_discounted_price] *)

(** C2, as stated, at a non-empty list: the one offer, of amount 0, is
    not selected; the price comes back unchanged and without a
    description. *)
Lemma C2_counterexample :
  [free_nothing] <> [] /\
  discount_of (A:=binary64) 50%float free_nothing = 0%float /\
  best_loop (A:=binary64) 50%float [free_nothing] = (None, 0%float) /\
  calculate_discounted_price (A:=binary64) 50%float [free_nothing] = (50%float, None).
Proof. split; [discriminate | repeat split]. Qed.

(** C2 (amended).  For every list of offers one of whose amounts is
    greater than 0, where the amount of an offer is
    [original_price * (value / 100)] for PERCENTAGE and [value]
    otherwise: the loop ends with [best_offer] an offer of the list whose
    amount is positive, is not reached ([>=]) by the amount of any offer
    before it and is not exceeded ([>]) by the amount of any offer; the
    price and description returned are the ones of that offer. *)
Theorem C2_best_offer_first_maximal
    (original_price : @num binary64) (offers : list (@offer binary64)) :
  Exists (fun o => (discount_of original_price o >? zero)%num = true) offers ->
  (forall o : @offer binary64,
     discount_of original_price o =
     if String.eqb (discount_type o) "PERCENTAGE"
     then (original_price * (discount_value o / 100%float))%float
     else discount_value o) /\
  exists before best after,
    offers = (before ++ best :: after)%list /\
    best_loop original_price offers = (Some best, discount_of original_price best) /\
    (discount_of original_price best >? zero)%num = true /\
    Forall (fun o => (discount_of original_price o >=?
                      discount_of original_price best)%num = false) before /\
    Forall (fun o => (discount_of original_price o >?
                      discount_of original_price best)%num = false) offers /\
    calculate_discounted_price original_price offers =
    (py_max zero (original_price - discount_of original_price best)%num,
     Some (describe best)).
Proof.
  intros Hpos. split; [reflexivity|].
  pose proof (best_loop_inv original_price offers) as Hinv.
  destruct (best_loop original_price offers) as [[b|] bd] eqn:Hloop; cbn in Hinv.
  - destruct Hinv as (-> & Hb & before & after & Hsplit & Hbefore & Hall).
    exists before, b, after. repeat split; try assumption.
    now apply calculate_of_loop.
  - destruct Hinv as (_ & Hall). exfalso.
    apply Exists_exists in Hpos as (o & Hin & Ho).
    rewrite Forall_forall in Hall. exact (eq_true_false_abs _ Ho (Hall o Hin)).
Qed.

Lemma C2_best_offer_first_maximal_witness :
  exists before best after,
    [happy_hour_2_off; lunch_20_percent; mega_10_off] = (before ++ best :: after)%list /\
    best_loop (A:=binary64) 50%float [happy_hour_2_off; lunch_20_percent; mega_10_off] =
      (Some best, discount_of (A:=binary64) 50%float best) /\
    calculate_discounted_price (A:=binary64) 50%float
      [happy_hour_2_off; lunch_20_percent; mega_10_off] =
      (40%float, Some "Lunch: 20% off").
Proof.
  destruct (C2_best_offer_first_maximal 50%float
              [happy_hour_2_off; lunch_20_percent; mega_10_off])
    as (_ & before & best & after & Hsplit & Hloop & _).
  - constructor. reflexivity.
  - exists before, best, after. repeat split; assumption || reflexivity.
Defined.

(** The text with [p] decimals is the one [format(x, ".pf")], as
    modelled, gives. *)
Lemma fixed_decimals_format_f (p : nat) (x : float) (text : string) :
  fixed_decimals p x text <-> text = B64.format_f p x.
Proof.
  split; [|intros ->; apply format_f_fixed_decimals].
  pose proof (format_f_fixed_decimals p x) as Hf. revert Hf.
  unfold fixed_decimals. destruct (Prim2SF x) as [s|s| |s m e].
  - intros -> ->. reflexivity.
  - intros -> ->. reflexivity.
  - intros -> ->. reflexivity.
  - intros (k & Hk & ->) (k' & Hk' & ->).
    now rewrite (nearest_units_unique p m e k' k Hk' Hk).
Qed.

(** C3.  When the loop has selected [best_offer], [best_discount] is the
    amount of that offer; the price returned is
    [max(0.0, original_price - best_discount)] and the description is the
    offer's name, [": "], and either the value with no decimals and
    ["% off"] or ["Rs "], the value with two decimals and [" off"].  The
    value with [p] decimals is the text of its sign, the digits of
    [k / 10^p] and, for [p = 2], a point and the two digits of
    [k mod 100], for [k] the integer nearest to [|value| * 10^p] (the
    even one of two).  A PERCENTAGE offer of value 20 on a price of 50
    gives 40.0 and ["<name>: 20% off"]. *)
Theorem C3_price_and_description
    (original_price : @num binary64) (offers : list (@offer binary64))
    (best_offer : @offer binary64) (best_discount : @num binary64) :
  best_loop original_price offers = (Some best_offer, best_discount) ->
  In best_offer offers /\
  best_discount = discount_of original_price best_offer /\
  (exists value_text : string,
     fixed_decimals
       (if String.eqb (discount_type best_offer) "PERCENTAGE" then 0 else 2)
       (discount_value best_offer) value_text /\
     calculate_discounted_price original_price offers =
       ((if (0 <? original_price - best_discount)%float
         then (original_price - best_discount)%float else 0%float),
        Some ((offer_name best_offer ++ ": ") ++
              (if String.eqb (discount_type best_offer) "PERCENTAGE"
               then value_text ++ "% off"
               else "Rs " ++ value_text ++ " off")))) /\
  (forall (p : nat) (x : float) (text : string),
     fixed_decimals p x text <-> text = B64.format_f p x) /\
  (forall (id : Z) (name : string) (item : option Z) (d1 d2 dow : option string),
     calculate_discounted_price (A:=binary64) 50%float
       [@Build_offer binary64 id name item "PERCENTAGE" 20%float d1 d2 dow] =
     (40%float, Some ((name ++ ": ") ++ "20% off"))).
Proof.
  intros Hloop.
  pose proof (best_loop_amount original_price offers) as Hamount.
  rewrite Hloop in Hamount. destruct Hamount as [-> Hin].
  split; [exact Hin|]. split; [reflexivity|]. split; [|split].
  - exists (B64.format_f
              (if String.eqb (discount_type best_offer) "PERCENTAGE" then 0 else 2)
              (discount_value best_offer)).
    split; [apply format_f_fixed_decimals|].
    rewrite (calculate_of_loop _ _ _ _ Hloop). unfold describe.
    destruct (String.eqb (discount_type best_offer) "PERCENTAGE"); reflexivity.
  - apply fixed_decimals_format_f.
  - intros. reflexivity.
Qed.

Lemma C3_price_and_description_witness :
  calculate_discounted_price (A:=binary64) 10%float [happy_hour_2_off] =
    (8%float, Some "Happy Hour: Rs 2.00 off") /\
  calculate_discounted_price (A:=binary64) 10%float [five_paise_off] =
    (0x1.3e66666666666p+3%float, Some "Penny: Rs 0.05 off") /\
  calculate_discounted_price (A:=binary64) 50%float [half_quarter_percent] =
    (43.75%float, Some "Eighth: 12% off").
Proof.
  split; [|split].
  - destruct (C3_price_and_description 10%float [happy_hour_2_off] happy_hour_2_off
                2%float eq_refl) as (_ & _ & (t & Ht & H) & Hf & _).
    apply Hf in Ht. rewrite H, Ht. reflexivity.
  - destruct (C3_price_and_description 10%float [five_paise_off] five_paise_off
                0x1.999999999999ap-5%float eq_refl) as (_ & _ & (t & Ht & H) & Hf & _).
    apply Hf in Ht. rewrite H, Ht. reflexivity.
  - destruct (C3_price_and_description 50%float [half_quarter_percent]
                half_quarter_percent 6.25%float eq_refl)
      as (_ & _ & (t & Ht & H) & Hf & _).
    apply Hf in Ht. rewrite H, Ht. reflexivity.
Defined.

(** C10.  For every non-empty list of offers whose amounts all compare
    equal to 0, the loop selects no offer and the original price comes
    back with no description. *)
Theorem C10_zero_amounts_select_nothing
    (original_price : @num binary64) (offers : list (@offer binary64)) :
  offers <> [] ->
  Forall (fun o => (discount_of original_price o == zero)%num = true) offers ->
  best_loop original_price offers = (None, zero) /\
  calculate_discounted_price original_price offers = (original_price, None).
Proof.
  intros _ Hzero.
  pose proof (best_loop_all_zero original_price offers Hzero) as Hloop.
  split; [exact Hloop | exact (calculate_of_no_offer _ _ _ Hloop)].
Qed.

Lemma C10_zero_amounts_select_nothing_witness :
  calculate_discounted_price (A:=binary64) 50%float [free_nothing; zero_percent] =
    (50%float, None) /\
  calculate_discounted_price (A:=binary64) 0%float [lunch_20_percent] = (0%float, None).
Proof.
  split.
  - apply (C10_zero_amounts_select_nothing 50%float [free_nothing; zero_percent]).
    + discriminate.
    + repeat constructor.
  - apply (C10_zero_amounts_select_nothing 0%float [lunch_20_percent]).
    + discriminate.
    + repeat constructor.
Defined.

(** ** Tokens *)

Lemma str_inj (a b : Z) : str a = str b -> a = b.
Proof.
  unfold str. intros H. apply DecimalZ.to_int_inj.
  assert (Hnn : forall z, Z.to_int z <> Decimal.Pos Decimal.Nil /\
                          Z.to_int z <> Decimal.Neg Decimal.Nil).
  { intros [|p|p]; cbn; split; try discriminate; intros E; inversion E as [E'];
      exact (DecimalPos.Unsigned.to_uint_nonnil _ E'). }
  pose proof (NilZero.isi _ (proj1 (Hnn a)) (proj2 (Hnn a))) as Ha.
  pose proof (NilZero.isi _ (proj1 (Hnn b)) (proj2 (Hnn b))) as Hb.
  rewrite H in Ha. rewrite Ha in Hb. now inversion Hb.
Qed.

Lemma all_draws_in_range (r : Z) : In r all_draws <-> in_range r.
Proof.
  unfold all_draws, in_range. rewrite in_map_iff. split.
  - intros (n & <- & Hn). apply in_seq in Hn. lia.
  - intros Hr. exists (Z.to_nat (r - 1000)). split; [lia|]. apply in_seq. lia.
Qed.

Lemma all_draws_length : Z.of_nat (List.length all_draws) = 9000.
Proof. unfold all_draws. rewrite length_map, length_seq. lia. Qed.

Lemma all_tokens_distinct : NoDup (map str all_draws).
Proof.
  unfold all_draws. rewrite map_map.
  apply NoDup_map_NoDup_ForallPairs; [|apply seq_NoDup].
  intros x y _ _ H. apply str_inj in H. lia.
Qed.

(** The text of a value of 1000..9999 has four characters. *)
Lemma token_four_digits (r : Z) : in_range r -> String.length (str r) = 4%nat.
Proof.
  intros Hr. apply all_draws_in_range in Hr.
  assert (F : forallb (fun x => Nat.eqb (String.length (str x)) 4) all_draws = true)
    by (vm_compute; reflexivity).
  rewrite forallb_forall in F. now apply Nat.eqb_eq, F.
Qed.

Section Tokens.

Context {A : Arith}.
Implicit Types (db : @database A) (draws : list Z).

Lemma token_in_use_iff db (t : string) :
  token_in_use db t = true <-> In t (tokens db).
Proof.
  unfold token_in_use, tokens. rewrite existsb_exists, in_map_iff.
  split; intros (o & H1 & H2).
  - exists o. split; [now apply String.eqb_eq | exact H1].
  - exists o. split; [exact H2 | now apply String.eqb_eq].
Qed.

Lemma token_free_iff db (t : string) :
  token_in_use db t = false <-> ~ In t (tokens db).
Proof.
  rewrite <- token_in_use_iff. destruct (token_in_use db t); split; congruence.
Qed.

(** The loop returns the first draw that is free. *)
Lemma generate_first_free db (pre post : list Z) (r : Z) :
  Forall (fun x => token_in_use db (str x) = true) pre ->
  token_in_use db (str r) = false ->
  _generate_unique_token (pre ++ r :: post) db = Some (str r).
Proof.
  induction 1 as [|x pre Hx _ IH]; intros Hr; cbn.
  - now rewrite Hr.
  - rewrite Hx. now apply IH.
Qed.

(** It goes on exactly while the draws are in use. *)
Lemma generate_all_in_use db draws :
  Forall (fun x => token_in_use db (str x) = true) draws <->
  _generate_unique_token draws db = None.
Proof.
  induction draws as [|x draws IH]; cbn.
  - split; [reflexivity | constructor].
  - destruct (token_in_use db (str x)) eqn:E.
    + rewrite <- IH. split; [now inversion 1 | now constructor].
    + split; [inversion 1; congruence | discriminate].
Qed.

(** What it returns is the text of a draw and no order has it. *)
Lemma generate_sound db draws (t : string) :
  _generate_unique_token draws db = Some t ->
  token_in_use db t = false /\ exists r, In r draws /\ t = str r.
Proof.
  induction draws as [|x draws IH]; cbn; [discriminate|].
  destruct (token_in_use db (str x)) eqn:E.
  - intros H. destruct (IH H) as (Hf & r & Hin & ->).
    split; [exact Hf | exists r; auto].
  - intros [= <-]. split; [exact E | exists x; auto].
Qed.


(** With fewer than 9000 orders one of the 9000 tokens is free. *)
Lemma free_token_exists db :
  Z.of_nat (List.length (orders db)) < 9000 ->
  exists r, in_range r /\ token_in_use db (str r) = false.
Proof.
  intros Hlen.
  destruct (existsb (fun r => negb (token_in_use db (str r))) all_draws) eqn:E.
  - apply existsb_exists in E as (r & Hin & Hr). exists r.
    split; [now apply all_draws_in_range | now apply negb_true_iff].
  - exfalso.
    assert (Hincl : incl (map str all_draws) (tokens db)).
    { intros t Ht. apply in_map_iff in Ht as (r & <- & Hin).
      apply token_in_use_iff. destruct (token_in_use db (str r)) eqn:Hu; [reflexivity|].
      assert (existsb (fun r => negb (token_in_use db (str r))) all_draws = true)
        by (apply existsb_exists; exists r; split; [exact Hin | now rewrite Hu]).
      congruence. }
    pose proof (NoDup_incl_length all_tokens_distinct Hincl) as Hle.
    pose proof all_draws_length as Hall.
    unfold tokens in Hle. rewrite !length_map in Hle. lia.
Qed.

End Tokens.

(** ** The ledger *)

Section Ledger.

Context {A : Arith}.
Implicit Types (db : @database A) (o : @order A).
Local Open Scope num_scope.

Lemma set_status_token (id : Z) (s : string) o :
  token_number (set_status id s o) = token_number o.
Proof. unfold set_status. now destruct (order_id o =? id)%Z. Qed.

Lemma update_order_status_tokens (id : Z) (s : string) db :
  tokens (update_order_status id s db) = tokens db.
Proof.
  unfold tokens; cbn. rewrite map_map. apply map_ext. apply set_status_token.
Qed.

Lemma next_order_id_fresh db o : In o (orders db) -> (order_id o < next_order_id db)%Z.
Proof.
  unfold next_order_id. intros Hin.
  assert (order_id o <= fold_right Z.max 0 (map order_id (orders db)))%Z; [|lia].
  induction (orders db) as [|o' l IH]; [contradiction|].
  cbn. destruct Hin as [->|Hin]; [lia | specialize (IH Hin); lia].
Qed.


(** Whatever [create_order] returns has one more order, with a token
    no order had. *)
Lemma create_order_tokens (now : datetime) (draws : list Z) (user : string)
    (its : list cart_item) (total : num) db (id : Z) db' :
  create_order now draws user its total db = Returned (id, db') ->
  exists token, token_in_use db token = false /\
                tokens db' = (tokens db ++ [token])%list.
Proof.
  unfold create_order.
  destruct (_generate_unique_token draws db) as [token|] eqn:Hgen; [|discriminate].
  destruct (is_nan total); [discriminate|].
  destruct (max_rowid <? next_order_id db)%Z; [discriminate|].
  intros [= <- <-]. exists token.
  split; [exact (proj1 (generate_sound _ _ _ Hgen))|].
  unfold tokens; cbn. now rewrite map_app.
Qed.


Section WithSum.

Variable builtin_sum : list num -> num.

Lemma run_call_tokens_unique (c : call) db db' :
  NoDup (tokens db) -> run_call builtin_sum c db = Some db' -> NoDup (tokens db').
Proof.
  intros Hnd. destruct c as [now draws user cart | id s]; cbn.
  - unfold Order_create. destruct (cart_total builtin_sum cart) as [total|].
    + destruct (create_order now draws user cart total db) as [[id db1]| |] eqn:E;
        intros [= <-]; try assumption.
      destruct (create_order_tokens _ _ _ _ _ _ _ _ E) as (token & Hfree & ->).
      apply NoDup_app; [assumption | repeat constructor; intros [] |].
      intros t Hin [<-|[]]. now apply token_free_iff in Hfree.
    + now intros [= <-].
  - intros [= <-]. now rewrite update_order_status_tokens.
Qed.

Lemma session_tokens_unique (calls : list call) db db' :
  NoDup (tokens db) -> session builtin_sum calls db = Some db' -> NoDup (tokens db').
Proof.
  revert db. induction calls as [|c calls IH]; cbn; intros db Hnd.
  - now intros [= <-].
  - destruct (run_call builtin_sum c db) as [db1|] eqn:E; [|discriminate].
    apply IH. exact (run_call_tokens_unique _ _ _ Hnd E).
Qed.

End WithSum.

End Ledger.

(** ** Claims on the ledger *)

(** C1.  Starting from tables in which no two orders have the same
    token (the empty ones, say), after every sequence of checkouts and
    status changes that has come back no two orders have the same token;
    and as long as fewer than 9000 orders exist, there is a value in
    1000..9999 on whose draw the next allocation returns. *)
Theorem C1_tokens_unique {A : Arith} (builtin_sum : list num -> num)
    (calls : list call) (db db' : @database A) :
  NoDup (tokens db) ->
  session builtin_sum calls db = Some db' ->
  NoDup (tokens db') /\
  (Z.of_nat (List.length (orders db')) < 9000 ->
   exists r, in_range r /\ _generate_unique_token [r] db' = Some (str r)).
Proof.
  intros Hnd Hrun. split; [exact (session_tokens_unique _ _ _ _ Hnd Hrun)|].
  intros Hlen. destruct (free_token_exists db' Hlen) as (r & Hr & Hfree).
  exists r. split; [exact Hr|]. cbn. now rewrite Hfree.
Qed.

Lemma C1_tokens_unique_witness :
  session sum_left_to_right sample_session empty_database = Some ledger_after_session /\
  NoDup (tokens ledger_after_session).
Proof.
  assert (E : session sum_left_to_right sample_session empty_database =
              Some ledger_after_session) by reflexivity.
  split; [exact E|].
  exact (proj1 (C1_tokens_unique sum_left_to_right sample_session
                  empty_database ledger_after_session (NoDup_nil _) E)).
Defined.

(** C7, as stated, fails twice.  The loop has no bound: with one token
    taken and 8999 free, it is still running after any number of draws
    of the taken one.  And with the 9000 tokens taken it does not fail:
    whatever is drawn, it is still running. *)
Lemma C7_counterexample :
  (forall n : nat, _generate_unique_token (repeat 1000 n) ledger_1000 = None) /\
  token_in_use ledger_1000 (str 1001) = false /\
  (forall draws : list Z,
     Forall in_range draws -> _generate_unique_token draws full_ledger = None).
Proof.
  split; [|split].
  - intros n. apply generate_all_in_use. apply Forall_forall.
    intros x Hx. apply repeat_spec in Hx. now subst.
  - reflexivity.
  - intros draws Hr. apply generate_all_in_use.
    apply Forall_impl with (2 := Hr). intros r Hin.
    apply token_in_use_iff. unfold tokens, full_ledger.
    cbn [orders]. rewrite map_map. cbn [token_number order_with_token].
    apply in_map_iff. exists r.
    split; [reflexivity | now apply all_draws_in_range].
Qed.

(** C7 (amended).  The allocation returns the text of the first draw
    that no order has as its token, and only a token no order has; the
    text of a draw of 1000..9999 has four digits.  It has no other exit:
    while every draw so far is taken it is still drawing, without a
    bound on the retries, and so it never returns once every value of
    1000..9999 is taken.  With fewer than 9000 orders, one of those
    values is free. *)
Theorem C7_token_allocation {A : Arith} (db : @database A) (draws : list Z) :
  (forall (pre post : list Z) (r : Z),
     draws = (pre ++ r :: post)%list ->
     Forall (fun x => token_in_use db (str x) = true) pre ->
     token_in_use db (str r) = false ->
     _generate_unique_token draws db = Some (str r)) /\
  (forall t : string,
     _generate_unique_token draws db = Some t -> token_in_use db t = false) /\
  (_generate_unique_token draws db = None <->
   Forall (fun x => token_in_use db (str x) = true) draws) /\
  ((forall r, in_range r -> token_in_use db (str r) = true) ->
   Forall in_range draws -> _generate_unique_token draws db = None) /\
  (Z.of_nat (List.length (orders db)) < 9000 ->
   exists r, in_range r /\ token_in_use db (str r) = false) /\
  (forall r, in_range r -> String.length (str r) = 4%nat).
Proof.
  split; [|split; [|split; [|split; [|split]]]].
  - intros pre post r -> Hpre Hr. now apply generate_first_free.
  - intros t Ht. exact (proj1 (generate_sound _ _ _ Ht)).
  - symmetry. apply generate_all_in_use.
  - intros Hfull Hr. apply generate_all_in_use.
    apply Forall_impl with (2 := Hr). exact Hfull.
  - apply free_token_exists.
  - apply token_four_digits.
Qed.

Lemma C7_token_allocation_witness :
  _generate_unique_token [1000; 1000; 2345; 1000] ledger_1000 = Some "2345".
Proof.
  apply (proj1 (C7_token_allocation ledger_1000 [1000; 1000; 2345; 1000])
           [1000; 1000] [1000] 2345).
  - reflexivity.
  - repeat constructor.
  - reflexivity.
Defined.





(** The same checkout, evaluated, and the one of three teas at 8. *)
Example checkout_on_ledger_1000 :
  Order_create sum_left_to_right clock_0930 [1000; 4321] "S002" three_buns ledger_1000
    = Returned (2, ledger_1000_buns) /\
  Order_create sum_left_to_right clock_0930 [1000; 4321] "S002" three_teas ledger_1000
    = Returned (2, ledger_1000_4321).
Proof. split; reflexivity. Qed.

(** [round(x, 2)] on halves of a hundredth and near them: 0.125 and
    0.375 are halves, 2.675 as a double is below the half. *)
Example round2_halves :
  @round2 binary64 0.125%float = 0x1.eb851eb851eb8p-4%float /\
  @round2 binary64 0.375%float = 0x1.851eb851eb852p-2%float /\
  @round2 binary64 0x1.5666666666666p+1%float = 0x1.55c28f5c28f5cp+1%float /\
  @round2 binary64 0x1.3333333333334p-2%float = 0x1.3333333333333p-2%float.
Proof. repeat split. Qed.

(** C6.  [update_order_status] writes the status it is given on every
    order with the given identifier, whatever its status was and
    whatever the new one is, and changes nothing else: the other
    fields of those orders, the other orders, their number and order,
    the rowid sequence and the offers stay as they were. *)
Theorem C6_status_overwritten {A : Arith} (id : Z) (new_status : string)
    (db : @database A) :
  let db' := update_order_status id new_status db in
  Forall2
    (fun o o' : @order A =>
       order_id o' = order_id o /\ user_id o' = user_id o /\
       items o' = items o /\ total_amount o' = total_amount o /\
       token_number o' = token_number o /\ timestamp o' = timestamp o /\
       (order_id o = id -> status o' = new_status) /\
       (order_id o <> id -> o' = o))
    (orders db) (orders db') /\
  orders_seq db' = orders_seq db /\
  offers db' = offers db.
Proof.
  cbn. split; [|split; reflexivity].
  induction (orders db) as [|o l IH]; cbn; constructor; [|exact IH].
  unfold set_status. destruct (order_id o =? id) eqn:E; cbn.
  - apply Z.eqb_eq in E. repeat split; congruence.
  - apply Z.eqb_neq in E. repeat split; congruence.
Qed.

(** ** ISO dates as text *)

Lemma compare_same_head (c : ascii) (s1 s2 : string) :
  String.compare (String c s1) (String c s2) = String.compare s1 s2.
Proof.
  cbn. unfold Ascii.compare. now rewrite N.compare_refl.
Qed.

(** Two texts with equally long heads compare by the heads, then by
    the tails. *)
Lemma compare_append (a b c d : string) :
  String.length a = String.length b ->
  String.compare (a ++ c) (b ++ d) =
  match String.compare a b with
  | Eq => String.compare c d
  | r => r
  end.
Proof.
  revert b. induction a as [|x a IH]; intros [|y b]; cbn; try discriminate.
  - reflexivity.
  - intros [= Hlen]. destruct (Ascii.compare x y); [now apply IH | reflexivity..].
Qed.

Lemma digit_compare (x y : Z) :
  0 <= x < 10 -> 0 <= y < 10 -> Ascii.compare (digit x) (digit y) = Z.compare x y.
Proof.
  intros Hx Hy.
  assert (Ex : x = 0 \/ x = 1 \/ x = 2 \/ x = 3 \/ x = 4 \/ x = 5 \/ x = 6 \/
               x = 7 \/ x = 8 \/ x = 9) by lia.
  assert (Ey : y = 0 \/ y = 1 \/ y = 2 \/ y = 3 \/ y = 4 \/ y = 5 \/ y = 6 \/
               y = 7 \/ y = 8 \/ y = 9) by lia.
  repeat (destruct Ex as [->|Ex]); try subst x;
    repeat (destruct Ey as [->|Ey]); try subst y; reflexivity.
Qed.

Lemma compare_single (x y : ascii) :
  String.compare (String x EmptyString) (String y EmptyString) = Ascii.compare x y.
Proof. cbn [String.compare]. now destruct (Ascii.compare x y). Qed.

(** Texts of the same width compare as the numbers they print. *)
Lemma fixed_width_compare (w : nat) (a b : Z) :
  0 <= a < 10 ^ Z.of_nat w -> 0 <= b < 10 ^ Z.of_nat w ->
  String.compare (fixed_width w a) (fixed_width w b) = Z.compare a b.
Proof.
  revert a b. induction w as [|w IH]; intros a b Ha Hb.
  - cbn in *. assert (a = 0) by lia. assert (b = 0) by lia. now subst.
  - rewrite Nat2Z.inj_succ, Z.pow_succ_r in Ha, Hb by lia.
    cbn [fixed_width].
    rewrite compare_append by now rewrite !fixed_width_length.
    rewrite IH by (split; [apply Z.div_pos; lia | apply Z.div_lt_upper_bound; lia]).
    rewrite compare_single, digit_compare by (apply Z.mod_pos_bound; lia).
    pose proof (Z.div_mod a 10 ltac:(lia)) as Ea.
    pose proof (Z.div_mod b 10 ltac:(lia)) as Eb.
    pose proof (Z.mod_pos_bound a 10 ltac:(lia)) as Ma.
    pose proof (Z.mod_pos_bound b 10 ltac:(lia)) as Mb.
    destruct (Z.compare_spec (a / 10) (b / 10)) as [E|E|E].
    + destruct (Z.compare_spec (a mod 10) (b mod 10)) as [E'|E'|E'];
        symmetry;
        [apply Z.compare_eq_iff | apply Z.compare_lt_iff | apply Z.compare_gt_iff];
        lia.
    + symmetry. apply Z.compare_lt_iff. lia.
    + symmetry. apply Z.compare_gt_iff. lia.
Qed.

(** On the days of the calendar the order of the ISO texts is the
    order of the days. *)
Lemma date_isoformat_order (t1 t2 : datetime) :
  datetime_ok t1 -> datetime_ok t2 ->
  (String.leb (date_isoformat t1) (date_isoformat t2) = true <-> date_le t1 t2).
Proof.
  intros (Hy1 & Hm1 & Hd1 & _) (Hy2 & Hm2 & Hd2 & _).
  unfold String.leb, date_isoformat, date_le.
  rewrite compare_append by now rewrite !fixed_width_length.
  rewrite fixed_width_compare by (cbn; lia).
  destruct (Z.compare_spec (year t1) (year t2)) as [E|E|E].
  - cbn [append]. rewrite compare_same_head.
    rewrite compare_append by now rewrite !fixed_width_length.
    rewrite fixed_width_compare by (cbn; lia).
    destruct (Z.compare_spec (month t1) (month t2)) as [E'|E'|E'].
    + cbn [append]. rewrite compare_same_head.
      rewrite fixed_width_compare by (cbn; lia).
      destruct (Z.compare_spec (day t1) (day t2)); split; try discriminate;
        intros; try reflexivity; lia.
    + split; [lia | reflexivity].
    + split; [discriminate | lia].
  - split; [lia | reflexivity].
  - split; [discriminate | lia].
Qed.

Lemma weekday_name (t : datetime) :
  In (upper (strftime_a t)) ["MON"; "TUE"; "WED"; "THU"; "FRI"; "SAT"; "SUN"].
Proof.
  unfold strftime_a, weekday.
  pose proof (Z.mod_pos_bound (toordinal t + 6) 7 ltac:(lia)) as H.
  set (w := (toordinal t + 6) mod 7) in *.
  assert (E : w = 0 \/ w = 1 \/ w = 2 \/ w = 3 \/ w = 4 \/ w = 5 \/ w = 6) by lia.
  clearbody w.
  repeat (destruct E as [->|E]); try subst w; cbn; tauto.
Qed.

(** ** The offer resolver *)

Section Resolver.

Context {A : Arith}.

Lemma holds_and (a b : Sql.cond) :
  Sql.holds (Sql.and_ a b) = true <-> Sql.holds a = true /\ Sql.holds b = true.
Proof. destruct a as [[]|], b as [[]|]; cbn; intuition discriminate. Qed.

Lemma holds_null_or {T} (v : option T) (test : T -> bool) :
  Sql.holds (Sql.or_ (Sql.is_null v) (option_map test v)) = true <->
  v = None \/ exists x, v = Some x /\ test x = true.
Proof.
  destruct v as [x|]; cbn.
  - destruct (test x) eqn:E; cbn.
    + split; [intros _; right; now exists x | reflexivity].
    + split; [discriminate | intros [H|(y & [= <-] & H)]; congruence].
  - split; [now left | reflexivity].
Qed.

Lemma holds_or_null {T} (v : option T) (test : T -> bool) :
  Sql.holds (Sql.or_ (option_map test v) (Sql.is_null v)) = true <->
  v = None \/ exists x, v = Some x /\ test x = true.
Proof.
  destruct v as [x|]; cbn.
  - destruct (test x) eqn:E; cbn.
    + split; [intros _; right; now exists x | reflexivity].
    + split; [discriminate | intros [H|(y & [= <-] & H)]; congruence].
  - split; [now left | reflexivity].
Qed.

(** The WHERE clause is true on the applicable rows and on no other. *)
Lemma offer_where_spec (now : datetime) (item : Z) (r : @offer_row A) :
  Sql.holds (offer_where item (date_isoformat now) (upper (strftime_a now)) r) = true
  <-> applicable_as_text now item r.
Proof.
  unfold offer_where, applicable_as_text, Sql.eq_int, Sql.le_text, Sql.ge_text,
    Sql.eq_text. cbv zeta.
  rewrite !holds_and, !holds_null_or, holds_or_null. cbn [Sql.holds].
  split.
  - intros ((((Ha & Hi) & Hs) & He) & Hd).
    split; [destruct (Z.eqb_spec (active r) 1); [assumption | discriminate]|].
    split; [|split; [exact Hs | split; [exact He |]]].
    + destruct Hi as [Hi|(x & Hx & E)]; [now left | right].
      apply Z.eqb_eq in E. now subst.
    + destruct Hd as [Hd|(x & Hx & E)]; [now left | right].
      apply String.eqb_eq in E. now subst.
  - intros (Ha & Hi & Hs & He & Hd).
    split; [split; [split; [split|] |] |]; try assumption.
    + now rewrite Ha.
    + destruct Hi as [Hi|Hi]; [now left | right].
      exists item. split; [exact Hi | apply Z.eqb_refl].
    + destruct Hd as [Hd|Hd]; [now left | right].
      eexists. split; [exact Hd | apply String.eqb_refl].
Qed.

End Resolver.

(** ** The calendar *)

Lemma days_of_years_closed (n : nat) :
  days_of_years n =
  Z.of_nat n * 365 + Z.of_nat n / 4 - Z.of_nat n / 100 + Z.of_nat n / 400.
Proof.
  induction n as [|n IH]; [reflexivity|].
  cbn [days_of_years]. rewrite IH. clear IH.
  rewrite Nat2Z.inj_succ. set (x := Z.of_nat n).
  assert (Hx : 0 <= x) by (subst x; lia). clearbody x.
  unfold days_in_year, is_leap.
  destruct (Z.eqb_spec (Z.succ x mod 4) 0) as [E4|E4];
    destruct (Z.eqb_spec (Z.succ x mod 100) 0) as [E100|E100];
    destruct (Z.eqb_spec (Z.succ x mod 400) 0) as [E400|E400];
    cbn [andb orb negb]; Z.div_mod_to_equations; lia.
Qed.

Lemma days_of_months_closed (y m : Z) :
  1 <= m <= 12 ->
  days_of_months y (Z.to_nat (m - 1)) = days_before_month y m.
Proof.
  intros Hm.
  assert (E : m = 1 \/ m = 2 \/ m = 3 \/ m = 4 \/ m = 5 \/ m = 6 \/ m = 7 \/
              m = 8 \/ m = 9 \/ m = 10 \/ m = 11 \/ m = 12) by lia.
  repeat (destruct E as [->|E]); [..|subst m];
    cbv -[is_leap]; destruct (is_leap y); reflexivity.
Qed.

(** Counting the days gives the ordinal of [date.toordinal()]. *)
Lemma day_number_toordinal (t : datetime) :
  1 <= year t -> 1 <= month t <= 12 -> day_number t = toordinal t.
Proof.
  intros Hy Hm. unfold day_number, toordinal, days_before_year.
  rewrite days_of_years_closed, days_of_months_closed by exact Hm.
  rewrite Z2Nat.id by lia. reflexivity.
Qed.

(** The day the query is given is the weekday of the clock's day. *)
Lemma current_day_name (now : datetime) :
  1 <= year now -> 1 <= month now <= 12 ->
  upper (strftime_a now) = day_name now.
Proof.
  intros Hy Hm. unfold day_name, strftime_a, weekday.
  rewrite day_number_toordinal by assumption.
  replace ((toordinal now - 1) mod 7) with ((toordinal now + 6) mod 7)
    by (Z.div_mod_to_equations; lia).
  pose proof (Z.mod_pos_bound (toordinal now + 6) 7 ltac:(lia)) as H.
  set (w := (toordinal now + 6) mod 7) in *.
  assert (E : w = 0 \/ w = 1 \/ w = 2 \/ w = 3 \/ w = 4 \/ w = 5 \/ w = 6) by lia.
  clearbody w.
  repeat (destruct E as [->|E]); [..|subst w]; reflexivity.
Qed.

Lemma date_leb_le (t1 t2 : datetime) : date_leb t1 t2 = true <-> date_le t1 t2.
Proof. unfold date_leb, date_le. lia. Qed.

Lemma days_in_month_bound (y m : Z) : 28 <= days_in_month y m <= 31.
Proof.
  unfold days_in_month.
  destruct (m =? 2); [destruct (is_leap y); lia|].
  destruct ((m =? 4) || (m =? 6) || (m =? 9) || (m =? 11)); lia.
Qed.

(** What [date_of_text] reads is a day of the calendar. *)
Lemma date_of_text_ok (s : string) (d : datetime) :
  date_of_text s = Some d -> datetime_ok d.
Proof.
  unfold date_of_text.
  destruct (split_at "-" s) as [y [rest|]]; [|discriminate].
  destruct (split_at "-" rest) as [m [d'|]]; [|discriminate].
  destruct (number_of_text y), (number_of_text m), (number_of_text d');
    try discriminate.
  match goal with |- (if calendar_day ?t then _ else _) = _ -> _ =>
    destruct (calendar_day t) eqn:E; [|discriminate] end.
  intros [= <-]. unfold calendar_day in E. cbn [year month day] in E.
  pose proof (days_in_month_bound z z0).
  unfold datetime_ok. cbn. lia.
Qed.

(** A text [YYYY-MM-DD] compares with today's as the day it names
    compares with today. *)
Lemma iso_text_order (s : string) (now : datetime) :
  datetime_ok now -> iso_text s = true ->
  exists d, date_of_text s = Some d /\
            String.leb s (date_isoformat now) = date_leb d now /\
            String.leb (date_isoformat now) s = date_leb now d.
Proof.
  intros Hnow. unfold iso_text.
  destruct (date_of_text s) as [d|] eqn:E; [|discriminate].
  intros Hs. apply String.eqb_eq in Hs.
  pose proof (date_of_text_ok s d E) as Hd.
  exists d. split; [reflexivity|]. rewrite Hs. split.
  - apply eq_true_iff_eq.
    rewrite date_isoformat_order, date_leb_le by assumption. reflexivity.
  - apply eq_true_iff_eq.
    rewrite date_isoformat_order, date_leb_le by assumption. reflexivity.
Qed.

Section ApplicableFacts.

Context {A : Arith}.

(** On rows with dates [YYYY-MM-DD] the WHERE clause is the
    applicability of the specification. *)
Lemma offer_where_applicable (now : datetime) (item : Z) (r : @offer_row A) :
  datetime_ok now -> iso_dated r = true ->
  Sql.holds (offer_where item (date_isoformat now) (upper (strftime_a now)) r) =
  applicable now item r.
Proof.
  intros Hnow Hiso.
  rewrite current_day_name by (unfold datetime_ok in Hnow; lia).
  unfold iso_dated in Hiso. apply andb_prop in Hiso as [Hs He].
  unfold offer_where, applicable, Sql.le_text, Sql.ge_text, Sql.eq_text,
    Sql.eq_int, Sql.is_null. cbv zeta.
  destruct (start_date (columns r)) as [s|]; cbn [option_map].
  - destruct (iso_text_order s now Hnow Hs) as (d & -> & -> & _).
    destruct (end_date (columns r)) as [e|]; cbn [option_map].
    + destruct (iso_text_order e now Hnow He) as (d' & -> & _ & ->).
      cbn. destruct (active r =? 1), (offer_item_id (columns r)) as [i|],
        (day_of_week (columns r)) as [w|]; cbn;
        repeat match goal with |- context [?x =? ?y] => destruct (x =? y) end;
        repeat match goal with |- context [String.eqb ?x ?y] =>
                 destruct (String.eqb x y) end;
        destruct (date_leb d now), (date_leb now d'); reflexivity.
    + cbn. destruct (active r =? 1), (offer_item_id (columns r)) as [i|],
        (day_of_week (columns r)) as [w|]; cbn;
        repeat match goal with |- context [?x =? ?y] => destruct (x =? y) end;
        repeat match goal with |- context [String.eqb ?x ?y] =>
                 destruct (String.eqb x y) end;
        destruct (date_leb d now); reflexivity.
  - destruct (end_date (columns r)) as [e|]; cbn [option_map].
    + destruct (iso_text_order e now Hnow He) as (d' & -> & _ & ->).
      cbn. destruct (active r =? 1), (offer_item_id (columns r)) as [i|],
        (day_of_week (columns r)) as [w|]; cbn;
        repeat match goal with |- context [?x =? ?y] => destruct (x =? y) end;
        repeat match goal with |- context [String.eqb ?x ?y] =>
                 destruct (String.eqb x y) end;
        destruct (date_leb now d'); reflexivity.
    + cbn. destruct (active r =? 1), (offer_item_id (columns r)) as [i|],
        (day_of_week (columns r)) as [w|]; cbn;
        repeat match goal with |- context [?x =? ?y] => destruct (x =? y) end;
        repeat match goal with |- context [String.eqb ?x ?y] =>
                 destruct (String.eqb x y) end;
        reflexivity.
Qed.

End ApplicableFacts.

(** C4, as stated, fails for dates that are not written [YYYY-MM-DD]:
    they are stored as the text that was typed and compared as texts.
    On Tuesday 4 November 2025 an offer that starts on 1 September
    2025, written ["2025-9-01"], is applicable and is not returned; an
    offer that ended on that day is not applicable and is returned. *)
Lemma C4_counterexample :
  date_of_text "2025-9-01" =
    Some {| year := 2025; month := 9; day := 1;
            hour := 0; minute := 0; second := 0 |} /\
  applicable clock_0018 6 from_september = true /\
  get_active_offers_for_item clock_0018 6
    {| orders := []; orders_seq := 0; offers := [from_september] |} = [] /\
  applicable clock_0018 6 until_september = false /\
  get_active_offers_for_item clock_0018 6
    {| orders := []; orders_seq := 0; offers := [until_september] |} =
    [columns until_september].
Proof. repeat split. Qed.

(** C4 (amended).  The resolver returns, in table order, the selected
    columns of exactly the rows of [offers] that are active, for all
    items or for the queried one, with no start date or one that as
    text is not after the text [YYYY-MM-DD] of today, with no end date
    or one that as text is not before it, and with no day or today's,
    the weekday of the clock's day in upper case, MON to SUN.  Between
    texts [YYYY-MM-DD] of calendar days the order of the texts is the
    order of the days: when the dates of every row are written so, the
    rows returned are exactly the applicable ones of section 3. *)
Theorem C4_applicable_offers {A : Arith} (now : datetime) (item : Z)
    (db : @database A) :
  (exists rows : list (@offer_row A),
     get_active_offers_for_item now item db = map columns rows /\
     rows = filter (fun r => Sql.holds (offer_where item (date_isoformat now)
                                          (upper (strftime_a now)) r))
                   (offers db) /\
     forall r, In r rows <-> In r (offers db) /\ applicable_as_text now item r) /\
  (datetime_ok now ->
   upper (strftime_a now) = day_name now /\
   forall t : datetime,
     datetime_ok t ->
     (String.leb (date_isoformat t) (date_isoformat now) = true <-> date_le t now) /\
     (String.leb (date_isoformat now) (date_isoformat t) = true <-> date_le now t)) /\
  (datetime_ok now ->
   Forall (fun r => iso_dated r = true) (offers db) ->
   get_active_offers_for_item now item db =
     map columns (filter (applicable now item) (offers db)) /\
   forall o : @offer A,
     In o (get_active_offers_for_item now item db) <->
     exists r, In r (offers db) /\ applicable now item r = true /\ columns r = o).
Proof.
  split; [|split].
  - eexists. split; [reflexivity|]. split; [reflexivity|].
    intros r. rewrite filter_In, offer_where_spec. reflexivity.
  - intros Hnow. split.
    + apply current_day_name; unfold datetime_ok in Hnow; lia.
    + intros t Ht. split; now apply date_isoformat_order.
  - intros Hnow Hiso.
    assert (E : get_active_offers_for_item now item db =
                map columns (filter (applicable now item) (offers db))).
    { unfold get_active_offers_for_item. cbv zeta. f_equal.
      apply filter_ext_in. intros r Hr.
      apply offer_where_applicable; [exact Hnow|].
      rewrite Forall_forall in Hiso. now apply Hiso. }
    split; [exact E|].
    intros o. rewrite E, in_map_iff. split.
    + intros (r & Hc & Hin). apply filter_In in Hin as [Hin Happ]. now exists r.
    + intros (r & Hin & Happ & Hc). exists r. split; [exact Hc|].
      apply filter_In. now split.
Qed.

Lemma C4_applicable_offers_witness :
  get_active_offers_for_item clock_0018 6 sample_database =
    [lunch_20_percent; tea_tuesday] /\
  upper (strftime_a clock_0018) = "TUE".
Proof.
  pose proof (C4_applicable_offers (A:=binary64) clock_0018 6 sample_database)
    as (_ & Hday & Hiso).
  assert (Hnow : datetime_ok clock_0018) by (unfold datetime_ok; cbn; lia).
  destruct (Hday Hnow) as [Hd _].
  destruct (Hiso Hnow) as [Heq _]; [repeat constructor|].
  split; [rewrite Heq | rewrite Hd]; reflexivity.
Defined.

(** The resolver on the sample rows, on a Tuesday, for items 6 and 5,
    and the next day. *)
Example resolver_on_sample_rows :
  get_active_offers_for_item clock_0018 6 sample_database =
    [lunch_20_percent; tea_tuesday] /\
  get_active_offers_for_item clock_0018 5 sample_database = [lunch_20_percent] /\
  get_active_offers_for_item
    {| year := 2025; month := 11; day := 5; hour := 0; minute := 0; second := 0 |}
    6 sample_database = [lunch_20_percent].
Proof. repeat split. Qed.

(** Weekdays that are on record, by [day_name] and by [strftime]. *)
Example weekdays_on_record :
  map (fun s => option_map day_name (date_of_text s))
      ["0001-01-01"; "1900-03-01"; "1970-01-01"; "2000-02-29"; "2024-02-29";
       "2025-11-04"; "2100-03-01"; "9999-12-31"] =
  map Some ["MON"; "THU"; "THU"; "TUE"; "THU"; "TUE"; "MON"; "FRI"] /\
  map (fun s => option_map (fun t => upper (strftime_a t)) (date_of_text s))
      ["0001-01-01"; "1900-03-01"; "1970-01-01"; "2000-02-29"; "2024-02-29";
       "2025-11-04"; "2100-03-01"; "9999-12-31"] =
  map Some ["MON"; "THU"; "THU"; "TUE"; "THU"; "TUE"; "MON"; "FRI"] /\
  date_of_text "2025-02-29" = None /\
  date_of_text "04/11/2025" = None.
Proof.
  split; [vm_compute; reflexivity|].
  split; [vm_compute; reflexivity|].
  split; vm_compute; reflexivity.
Qed.

(** ** The cart total *)

(** C5, as stated, on doubles: a permutation of a cart changes its
    total from 0.62 to 0.63, and so does the replacement of a line of
    three by three lines of one, under the summation of CPython up to
    3.11 and under the one of 3.12 and later. *)
Lemma C5_counterexample :
  Permutation cart_big_first cart_small_first /\
  cart_total (A:=binary64) sum_left_to_right cart_big_first =
    Some 0x1.3d70a3d70a3d7p-1%float /\
  cart_total (A:=binary64) sum_left_to_right cart_small_first =
    Some 0x1.428f5c28f5c29p-1%float /\
  cart_total (A:=binary64) sum_compensated cart_big_first =
    Some 0x1.3d70a3d70a3d7p-1%float /\
  cart_total (A:=binary64) sum_compensated cart_small_first =
    Some 0x1.428f5c28f5c29p-1%float /\
  qty line_of_three = 3 /\
  cart_total (A:=binary64) sum_left_to_right cart_one_line_of_three =
    Some 0x1.3d70a3d70a3d7p-1%float /\
  cart_total (A:=binary64) sum_left_to_right cart_three_lines_of_one =
    Some 0x1.428f5c28f5c29p-1%float /\
  cart_total (A:=binary64) sum_compensated cart_one_line_of_three =
    Some 0x1.3d70a3d70a3d7p-1%float /\
  cart_total (A:=binary64) sum_compensated cart_three_lines_of_one =
    Some 0x1.428f5c28f5c29p-1%float /\
  0x1.3d70a3d70a3d7p-1%float <> 0x1.428f5c28f5c29p-1%float.
Proof.
  split.
  { unfold cart_big_first, cart_small_first. apply Permutation_sym.
    apply perm_trans with
      (l' := [line 2 "b" 0x1p-54 1; line 1 "a" 0x1.4p-1 1;
              line 3 "c" 0x1p-107 1; line 4 "d" 0x1p-107 1]).
    - apply (Permutation_app_comm [_; _] [_; _]).
    - apply perm_swap. }
  do 9 (split; [reflexivity|]).
  intros E. apply (f_equal Prim2SF) in E. discriminate E.
Qed.

(** With prices 0.47, 1.875 and 0.03 the left-to-right sum already
    depends on the order of the lines: 2.37 and 2.38. *)
Example cart_snacks_totals :
  Permutation cart_snacks cart_snacks_reordered /\
  cart_total (A:=binary64) sum_left_to_right cart_snacks =
    Some 0x1.2f5c28f5c28f6p+1%float /\
  cart_total (A:=binary64) sum_left_to_right cart_snacks_reordered =
    Some 0x1.30a3d70a3d70ap+1%float.
Proof.
  split; [|split; reflexivity].
  unfold cart_snacks, cart_snacks_reordered.
  apply Permutation_sym. apply (Permutation_cons_append [_; _]).
Qed.

(** [ring] on an equation between amounts of the exact instance. *)
Ltac exact_ring :=
  change (@num exact) with Qc in *;
  change (@add exact) with Qcplus in *;
  change (@mul exact) with Qcmult in *;
  change (@zero exact) with (Q2Qc 0) in *;
  ring.

Section ExactSums.

Local Open Scope Qc_scope.

Lemma exact_sum_from (l : list Qc) (z : Qc) :
  fold_left Qcplus l z = z + fold_left Qcplus l (Q2Qc 0).
Proof.
  revert z. induction l as [|x l IH]; intros z; cbn.
  - now rewrite Qcplus_0_r.
  - rewrite (IH (z + x)), (IH (Q2Qc 0 + x)). ring.
Qed.

Lemma exact_sum_nil : sum_left_to_right (A:=exact) [] = Q2Qc 0.
Proof. reflexivity. Qed.

Lemma exact_sum_cons (x : Qc) (l : list Qc) :
  sum_left_to_right (A:=exact) (x :: l) = x + sum_left_to_right (A:=exact) l.
Proof.
  unfold sum_left_to_right; cbn. rewrite exact_sum_from. exact_ring.
Qed.

Lemma exact_sum_app (l1 l2 : list Qc) :
  sum_left_to_right (A:=exact) (l1 ++ l2) =
  sum_left_to_right (A:=exact) l1 + sum_left_to_right (A:=exact) l2.
Proof.
  induction l1 as [|x l1 IH]; cbn [app].
  - exact (eq_sym (Qcplus_0_l _)).
  - rewrite !exact_sum_cons, IH. exact_ring.
Qed.

Lemma exact_sum_permutation (l l' : list Qc) :
  Permutation l l' ->
  sum_left_to_right (A:=exact) l = sum_left_to_right (A:=exact) l'.
Proof.
  induction 1 as [|x l l' _ IH|x y l|l l' l'' _ IH1 _ IH2].
  - reflexivity.
  - now rewrite !exact_sum_cons, IH.
  - rewrite !exact_sum_cons. exact_ring.
  - now rewrite IH1.
Qed.

Lemma exact_line_totals (cart : list (@cart_item exact)) :
  line_totals cart = Some (map (fun i => price i * Q2Qc (inject_Z (qty i))) cart).
Proof.
  induction cart as [|i cart IH]; cbn; [reflexivity|]. now rewrite IH.
Qed.

Lemma exact_cart_total (cart : list (@cart_item exact)) :
  cart_total sum_left_to_right cart =
  Some (round2
          (sum_left_to_right (map (fun i => price i * Q2Qc (inject_Z (qty i))) cart))).
Proof. unfold cart_total. now rewrite exact_line_totals. Qed.

End ExactSums.

(** C5 (amended).  In exact arithmetic, the cart total is the same for
    a cart and any permutation of it, and for a cart and the cart in
    which a line of quantity 3 is replaced by three lines of quantity 1
    with the same item and price. *)
Theorem C5_cart_total_invariant_exact (cart cart' : list (@cart_item exact)) :
  (Permutation cart cart' ->
   cart_total sum_left_to_right cart = cart_total sum_left_to_right cart') /\
  (forall (before after : list (@cart_item exact)) (i : @cart_item exact),
     qty i = 3 ->
     cart = (before ++ i :: after)%list ->
     cart' = (before ++ single i :: single i :: single i :: after)%list ->
     cart_total sum_left_to_right cart = cart_total sum_left_to_right cart').
Proof.
  split.
  - intros Hp. rewrite !exact_cart_total. do 2 f_equal.
    apply exact_sum_permutation. now apply Permutation_map.
  - intros before after i Hq -> ->. rewrite !exact_cart_total. do 2 f_equal.
    rewrite !map_app, !exact_sum_app. f_equal. cbn [map].
    rewrite !exact_sum_cons. cbn [price qty single]. rewrite Hq.
    replace (Q2Qc (inject_Z 3)) with (1 + 1 + 1)%Qc by (apply Qc_is_canon; reflexivity).
    replace (Q2Qc (inject_Z 1)) with 1%Qc by (apply Qc_is_canon; reflexivity).
    exact_ring.
Qed.

Lemma C5_cart_total_invariant_exact_witness :
  cart_total sum_left_to_right exact_snacks =
    cart_total sum_left_to_right exact_snacks_reordered /\
  cart_total sum_left_to_right exact_snacks =
    cart_total sum_left_to_right exact_snacks_split.
Proof.
  split.
  - apply (proj1 (C5_cart_total_invariant_exact exact_snacks exact_snacks_reordered)).
    apply Permutation_sym. apply (Permutation_cons_append [_; _]).
  - apply (proj2 (C5_cart_total_invariant_exact exact_snacks exact_snacks_split)
             [exact_line 1 "Bun" (47 # 100) 1] [exact_line 3 "Mint" (3 # 100) 1]
             (exact_line 2 "Dosa" (15 # 8) 3)); reflexivity.
Defined.

(** ** Revenue per day *)

(** C8, as stated, on doubles: two orders of one day, of 0.1 and 0.2
    (each its own rounded cart total).  The day's bucket is 0.3, the sum
    of the two amounts is 0.30000000000000004, under either summation. *)
Lemma C8_counterexample :
  cart_total (A:=binary64) sum_left_to_right [line 1 "Mint" 0x1.999999999999ap-4 1] =
    Some 0x1.999999999999ap-4%float /\
  cart_total (A:=binary64) sum_left_to_right [line 2 "Gum" 0x1.999999999999ap-3 1] =
    Some 0x1.999999999999ap-3%float /\
  revenue_per_day (A:=binary64) fromisoformat_written ledger_two_small =
    [("2025-11-04", 0x1.3333333333333p-2%float)] /\
  buckets_total (A:=binary64) sum_left_to_right
    (revenue_per_day (A:=binary64) fromisoformat_written ledger_two_small) =
    0x1.3333333333333p-2%float /\
  grand_total (A:=binary64) sum_left_to_right ledger_two_small = 0x1.3333333333334p-2%float /\
  buckets_total (A:=binary64) sum_compensated
    (revenue_per_day (A:=binary64) fromisoformat_written ledger_two_small) =
    0x1.3333333333333p-2%float /\
  grand_total (A:=binary64) sum_compensated ledger_two_small = 0x1.3333333333334p-2%float /\
  0x1.3333333333333p-2%float <> 0x1.3333333333334p-2%float.
Proof.
  do 7 (split; [reflexivity|]).
  intros E. apply (f_equal Prim2SF) in E. discriminate E.
Qed.

Section ExactRevenue.

Local Open Scope Qc_scope.

Lemma two_decimals_zero : two_decimals (Q2Qc 0).
Proof. exists 0%Z. apply Qc_is_canon. reflexivity. Qed.

Lemma two_decimals_add (a b : Qc) :
  two_decimals a -> two_decimals b -> two_decimals (a + b).
Proof.
  intros [ka ->] [kb ->]. exists (ka + kb)%Z.
  unfold Qcplus. apply Q2Qc_eq_iff.
  change (this (Q2Qc (ka # 100))) with (Qred (ka # 100)).
  change (this (Q2Qc (kb # 100))) with (Qred (kb # 100)).
  rewrite !Qred_correct. unfold Qeq, Qplus; cbn. ring.
Qed.

(** [round(x, 2)] has two decimals. *)
Lemma round2_two_decimals (x : Qc) : two_decimals (Exact.round2 x).
Proof. unfold Exact.round2. eexists. reflexivity. Qed.

Lemma round_half_even_exact (k : Z) (d : positive) :
  (0 <= k)%Z -> round_half_even (k * Zpos d) d = k.
Proof.
  intros Hk. unfold round_half_even.
  rewrite Z.div_mul, Z.mod_mul by lia. reflexivity.
Qed.

(** [round(x, 2)] leaves an amount with two decimals as it is. *)
Lemma round2_of_two_decimals (q : Qc) : two_decimals q -> Exact.round2 q = q.
Proof.
  intros [k Hq]. rewrite Hq at 2. unfold Exact.round2, Exact.units, Exact.negative.
  assert (E : (Qnum q * 100 = k * Zpos (Qden q))%Z).
  { rewrite Hq. cbn. pose proof (Qred_correct (k # 100)) as H.
    unfold Qeq in H. cbn in H. exact H. }
  apply Q2Qc_eq_iff. unfold Qeq; cbn.
  change (10 ^ Z.of_nat 2)%Z with 100%Z.
  assert (Habs : (Z.abs (Qnum q) * 100 = Z.abs k * Zpos (Qden q))%Z).
  { rewrite <- (Z.abs_eq 100) at 1 by lia.
    rewrite <- (Z.abs_eq (Zpos (Qden q))) by lia.
    rewrite <- !Z.abs_mul. now rewrite E. }
  rewrite Habs, round_half_even_exact by lia.
  destruct (Z.ltb_spec (Qnum q) 0) as [Hn|Hn]; nia.
Qed.

Lemma dict_get_two_decimals (totals : @dict exact) (k : string) :
  Forall (fun kv => two_decimals (snd kv)) totals ->
  two_decimals (dict_get totals k (Q2Qc 0)).
Proof.
  induction 1 as [|[k' v] totals Hv _ IH]; cbn.
  - apply two_decimals_zero.
  - destruct (String.eqb k' k); [exact Hv | exact IH].
Qed.

Lemma dict_set_two_decimals (totals : @dict exact) (k : string) (v : Qc) :
  Forall (fun kv => two_decimals (snd kv)) totals -> two_decimals v ->
  Forall (fun kv => two_decimals (snd kv)) (dict_set totals k v).
Proof.
  intros Ht Hv. induction Ht as [|[k' v'] totals Hv' Ht IH]; cbn.
  - now constructor.
  - destruct (String.eqb k' k); constructor; assumption.
Qed.

Lemma Qcplus_swap (x y z : Qc) : x + y + z = x + z + y.
Proof. ring. Qed.

(** Writing [old + a] under a key adds [a] to the sum of the values. *)
Lemma dict_set_total (totals : @dict exact) (k : string) (a : Qc) :
  sum_left_to_right (A:=exact)
    (map snd (dict_set totals k (dict_get totals k (Q2Qc 0) + a))) =
  sum_left_to_right (A:=exact) (map snd totals) + a.
Proof.
  induction totals as [|[k' v'] totals IH]; cbn [dict_set dict_get map snd].
  - rewrite exact_sum_cons, exact_sum_nil. now rewrite Qcplus_0_r.
  - destruct (String.eqb k' k); cbn [map snd]; rewrite !exact_sum_cons.
    + apply Qcplus_swap.
    + rewrite IH. apply Qcplus_assoc.
Qed.

Variable fromisoformat_date : string -> option string.

Lemma revenue_fold (l : list (@order exact)) (totals : @dict exact) :
  Forall (fun o => two_decimals (total_amount o)) l ->
  Forall (fun kv => two_decimals (snd kv)) totals ->
  Forall (fun kv => two_decimals (snd kv))
         (fold_left (revenue_step fromisoformat_date) l totals) /\
  sum_left_to_right (A:=exact)
    (map snd (fold_left (revenue_step fromisoformat_date) l totals)) =
  sum_left_to_right (A:=exact) (map snd totals) +
  sum_left_to_right (A:=exact) (map total_amount l).
Proof.
  intros Hl. revert totals. induction Hl as [|o l Ho _ IH]; intros totals Ht.
  - cbn [fold_left map]. split; [exact Ht|]. rewrite exact_sum_nil.
    symmetry. apply Qcplus_0_r.
  - cbn [fold_left map].
    set (d := day_of fromisoformat_date (timestamp o)).
    assert (Hsum : two_decimals (dict_get totals d (Q2Qc 0) + total_amount o))
      by (apply two_decimals_add; [now apply dict_get_two_decimals | exact Ho]).
    assert (Hstep : revenue_step fromisoformat_date totals o =
                    dict_set totals d (dict_get totals d (Q2Qc 0) + total_amount o)).
    { unfold revenue_step. fold d. f_equal. now apply round2_of_two_decimals. }
    rewrite Hstep.
    destruct (IH _ (dict_set_two_decimals totals d _ Ht Hsum)) as [Hvals Htot].
    split; [exact Hvals|].
    rewrite Htot, dict_set_total, exact_sum_cons. symmetry. apply Qcplus_assoc.
Qed.

End ExactRevenue.

(** C8 (amended).  In exact arithmetic, when every order's amount has
    at most two decimals, as every cart total has, the values of
    [revenue_per_day] have at most two decimals and their sum is the
    sum of the amounts of all orders. *)
Theorem C8_revenue_buckets_exact (fromisoformat_date : string -> option string)
    (db : @database exact) :
  Forall (fun o => two_decimals (total_amount o)) (orders db) ->
  buckets_total sum_left_to_right (revenue_per_day fromisoformat_date db) =
    grand_total sum_left_to_right db /\
  Forall (fun kv => two_decimals (snd kv)) (revenue_per_day fromisoformat_date db) /\
  (forall (cart : list (@cart_item exact)) (total : num),
     cart_total sum_left_to_right cart = Some total -> two_decimals total).
Proof.
  intros Hdb.
  destruct (revenue_fold fromisoformat_date (orders db) [] Hdb (Forall_nil _))
    as [Hvals Htot].
  split; [|split].
  - unfold buckets_total, grand_total, revenue_per_day. rewrite Htot.
    cbn [map]. exact (Qcplus_0_l _).
  - exact Hvals.
  - intros cart total. rewrite exact_cart_total. intros [= <-].
    apply round2_two_decimals.
Qed.

Lemma C8_revenue_buckets_exact_witness :
  buckets_total sum_left_to_right (revenue_per_day fromisoformat_written exact_ledger) =
    grand_total sum_left_to_right exact_ledger.
Proof.
  apply (C8_revenue_buckets_exact fromisoformat_written exact_ledger).
  repeat constructor; cbn.
  - exists 10%Z. apply Qc_is_canon. reflexivity.
  - exists 20%Z. apply Qc_is_canon. reflexivity.
  - exists 2375%Z. apply Qc_is_canon. reflexivity.
Defined.

(** ** Ordered results *)

Section OrderByFacts.

Context {T : Type}.
Variable before : T -> T -> bool.

(** The order [before] comes from: it never holds both ways, and what
    is not before [y], with [y] not before [x], is not before [x]. *)
Hypothesis before_asym : forall x y, before x y = true -> before y x = false.
Hypothesis before_neg_trans : forall x y z,
  before z y = false -> before y x = false -> before z x = false.

Lemma place_perm (x : T) (l : list T) : Permutation (place before x l) (x :: l).
Proof.
  induction l as [|y l IH]; cbn; [reflexivity|].
  destruct (before y x); [|reflexivity].
  rewrite IH. apply perm_swap.
Qed.

Lemma order_by_perm (l : list T) : Permutation (order_by before l) l.
Proof.
  induction l as [|x l IH]; cbn; [reflexivity|].
  rewrite place_perm. now constructor.
Qed.

Lemma place_in_order (x : T) (l : list T) :
  in_order before l -> in_order before (place before x l).
Proof.
  unfold in_order. induction l as [|y l IH]; cbn; intros Hs.
  - repeat constructor.
  - apply StronglySorted_inv in Hs as [Hl Hy].
    destruct (before y x) eqn:E.
    + constructor; [now apply IH|].
      rewrite Forall_forall in *. intros z Hz.
      apply (Permutation_in _ (place_perm x l)) in Hz.
      destruct Hz as [<-|Hz]; [now apply before_asym | now apply Hy].
    + constructor; [now constructor|].
      constructor; [exact E|].
      rewrite Forall_forall in *. intros z Hz.
      exact (before_neg_trans _ _ _ (Hy z Hz) E).
Qed.

Lemma order_by_in_order (l : list T) : in_order before (order_by before l).
Proof.
  induction l as [|x l IH]; cbn; [constructor | now apply place_in_order].
Qed.

(** A row that nothing has to come before stays in front. *)
Lemma place_front (x : T) (l : list T) :
  Forall (fun z => before z x = false) l -> place before x l = x :: l.
Proof.
  destruct l as [|y l]; cbn; [reflexivity|].
  intros H. apply Forall_inv in H. now rewrite H.
Qed.

(** A row that comes before all the others, added last, is returned
    first. *)
Lemma fold_place_first (x : T) (s l : list T) :
  Forall (fun y => before x y = true) l ->
  fold_right (place before) (x :: s) l = x :: fold_right (place before) s l.
Proof.
  induction l as [|y l IH]; cbn; intros H; [reflexivity|].
  apply Forall_cons_iff in H as [Hy Hl].
  rewrite (IH Hl). cbn. now rewrite Hy.
Qed.

Lemma order_by_snoc_first (x : T) (l : list T) :
  Forall (fun y => before x y = true) l ->
  order_by before (l ++ [x]) = x :: order_by before l.
Proof.
  intros H. unfold order_by. rewrite fold_right_app. cbn.
  now apply fold_place_first.
Qed.

(** Selecting rows before or after ordering them is the same. *)
Lemma filter_place (p : T -> bool) (x : T) (l : list T) :
  in_order before l ->
  filter p (place before x l) =
  if p x then place before x (filter p l) else filter p l.
Proof.
  unfold in_order. induction l as [|y l IH]; cbn; intros Hs.
  - now destruct (p x).
  - apply StronglySorted_inv in Hs as [Hl Hy].
    destruct (before y x) eqn:E; cbn.
    + rewrite (IH Hl). destruct (p y), (p x); cbn; try rewrite E; reflexivity.
    + destruct (p x) eqn:Px; [|reflexivity].
      destruct (p y) eqn:Py; cbn; [now rewrite E|].
      symmetry. apply place_front.
      rewrite Forall_forall in *. intros z Hz.
      apply filter_In in Hz as [Hz _].
      exact (before_neg_trans _ _ _ (Hy z Hz) E).
Qed.

Lemma filter_order_by (p : T -> bool) (l : list T) :
  filter p (order_by before l) = order_by before (filter p l).
Proof.
  induction l as [|x l IH]; [reflexivity|].
  change (order_by before (x :: l)) with (place before x (order_by before l)).
  rewrite filter_place by apply order_by_in_order.
  rewrite IH. cbn. now destruct (p x).
Qed.

End OrderByFacts.

(** An order by an integer key, largest first. *)
Section LargestFirst.

Context {T : Type}.
Variable key : T -> Z.

Lemma larger_first_asym x y :
  larger_first key x y = true -> larger_first key y x = false.
Proof. unfold larger_first. lia. Qed.

Lemma larger_first_neg_trans x y z :
  larger_first key z y = false -> larger_first key y x = false ->
  larger_first key z x = false.
Proof. unfold larger_first. lia. Qed.

Lemma largest_first_sorted (l : list T) :
  StronglySorted (fun a b => key b <= key a) (order_by (larger_first key) l).
Proof.
  pose proof (order_by_in_order (larger_first key) larger_first_asym
                larger_first_neg_trans l) as H.
  unfold in_order in H. induction H as [|a s Hs IH Ha]; constructor; [exact IH|].
  eapply Forall_impl; [|exact Ha]. unfold larger_first. cbn. intros b Hb. lia.
Qed.

End LargestFirst.

(** ** Reading the ledger *)

Section ReadFacts.

Context {A : Arith}.
Implicit Types (db : @database A) (o : @order A).

Lemma latest_first_sorted (rows : list order) :
  StronglySorted (fun a b => order_id b <= order_id a) (latest_first rows).
Proof. exact (largest_first_sorted order_id rows). Qed.

Lemma latest_first_perm (rows : list order) : Permutation (latest_first rows) rows.
Proof. apply order_by_perm. Qed.

Lemma latest_first_filter (p : order -> bool) (rows : list order) :
  filter p (latest_first rows) = latest_first (filter p rows).
Proof.
  apply (filter_order_by (larger_first order_id));
    [apply larger_first_asym | apply larger_first_neg_trans].
Qed.

Lemma latest_first_snoc (rows : list order) o :
  Forall (fun r => order_id r < order_id o) rows ->
  latest_first (rows ++ [o]) = o :: latest_first rows.
Proof.
  intros H. apply (order_by_snoc_first (larger_first order_id)).
  eapply Forall_impl; [|exact H]. unfold larger_first. cbn. intros r Hr. lia.
Qed.

(** What [Order.create] has done when it returns. *)
Lemma Order_create_returned (builtin_sum : list num -> num) (now : datetime)
    (draws : list Z) (user : string) (cart : list cart_item) db (id : Z) db' :
  Order_create builtin_sum now draws user cart db = Returned (id, db') ->
  exists total token,
    cart_total builtin_sum cart = Some total /\
    id = next_order_id db /\
    db' = {| orders := (orders db ++
               [{| order_id := id; user_id := user; items := cart;
                   total_amount := total; token_number := token;
                   status := "PLACED"; timestamp := isoformat now |}])%list;
             orders_seq := id;
             offers := offers db |}.
Proof.
  unfold Order_create, create_order.
  destruct (cart_total builtin_sum cart) as [total|]; [|discriminate].
  destruct (_generate_unique_token draws db) as [token|]; [|discriminate].
  destruct (is_nan total); [discriminate|].
  destruct (max_rowid <? next_order_id db)%Z; [discriminate|].
  intros [= <- <-]. now exists total, token.
Qed.

Lemma orders_below_next db :
  Forall (fun r => order_id r < next_order_id db) (orders db).
Proof. apply Forall_forall. intros r Hr. now apply next_order_id_fresh. Qed.

End ReadFacts.

(** ** Listings of the ledger *)

(** X1.  [list_orders] and [list_orders_for_user] return the selected
    orders, each once, latest first (by decreasing [order_id]): all
    orders when the status is [None] or the empty text, the orders of
    that status otherwise, the orders of that user.  The listing of a
    status is the listing of all orders with the others left out. *)
Theorem list_orders_latest_first {A : Arith} (status_filter : option string)
    (user : string) (db : @database A) :
  let wanted (o : @order A) :=
    match status_filter with
    | None => true
    | Some s => String.eqb s "" || String.eqb (status o) s
    end in
  StronglySorted (fun a b => order_id b <= order_id a)
    (list_orders status_filter db) /\
  Permutation (list_orders status_filter db) (filter wanted (orders db)) /\
  list_orders status_filter db = filter wanted (list_orders None db) /\
  StronglySorted (fun a b => order_id b <= order_id a)
    (list_orders_for_user user db) /\
  Permutation (list_orders_for_user user db)
    (filter (fun o => String.eqb (user_id o) user) (orders db)).
Proof.
  intros wanted.
  assert (E : list_orders status_filter db = latest_first (filter wanted (orders db))).
  { unfold list_orders, wanted. destruct status_filter as [s|].
    - destruct (String.eqb s ""); cbn; [|reflexivity].
      f_equal. symmetry. apply forallb_filter_id. now apply forallb_forall.
    - f_equal. symmetry. apply forallb_filter_id. now apply forallb_forall. }
  split; [rewrite E; apply latest_first_sorted|].
  split; [rewrite E; apply latest_first_perm|].
  split; [rewrite E; unfold list_orders; now rewrite latest_first_filter|].
  split; [apply latest_first_sorted | apply latest_first_perm].
Qed.

Section Listings.

Context {A : Arith}.
Implicit Types (db : @database A) (o : @order A).

Lemma tuple_ltb_placed_front o (rows : list order) :
  status o = "PLACED" ->
  Forall (fun r => order_id r <= order_id o) rows ->
  Forall (fun z => tuple_ltb (current_first_key z) (current_first_key o) = false)
         rows.
Proof.
  intros Ho H. eapply Forall_impl; [|exact H]. cbn. intros r Hr.
  unfold tuple_ltb, current_first_key. cbn. rewrite Ho. cbn.
  destruct (negb (String.eqb (status r) "PLACED")); [reflexivity|].
  apply Z.ltb_ge. lia.
Qed.

Lemma place_skip {T : Type} (before : T -> T -> bool) (x : T) (p n : list T) :
  Forall (fun z => before z x = true) p ->
  place before x (p ++ n) = (p ++ place before x n)%list.
Proof.
  induction p as [|y p IH]; cbn; intros H; [reflexivity|].
  apply Forall_cons_iff in H as [Hy Hp]. now rewrite Hy, (IH Hp).
Qed.

(** On rows that are latest first, the order of [_load_orders] puts
    the placed ones in front and leaves each group as it was. *)
Lemma current_first_split (rows : list order) :
  StronglySorted (fun a b => order_id b <= order_id a) rows ->
  order_by (fun y x => tuple_ltb (current_first_key y) (current_first_key x)) rows =
  (filter (fun o => String.eqb (status o) "PLACED") rows ++
   filter (fun o => negb (String.eqb (status o) "PLACED")) rows)%list.
Proof.
  induction rows as [|x l IH]; intros Hs; [reflexivity|].
  apply StronglySorted_inv in Hs as [Hl Hx].
  unfold order_by in *. cbn [fold_right]. rewrite (IH Hl). cbn [filter].
  destruct (String.eqb (status x) "PLACED") eqn:Ex; cbn [negb].
  - apply String.eqb_eq in Ex. cbn. apply place_front.
    apply tuple_ltb_placed_front; [exact Ex|].
    apply Forall_app. split.
    + apply Forall_forall. intros z Hz. apply filter_In in Hz as [Hz _].
      rewrite Forall_forall in Hx. now apply Hx.
    + apply Forall_forall. intros z Hz. apply filter_In in Hz as [Hz _].
      rewrite Forall_forall in Hx. now apply Hx.
  - rewrite place_skip.
    + f_equal. apply place_front.
      apply Forall_forall. intros z Hz. apply filter_In in Hz as [Hz Hp].
      rewrite Forall_forall in Hx. specialize (Hx z Hz).
      unfold tuple_ltb, current_first_key. cbn. rewrite Ex. cbn.
      rewrite Hp. apply Z.ltb_ge. lia.
    + apply Forall_forall. intros z Hz. apply filter_In in Hz as [Hz Hp].
      unfold tuple_ltb, current_first_key. cbn. now rewrite Ex, Hp.
Qed.

End Listings.

(** X2.  [StudentDashboard._load_orders] shows the orders of the user
    that are PLACED, latest first, and below them the others, latest
    first. *)
Theorem load_orders_current_first {A : Arith} (user : string) (db : @database A) :
  _load_orders user db =
  (filter (fun o => String.eqb (status o) "PLACED") (list_orders_for_user user db) ++
   filter (fun o => negb (String.eqb (status o) "PLACED"))
          (list_orders_for_user user db))%list.
Proof.
  unfold _load_orders. apply current_first_split. apply latest_first_sorted.
Qed.

(** X3.  When [Order.create] returns, the new order, PLACED and with
    the identifier returned, is the first row of [list_orders()], of
    [list_orders("PLACED")], of the listing of its user and of what
    [_load_orders] shows to that user; the rows below it are what
    these listings were before, and the listing of any other user is
    as it was. *)
Theorem Order_create_listed_first {A : Arith} (builtin_sum : list num -> num)
    (now : datetime) (draws : list Z) (user : string)
    (cart : list (@cart_item A)) (db db' : @database A) (id : Z) :
  Order_create builtin_sum now draws user cart db = Returned (id, db') ->
  exists o : @order A,
    order_id o = id /\ user_id o = user /\ items o = cart /\
    status o = "PLACED" /\ timestamp o = isoformat now /\
    list_orders None db' = o :: list_orders None db /\
    list_orders (Some "PLACED") db' = o :: list_orders (Some "PLACED") db /\
    list_orders_for_user user db' = o :: list_orders_for_user user db /\
    _load_orders user db' = o :: _load_orders user db /\
    forall other : string,
      other <> user ->
      list_orders_for_user other db' = list_orders_for_user other db.
Proof.
  intros H. apply Order_create_returned in H as (total & token & _ & -> & ->).
  set (o := {| order_id := next_order_id db; user_id := user; items := cart;
               total_amount := total; token_number := token;
               status := "PLACED"; timestamp := isoformat now |}).
  exists o. do 5 (split; [reflexivity|]).
  pose proof (orders_below_next db) as Hlt.
  assert (Hsel : forall p : @order A -> bool,
            Forall (fun r => order_id r < order_id o) (filter p (orders db))).
  { intros p. apply Forall_forall. intros r Hr. apply filter_In in Hr as [Hr _].
    rewrite Forall_forall in Hlt. now apply Hlt. }
  assert (Huser : list_orders_for_user user
            {| orders := (orders db ++ [o])%list;
               orders_seq := next_order_id db; offers := offers db |} =
          o :: list_orders_for_user user db).
  { unfold list_orders_for_user. cbn [orders]. rewrite filter_app.
    cbn [filter]. replace (String.eqb (user_id o) user) with true
      by (symmetry; apply String.eqb_refl).
    apply latest_first_snoc. apply Hsel. }
  split; [|split; [|split; [exact Huser|split]]].
  - unfold list_orders. cbn [orders]. now apply latest_first_snoc.
  - unfold list_orders. cbn [orders String.eqb Ascii.eqb Bool.eqb].
    rewrite filter_app. cbn [filter].
    replace (String.eqb (status o) "PLACED") with true by reflexivity.
    apply latest_first_snoc. apply Hsel.
  - unfold _load_orders.
    rewrite !current_first_split by apply latest_first_sorted.
    rewrite Huser. cbn [filter].
    replace (String.eqb (status o) "PLACED") with true by reflexivity.
    reflexivity.
  - intros other Hne. apply String.eqb_neq in Hne.
    unfold list_orders_for_user. cbn [orders]. rewrite filter_app. cbn [filter].
    replace (String.eqb (user_id o) other) with false
      by (symmetry; rewrite String.eqb_sym; exact Hne).
    now rewrite app_nil_r.
Qed.

Lemma Order_create_listed_first_witness :
  Order_create sum_left_to_right clock_0930 [1000; 4321] "S002" three_teas ledger_1000
    = Returned (2, ledger_1000_4321) /\
  exists o : @order binary64,
    order_id o = 2 /\ status o = "PLACED" /\
    list_orders None ledger_1000_4321 = o :: list_orders None ledger_1000 /\
    _load_orders "S002" ledger_1000_4321 = o :: _load_orders "S002" ledger_1000.
Proof.
  split; [reflexivity|].
  destruct (Order_create_listed_first sum_left_to_right clock_0930 [1000; 4321]
              "S002" three_teas ledger_1000 ledger_1000_4321 2 eq_refl)
    as (o & Hid & _ & _ & Hst & _ & Hall & _ & _ & Hload & _).
  exists o. repeat split; assumption.
Defined.

Section StatusChange.

Context {A : Arith}.
Implicit Types (db : @database A) (o : @order A).

Lemma set_status_order_id (id : Z) (s : string) o :
  order_id (set_status id s o) = order_id o.
Proof. unfold set_status. now destruct (order_id o =? id)%Z. Qed.

Lemma set_status_at (id : Z) (s : string) o :
  order_id o = id -> status (set_status id s o) = s.
Proof. unfold set_status. intros ->. now rewrite Z.eqb_refl. Qed.

Lemma set_status_other (id : Z) (s : string) o :
  order_id o <> id -> set_status id s o = o.
Proof. unfold set_status. intros H. apply Z.eqb_neq in H. now rewrite H. Qed.

(** The orders listed under a status [s'], as a set. *)
Lemma In_list_orders (s' : string) db o :
  s' <> "" ->
  In o (list_orders (Some s') db) <-> In o (orders db) /\ status o = s'.
Proof.
  intros Hs. apply String.eqb_neq in Hs. unfold list_orders. rewrite Hs.
  split.
  - intros H. apply (Permutation_in _ (latest_first_perm _)) in H.
    apply filter_In in H as [H1 H2]. now apply String.eqb_eq in H2.
  - intros [H1 H2]. apply (Permutation_in _ (Permutation_sym (latest_first_perm _))).
    apply filter_In. split; [exact H1 | now apply String.eqb_eq].
Qed.

End StatusChange.

(** X4.  After [update_order_status(id, s)] with [s] not empty, an
    order [id] of the ledger is in [list_orders(s)] and in the listing
    of no other status. *)
Theorem status_change_relisted {A : Arith} (id : Z) (s : string) (db : @database A) :
  s <> "" ->
  In id (map order_id (orders db)) ->
  In id (map order_id (list_orders (Some s) (update_order_status id s db))) /\
  forall s' : string,
    s' <> "" -> s' <> s ->
    ~ In id (map order_id (list_orders (Some s') (update_order_status id s db))).
Proof.
  intros Hs Hin. apply in_map_iff in Hin as (o & Hid & Hin). split.
  - apply in_map_iff. exists (set_status id s o).
    split; [now rewrite set_status_order_id|].
    apply In_list_orders; [exact Hs|]. split; [|now apply set_status_at].
    cbn. now apply in_map.
  - intros s' Hs' Hne Hin'. apply in_map_iff in Hin' as (r & Hr & Hin').
    apply In_list_orders in Hin' as [Hin' Hst]; [|exact Hs'].
    cbn in Hin'. apply in_map_iff in Hin' as (o' & <- & _).
    rewrite set_status_order_id in Hr.
    rewrite (set_status_at _ _ _ Hr) in Hst. congruence.
Qed.

Lemma status_change_relisted_witness :
  In 1 (map order_id (list_orders (Some "READY")
                        (update_order_status 1 "READY" ledger_1000_4321))) /\
  ~ In 1 (map order_id (list_orders (Some "PLACED")
                          (update_order_status 1 "READY" ledger_1000_4321))).
Proof.
  destruct (status_change_relisted 1 "READY" ledger_1000_4321) as [H1 H2].
  - discriminate.
  - left. reflexivity.
  - split; [exact H1|]. apply H2; discriminate.
Defined.

Lemma sqlite_integer_range (n : Z) :
  sqlite_integer n = true <-> - 2 ^ 63 <= n <= 2 ^ 63 - 1.
Proof. unfold sqlite_integer. lia. Qed.

Lemma set_status_unknown {A : Arith} (id : Z) (s : string) (db : @database A) :
  ~ In id (map order_id (orders db)) -> update_order_status id s db = db.
Proof.
  intros H. destruct db as [os sq ofs]. unfold update_order_status. cbn in *.
  f_equal. rewrite <- (map_id os) at 2. apply map_ext_in.
  intros o Ho. apply set_status_other. intros E. apply H.
  apply in_map_iff. now exists o.
Qed.

(** X5.  [update_order_status] with an identifier no order has: when
    the identifier is in the range of a 64-bit INTEGER, it raises
    nothing and leaves the tables as they are; outside that range it
    raises OverflowError, when the parameter is bound. *)
Theorem update_order_status_unknown_id {A : Arith} (id : Z) (s : string)
    (db : @database A) :
  ~ In id (map order_id (orders db)) ->
  (- 2 ^ 63 <= id <= 2 ^ 63 - 1 ->
   Bound.update_order_status id s db = Returned db) /\
  (id < - 2 ^ 63 \/ 2 ^ 63 - 1 < id ->
   Bound.update_order_status id s db = Raised OverflowError).
Proof.
  intros H. unfold Bound.update_order_status. split; intros Hr.
  - apply sqlite_integer_range in Hr. rewrite Hr.
    now rewrite set_status_unknown.
  - destruct (sqlite_integer id) eqn:E; [|reflexivity].
    apply sqlite_integer_range in E. lia.
Qed.

Lemma update_order_status_unknown_id_witness :
  Bound.update_order_status 7 "READY" ledger_1000_4321 = Returned ledger_1000_4321 /\
  Bound.update_order_status (2 ^ 63) "READY" ledger_1000_4321 =
    Raised OverflowError.
Proof.
  split.
  - apply (update_order_status_unknown_id 7 "READY" ledger_1000_4321).
    + cbn. intros [H|[H|[]]]; discriminate.
    + lia.
  - apply (update_order_status_unknown_id (2 ^ 63) "READY" ledger_1000_4321).
    + cbn. intros [H|[H|[]]]; discriminate.
    + lia.
Defined.

(** ** Dictionaries *)

Section PyDictFacts.

Context {K V : Type}.
Variable key_eqb : K -> K -> bool.
Hypothesis key_eqb_eq : forall a b, key_eqb a b = true <-> a = b.

Lemma key_eqb_refl (k : K) : key_eqb k k = true.
Proof. now apply key_eqb_eq. Qed.

Lemma key_eqb_trans_l (a b c : K) :
  key_eqb a b = true -> key_eqb a c = key_eqb b c.
Proof. intros H. apply key_eqb_eq in H. now subst. Qed.

Lemma pydict_get_set (d : list (K * V)) (k k' : K) (v default : V) :
  pydict_get key_eqb (pydict_set key_eqb d k v) k' default =
  if key_eqb k k' then v else pydict_get key_eqb d k' default.
Proof.
  induction d as [|[k0 v0] d IH]; cbn; [reflexivity|].
  destruct (key_eqb k0 k) eqn:E; cbn.
  - rewrite (key_eqb_trans_l _ _ k' E).
    destruct (key_eqb k k'); reflexivity.
  - rewrite IH. destruct (key_eqb k0 k') eqn:E'; [|reflexivity].
    destruct (key_eqb k k') eqn:E''; [|reflexivity].
    apply key_eqb_eq in E', E''. subst. rewrite key_eqb_refl in E. discriminate.
Qed.

Lemma pydict_has_In (d : list (K * V)) (k : K) :
  pydict_has key_eqb d k = true <-> In k (map fst d).
Proof.
  unfold pydict_has. rewrite existsb_exists. split.
  - intros ([k0 v0] & Hin & E). apply key_eqb_eq in E. cbn in E. subst.
    apply in_map_iff. now exists (k, v0).
  - intros H. apply in_map_iff in H as ([k0 v0] & E & Hin). cbn in E. subst.
    exists (k, v0). split; [exact Hin | apply key_eqb_refl].
Qed.

Lemma pydict_set_keys (d : list (K * V)) (k : K) (v : V) :
  map fst (pydict_set key_eqb d k v) =
  if pydict_has key_eqb d k then map fst d else (map fst d ++ [k])%list.
Proof.
  unfold pydict_has. induction d as [|[k0 v0] d IH]; cbn; [reflexivity|].
  destruct (key_eqb k0 k) eqn:E; cbn.
  - apply key_eqb_eq in E. now subst.
  - rewrite IH. now destruct (existsb (fun kv => key_eqb (fst kv) k) d).
Qed.

End PyDictFacts.

Lemma int_sum_app (l1 l2 : list Z) : int_sum (l1 ++ l2) = int_sum l1 + int_sum l2.
Proof. unfold int_sum. induction l1 as [|x l1 IH]; cbn; [reflexivity | lia]. Qed.

Lemma pydict_set_int_sum {K : Type} (key_eqb : K -> K -> bool)
    (d : list (K * Z)) (k : K) (v : Z) :
  int_sum (map snd (pydict_set key_eqb d k v)) =
  int_sum (map snd d) - pydict_get key_eqb d k 0 + v.
Proof.
  unfold int_sum. induction d as [|[k0 v0] d IH]; cbn; [lia|].
  destruct (key_eqb k0 k); cbn; [lia | rewrite IH; lia].
Qed.

Lemma fold_left_flat_map {S X Y : Type} (f : S -> Y -> S) (g : X -> list Y)
    (l : list X) (a : S) :
  fold_left (fun acc x => fold_left f (g x) acc) l a = fold_left f (flat_map g l) a.
Proof.
  revert a. induction l as [|x l IH]; cbn; intros a; [reflexivity|].
  now rewrite fold_left_app, IH.
Qed.

(** ** The reports *)

Section Reports.

Context {A : Arith}.
Implicit Types (db : @database A) (it : @cart_item A).

Lemma quantity_sold_snoc (name : string) (lines : list cart_item) it :
  quantity_sold name (lines ++ [it]) =
  quantity_sold name lines + (if String.eqb (item_name it) name then qty it else 0).
Proof.
  unfold quantity_sold. rewrite filter_app, map_app, int_sum_app. cbn.
  destruct (String.eqb (item_name it) name); cbn; lia.
Qed.

Lemma sales_step_inv (counts : list (string * Z)) (lines : list cart_item) it :
  sales_inv counts lines -> sales_inv (sales_step counts it) (lines ++ [it]).
Proof.
  intros (Hget & Hnd & Hkeys & Htot). unfold sales_step.
  pose proof (pydict_has_In String.eqb String.eqb_eq counts (item_name it)) as Hhas.
  repeat split.
  - intros name. rewrite (pydict_get_set String.eqb String.eqb_eq).
    rewrite quantity_sold_snoc, <- !Hget.
    destruct (String.eqb (item_name it) name) eqn:E; [|lia].
    apply String.eqb_eq in E. now subst.
  - rewrite (pydict_set_keys String.eqb String.eqb_eq).
    destruct (pydict_has String.eqb counts (item_name it)); [exact Hnd|].
    apply NoDup_app; [exact Hnd | repeat constructor; intros [] |].
    intros k Hk [<-|[]]. apply Hhas in Hk. discriminate.
  - rewrite (pydict_set_keys String.eqb String.eqb_eq), map_app, in_app_iff.
    destruct (pydict_has String.eqb counts (item_name it)) eqn:E.
    + intros H. left. now apply Hkeys.
    + rewrite in_app_iff. intros [H|H]; [left; now apply Hkeys | right; exact H].
  - rewrite (pydict_set_keys String.eqb String.eqb_eq), map_app, in_app_iff.
    cbn. intros [H|[<-|[]]].
    + destruct (pydict_has String.eqb counts (item_name it));
        [|apply in_app_iff; left]; now apply Hkeys.
    + destruct (pydict_has String.eqb counts (item_name it)) eqn:E.
      * now apply Hhas.
      * apply in_app_iff. right. now left.
  - rewrite pydict_set_int_sum, map_app, int_sum_app, Htot. cbn. lia.
Qed.

Lemma sales_fold_inv (lines : list cart_item) :
  forall (counts : list (string * Z)) (seen : list cart_item),
    sales_inv counts seen ->
    sales_inv (fold_left sales_step lines counts) (seen ++ lines).
Proof.
  induction lines as [|it lines IH]; cbn; intros counts seen H.
  - now rewrite app_nil_r.
  - replace (seen ++ it :: lines)%list with ((seen ++ [it]) ++ lines)%list
      by now rewrite <- app_assoc.
    apply IH. now apply sales_step_inv.
Qed.

Lemma sales_by_item_inv db : sales_inv (sales_by_item db) (sold_lines db).
Proof.
  unfold sales_by_item, sold_lines. rewrite fold_left_flat_map.
  apply (sales_fold_inv _ [] []). repeat split; cbn; auto; constructor.
Qed.

End Reports.

(** X6.  [sales_by_item] has one entry per item name that occurs in an
    order; the count of a name is the sum of the quantities of all
    lines of all orders with that name, and the counts add up to the
    quantities of all lines. *)
Theorem sales_by_item_counts {A : Arith} (db : @database A) :
  (forall name : string,
     pydict_get String.eqb (sales_by_item db) name 0 =
     quantity_sold name (sold_lines db)) /\
  NoDup (map fst (sales_by_item db)) /\
  (forall name : string,
     In name (map fst (sales_by_item db)) <->
     In name (map item_name (sold_lines db))) /\
  int_sum (map snd (sales_by_item db)) = int_sum (map qty (sold_lines db)).
Proof. exact (sales_by_item_inv db). Qed.

Section HourFacts.

Context {A : Arith}.
Variable fromisoformat_hour : string -> option Z.
Implicit Types (db : @database A) (o : @order A).

Lemma hour_step_keys (buckets : list (Z * Z)) o :
  map fst (hour_step fromisoformat_hour buckets o) = map fst buckets.
Proof.
  unfold hour_step. destruct (fromisoformat_hour (timestamp o)) as [h|]; [|reflexivity].
  destruct (pydict_has Z.eqb buckets h) eqn:E; [|reflexivity].
  now rewrite (pydict_set_keys Z.eqb Z.eqb_eq), E.
Qed.

Lemma hour_step_get (buckets : list (Z * Z)) o (h : Z) :
  pydict_has Z.eqb buckets h = true ->
  pydict_get Z.eqb (hour_step fromisoformat_hour buckets o) h 0 =
  pydict_get Z.eqb buckets h 0 +
  match fromisoformat_hour (timestamp o) with
  | Some h' => if (h' =? h)%Z then 1 else 0
  | None => 0
  end.
Proof.
  intros Hh. unfold hour_step.
  destruct (fromisoformat_hour (timestamp o)) as [h'|]; [|lia].
  destruct (pydict_has Z.eqb buckets h') eqn:E.
  - rewrite (pydict_get_set Z.eqb Z.eqb_eq).
    destruct (Z.eqb_spec h' h); [now subst | lia].
  - destruct (Z.eqb_spec h' h); [congruence | lia].
Qed.

Lemma pydict_has_keys (b1 b2 : list (Z * Z)) (h : Z) :
  map fst b1 = map fst b2 -> pydict_has Z.eqb b1 h = pydict_has Z.eqb b2 h.
Proof.
  intros E. apply eq_true_iff_eq.
  now rewrite !(pydict_has_In Z.eqb Z.eqb_eq), E.
Qed.

Lemma pydict_get_absent (buckets : list (Z * Z)) (h : Z) :
  pydict_has Z.eqb buckets h = false -> pydict_get Z.eqb buckets h 0 = 0.
Proof.
  unfold pydict_has. induction buckets as [|[k v] l IH]; cbn; [reflexivity|].
  destruct (k =? h)%Z; [discriminate | exact IH].
Qed.

(** The loop of [orders_per_hour], from any [buckets]. *)
Lemma hours_fold (rows : list order) :
  forall buckets : list (Z * Z),
    map fst (fold_left (hour_step fromisoformat_hour) rows buckets) = map fst buckets /\
    forall h : Z,
      pydict_get Z.eqb (fold_left (hour_step fromisoformat_hour) rows buckets) h 0 =
      if pydict_has Z.eqb buckets h
      then pydict_get Z.eqb buckets h 0 +
           Z.of_nat (List.length
             (filter (fun o => match fromisoformat_hour (timestamp o) with
                               | Some h' => (h' =? h)%Z
                               | None => false
                               end) rows))
      else 0.
Proof.
  induction rows as [|o rows IH]; cbn [fold_left]; intros buckets.
  - split; [reflexivity|]. intros h. cbn.
    destruct (pydict_has Z.eqb buckets h) eqn:E; [lia | now apply pydict_get_absent].
  - destruct (IH (hour_step fromisoformat_hour buckets o)) as [Hk Hg].
    split; [now rewrite Hk, hour_step_keys|].
    intros h. rewrite Hg.
    rewrite (pydict_has_keys _ buckets h (hour_step_keys buckets o)).
    destruct (pydict_has Z.eqb buckets h) eqn:E; [|reflexivity].
    rewrite (hour_step_get _ _ _ E). cbn [filter].
    destruct (fromisoformat_hour (timestamp o)) as [h'|]; [|lia].
    destruct (h' =? h)%Z; cbn [List.length]; lia.
Qed.

Lemma empty_hours_has (h : Z) :
  pydict_has Z.eqb empty_hours h = (0 <=? h)%Z && (h <? 24)%Z.
Proof.
  apply eq_true_iff_eq. rewrite (pydict_has_In Z.eqb Z.eqb_eq).
  unfold empty_hours. rewrite map_map. cbn [fst].
  rewrite in_map_iff, andb_true_iff, Z.leb_le, Z.ltb_lt. split.
  - intros (n & <- & Hn). apply in_seq in Hn. lia.
  - intros Hh. exists (Z.to_nat h). split; [lia | apply in_seq; lia].
Qed.

Lemma empty_hours_get (h : Z) : pydict_get Z.eqb empty_hours h 0 = 0.
Proof.
  assert (H : forall l : list nat,
            pydict_get Z.eqb (map (fun n => (Z.of_nat n, 0)) l) h 0 = 0).
  { induction l as [|n l IH]; cbn; [reflexivity|].
    now destruct (Z.of_nat n =? h)%Z. }
  apply H.
Qed.

End HourFacts.

(** X7.  [orders_per_hour] always has the 24 keys 0..23, in that
    order; the value at an hour is the number of orders whose timestamp
    [fromisoformat] reads with that hour, and an order whose timestamp
    raises is counted nowhere. *)
Theorem orders_per_hour_buckets {A : Arith} (fromisoformat_hour : string -> option Z)
    (db : @database A) :
  map fst (orders_per_hour fromisoformat_hour db) = map Z.of_nat (seq 0 24) /\
  forall h : Z,
    pydict_get Z.eqb (orders_per_hour fromisoformat_hour db) h 0 =
    if (0 <=? h)%Z && (h <? 24)%Z
    then placed_in_hour fromisoformat_hour h db
    else 0.
Proof.
  unfold orders_per_hour.
  destruct (hours_fold fromisoformat_hour (orders db) empty_hours) as [Hk Hg].
  split.
  - rewrite Hk. unfold empty_hours. now rewrite map_map.
  - intros h. rewrite Hg, empty_hours_has, empty_hours_get. reflexivity.
Qed.

Section TopTen.

Context {T : Type}.
Variable R : T -> T -> Prop.

Lemma sorted_app_inv (l1 l2 : list T) :
  StronglySorted R (l1 ++ l2) ->
  StronglySorted R l1 /\ Forall (fun b => Forall (fun a => R a b) l1) l2.
Proof.
  induction l1 as [|x l1 IH]; cbn; intros H.
  - split; [constructor|]. apply Forall_forall. intros b _. constructor.
  - apply StronglySorted_inv in H as [Hs Hx].
    destruct (IH Hs) as [H1 H2]. apply Forall_app in Hx as [Hx1 Hx2]. split.
    + now constructor.
    + rewrite Forall_forall in *. intros b Hb. constructor; [now apply Hx2 | now apply H2].
Qed.

End TopTen.

Lemma combine_fst_snd {X Y : Type} (l : list (X * Y)) :
  combine (map fst l) (map snd l) = l.
Proof. induction l as [|[x y] l IH]; cbn; [reflexivity | now rewrite IH]. Qed.

(** X8.  [most_selling_items_figure] plots at most ten items, by
    decreasing quantity; together with the items it leaves out they are
    the entries of [sales_by_item], and no item left out has sold more
    than an item plotted. *)
Theorem most_selling_items_top_ten {A : Arith} (db : @database A) :
  let labels := fst (most_selling_items db) in
  let values := snd (most_selling_items db) in
  List.length labels = List.length values /\
  (List.length values <= 10)%nat /\
  StronglySorted (fun a b => b <= a) values /\
  exists left_out : list (string * Z),
    Permutation (combine labels values ++ left_out) (sales_by_item db) /\
    Forall (fun out => Forall (fun v => snd out <= v) values) left_out.
Proof.
  unfold most_selling_items, top_selling. cbn [fst snd].
  set (ranked := order_by (larger_first snd) (sales_by_item db)).
  assert (Hs : StronglySorted (fun a b : string * Z => snd b <= snd a)
                 (firstn 10 ranked ++ skipn 10 ranked))
    by (rewrite firstn_skipn; apply largest_first_sorted).
  apply sorted_app_inv in Hs as [Hs Hout].
  split; [now rewrite !length_map|].
  split; [rewrite length_map; apply firstn_le_length|].
  split.
  - clear Hout. induction Hs as [|a l Hl IH Ha]; cbn; constructor; [exact IH|].
    apply Forall_map. exact Ha.
  - exists (skipn 10 ranked). rewrite combine_fst_snd, firstn_skipn.
    split; [apply order_by_perm|].
    eapply Forall_impl; [|exact Hout]. cbn. intros out H.
    apply Forall_map. exact H.
Qed.

(** ** Users *)

Section UserFacts.

Context {A : Arith}.
Implicit Types (db : @canteen_db A).

Lemma find_app_none {T : Type} (p : T -> bool) (l1 l2 : list T) :
  find p l1 = None -> find p (l1 ++ l2) = find p l2.
Proof.
  induction l1 as [|x l1 IH]; cbn; [reflexivity|].
  destruct (p x); [discriminate | exact IH].
Qed.

Lemma find_app_some {T : Type} (p : T -> bool) (l1 l2 : list T) (x : T) :
  find p l1 = Some x -> find p (l1 ++ l2) = Some x.
Proof.
  induction l1 as [|y l1 IH]; cbn; [discriminate|].
  destruct (p y); [trivial | exact IH].
Qed.

Lemma find_none_existsb {T : Type} (p : T -> bool) (l : list T) :
  find p l = None <-> existsb p l = false.
Proof.
  induction l as [|x l IH]; cbn; [tauto|].
  destruct (p x); cbn; [split; discriminate | exact IH].
Qed.

Lemma get_user_None uid db :
  get_user uid db = None <->
  existsb (fun u => String.eqb (User.user_id u) uid) (users db) = false.
Proof. apply find_none_existsb. Qed.

Lemma by_name_and_id_after_create uid name role db :
  get_user uid db = None ->
  find (fun u => String.eqb (User.user_id u) uid && String.eqb (User.name u) name)
       (users db ++ [{| User.user_id := uid; User.name := name; User.role := role |}]) =
  Some {| User.user_id := uid; User.name := name; User.role := role |}.
Proof.
  intros Hnone. rewrite find_app_none.
  - cbn. now rewrite !String.eqb_refl.
  - apply find_none_existsb. apply not_true_is_false. intros H.
    apply existsb_exists in H as (u & Hin & Hu).
    apply andb_true_iff in Hu as [Hu _].
    apply get_user_None in Hnone.
    assert (existsb (fun u => String.eqb (User.user_id u) uid) (users db) = true)
      by (apply existsb_exists; now exists u).
    congruence.
Qed.

Lemma create_user_returns uid name role db :
  get_user uid db = None ->
  exists db',
    create_user uid name role db = Returned db' /\
    get_user_by_name_and_id name uid db' =
    Some {| User.user_id := uid; User.name := name; User.role := role |}.
Proof.
  intros G. unfold create_user. rewrite (proj1 (get_user_None uid db) G).
  eexists. split; [reflexivity|].
  unfold get_user_by_name_and_id. cbn. now apply by_name_and_id_after_create.
Qed.

End UserFacts.

(** X9.  [create_user] adds the user when no user has the identifier,
    and [get_user] and [get_user_by_name_and_id] then return exactly
    what was given, while every other identifier reads as before; it
    raises IntegrityError, and changes nothing, when a user has the
    identifier already. *)
Theorem create_user_then_get_user {A : Arith} (uid name role : string)
    (db : @canteen_db A) :
  let user := {| User.user_id := uid; User.name := name; User.role := role |} in
  match create_user uid name role db with
  | Returned db' =>
      get_user uid db = None /\
      get_user uid db' = Some user /\
      get_user_by_name_and_id name uid db' = Some user /\
      (forall other : string, other <> uid -> get_user other db' = get_user other db) /\
      (NoDup (map User.user_id (users db)) -> NoDup (map User.user_id (users db'))) /\
      ledger db' = ledger db /\ menu db' = menu db
  | Raised e => e = IntegrityError /\ get_user uid db <> None
  | Retrying => False
  end.
Proof.
  intros user. unfold create_user.
  destruct (existsb (fun u => String.eqb (User.user_id u) uid) (users db)) eqn:E.
  - split; [reflexivity|]. intros H. apply get_user_None in H. congruence.
  - pose proof (proj2 (get_user_None uid db) E) as Hnone.
    split; [exact Hnone|]. unfold get_user, get_user_by_name_and_id in *. cbn.
    split; [rewrite (find_app_none _ _ _ Hnone); cbn; now rewrite String.eqb_refl|].
    split; [now apply by_name_and_id_after_create|].
    split.
    { intros other Hne.
      destruct (find (fun u => String.eqb (User.user_id u) other) (users db)) as [u|] eqn:F.
      - now apply find_app_some.
      - rewrite (find_app_none _ _ _ F). cbn.
        apply String.eqb_neq in Hne. rewrite String.eqb_sym in Hne. now rewrite Hne. }
    split; [|split; reflexivity].
    intros Hnd. rewrite map_app. apply NoDup_app; [exact Hnd | repeat constructor; intros [] |].
    cbn. intros k Hk [<-|[]]. apply in_map_iff in Hk as (u & Hu & Hin).
    assert (existsb (fun u => String.eqb (User.user_id u) uid) (users db) = true)
      by (apply existsb_exists; exists u; split; [exact Hin | now apply String.eqb_eq]).
    congruence.
Qed.

(** X10.  [_register] with a name and an identifier never raises: it
    reports ["Exists"] and changes nothing when a user has the
    identifier, and otherwise registers the user, who can then log in
    with the same name, identifier and role. *)
Theorem register_then_login {A : Arith} (lower : string -> string)
    (name uid role : string) (db : @canteen_db A) :
  name <> "" -> uid <> "" ->
  (get_user uid db <> None /\
   _register name uid role db = Returned ("Exists", db)) \/
  (get_user uid db = None /\
   exists db' : @canteen_db A,
     _register name uid role db = Returned ("Registered", db') /\
     _login lower name uid role db' =
       inr {| User.user_id := uid; User.name := name; User.role := role |}).
Proof.
  intros Hn Hu. apply String.eqb_neq in Hn, Hu.
  unfold _register, _login. rewrite Hn, Hu. cbn [orb].
  destruct (get_user uid db) as [u|] eqn:G.
  - left. split; [discriminate | reflexivity].
  - right. split; [reflexivity|].
    pose proof (create_user_returns uid name role db G) as (db' & Hc & Hl).
    exists db'. rewrite Hc. split; [reflexivity|].
    rewrite Hl. cbn. now rewrite String.eqb_refl.
Qed.

Lemma create_user_then_get_user_witness :
  get_user "S002" sample_canteen = None /\
  exists db' : @canteen_db binary64,
    create_user "S002" "Binu" "Student" sample_canteen = Returned db' /\
    get_user "S002" db' =
      Some {| User.user_id := "S002"; User.name := "Binu"; User.role := "Student" |} /\
    get_user "S001" db' = get_user "S001" sample_canteen.
Proof.
  pose proof (create_user_then_get_user "S002" "Binu" "Student" sample_canteen) as H.
  cbv zeta in H.
  destruct (create_user "S002" "Binu" "Student" sample_canteen) as [db'| |] eqn:E;
    [|discriminate E|discriminate E].
  destruct H as (H0 & H1 & _ & H2 & _).
  split; [exact H0|]. exists db'. split; [reflexivity|]. split; [exact H1|].
  apply H2. discriminate.
Defined.

Lemma register_then_login_witness :
  exists db' : @canteen_db binary64,
    _register "Binu" "S002" "Student" sample_canteen = Returned ("Registered", db') /\
    _login lower "Binu" "S002" "Student" db' =
      inr {| User.user_id := "S002"; User.name := "Binu"; User.role := "Student" |}.
Proof.
  destruct (register_then_login lower "Binu" "S002" "Student" sample_canteen)
    as [[H _]|[_ H]]; [discriminate | discriminate | | exact H].
  exfalso. apply H. reflexivity.
Defined.

(** ** The menu *)

Section MenuFacts.

Context {A : Arith}.
Implicit Types (db : @canteen_db A) (m : @Menu.row A).

Lemma max_of_ids (ids : list Z) (i : Z) :
  In i ids -> i <= fold_right Z.max 0 ids.
Proof.
  induction ids as [|j ids IH]; cbn; [contradiction|].
  intros [->|H]; [lia | specialize (IH H); lia].
Qed.

Lemma next_rowid_above (sequence : Z) (ids : list Z) :
  sequence < next_rowid sequence ids /\
  Forall (fun i => i < next_rowid sequence ids) ids.
Proof.
  unfold next_rowid. split; [lia|].
  apply Forall_forall. intros i Hi. pose proof (max_of_ids ids i Hi). lia.
Qed.

Lemma name_taken_In (rows : list Menu.row) (name : string) :
  name_taken rows name = true <-> In name (map Menu.item_name rows).
Proof.
  unfold name_taken. rewrite existsb_exists, in_map_iff. split.
  - intros (m & Hin & E). apply String.eqb_eq in E. now exists m.
  - intros (m & E & Hin). exists m. split; [exact Hin | now apply String.eqb_eq].
Qed.

(** A new row under a fresh identifier and a name not taken. *)
Lemma menu_ok_insert db (id : Z) m :
  menu_ok db ->
  Menu.item_id m = id ->
  id = next_rowid (menu_seq db) (map Menu.item_id (menu db)) ->
  name_taken (menu db) (Menu.item_name m) = false ->
  menu_ok (with_menu (menu db ++ [m]) id db).
Proof.
  intros (Hid & Hname & Hseq) Hm Hnext Hfree.
  destruct (next_rowid_above (menu_seq db) (map Menu.item_id (menu db))) as [H1 H2].
  rewrite <- Hnext in H1, H2.
  unfold menu_ok. cbn. rewrite !map_app. cbn. repeat split.
  - apply NoDup_app; [exact Hid | repeat constructor; intros [] |].
    intros k Hk [<-|[]]. rewrite Forall_forall in H2. specialize (H2 _ Hk). lia.
  - apply NoDup_app; [exact Hname | repeat constructor; intros [] |].
    intros k Hk [<-|[]]. apply name_taken_In in Hk. congruence.
  - apply Forall_app. split.
    + eapply Forall_impl; [|exact Hseq]. cbn. intros r Hr. lia.
    + repeat constructor. lia.
Qed.

Lemma menu_ok_sequence db (id : Z) :
  menu_ok db -> menu_seq db <= id -> menu_ok (with_menu (menu db) id db).
Proof.
  intros (Hid & Hname & Hseq) Hle. unfold menu_ok. cbn. repeat split; try assumption.
  eapply Forall_impl; [|exact Hseq]. cbn. intros r Hr. lia.
Qed.

Lemma menu_ok_delete (id : Z) db : menu_ok db -> menu_ok (delete_menu_item id db).
Proof.
  intros (Hid & Hname & Hseq). unfold menu_ok, delete_menu_item. cbn.
  set (keep := fun m : Menu.row => negb (Menu.item_id m =? id)%Z).
  assert (Hsub : forall (T : Type) (f : Menu.row -> T) (l : list Menu.row),
            NoDup (map f l) -> NoDup (map f (filter keep l))).
  { intros T f l. induction l as [|m l IH]; cbn; intros H; [constructor|].
    apply NoDup_cons_iff in H as [Hm Hl].
    destruct (keep m); cbn; [|now apply IH].
    constructor; [|now apply IH].
    intros Hin. apply Hm. apply in_map_iff in Hin as (r & Hr & Hin).
    apply filter_In in Hin as [Hin _]. apply in_map_iff. now exists r. }
  repeat split; [now apply Hsub | now apply Hsub |].
  apply Forall_forall. intros m Hm. apply filter_In in Hm as [Hm _].
  rewrite Forall_forall in Hseq. now apply Hseq.
Qed.

(** The rows after an UPDATE of the row [id]. *)
Lemma replace_absent (id : Z) (new : Menu.row) (rows : list Menu.row) :
  ~ In id (map Menu.item_id rows) ->
  map (fun m => if (Menu.item_id m =? id)%Z then new else m) rows = rows.
Proof.
  intros H. rewrite <- (map_id rows) at 2. apply map_ext_in. intros m Hm.
  destruct (Z.eqb_spec (Menu.item_id m) id) as [E|]; [|reflexivity].
  exfalso. apply H. apply in_map_iff. now exists m.
Qed.

Lemma menu_ok_update (id : Z) (name : string) (price : num) (is_available : bool) db :
  menu_ok db ->
  existsb (fun m => negb (Menu.item_id m =? id)%Z &&
                    String.eqb (Menu.item_name m) name) (menu db) = false ->
  menu_ok (with_menu
             (map (fun m => if (Menu.item_id m =? id)%Z
                            then menu_row id name price is_available else m)
                  (menu db))
             (menu_seq db) db).
Proof.
  intros (Hid & Hname & Hseq) Hfree. unfold menu_ok. cbn.
  assert (Hother : forall m, In m (menu db) -> Menu.item_id m <> id ->
                             Menu.item_name m <> name).
  { intros m Hm Hne E.
    assert (existsb (fun m => negb (Menu.item_id m =? id)%Z &&
                              String.eqb (Menu.item_name m) name) (menu db) = true).
    { apply existsb_exists. exists m. split; [exact Hm|].
      apply andb_true_iff. split; [|now apply String.eqb_eq].
      apply negb_true_iff. now apply Z.eqb_neq. }
    congruence. }
  clear Hfree. revert Hid Hname Hseq Hother.
  generalize (menu db) as rows. generalize (menu_seq db) as sq.
  induction rows as [|m rows IH]; cbn; intros Hid Hname Hseq Hother.
  - repeat split; constructor.
  - apply NoDup_cons_iff in Hid as [Hi Hid], Hname as [Hn Hname].
    apply Forall_cons_iff in Hseq as [Hs Hseq].
    destruct (Z.eqb_spec (Menu.item_id m) id) as [E|E].
    + rewrite replace_absent by now rewrite <- E.
      cbn. repeat split.
      * constructor; [now rewrite <- E | exact Hid].
      * constructor; [|exact Hname]. intros Hin.
        apply in_map_iff in Hin as (r & Hr & Hin).
        apply (Hother r); [now right | | exact Hr].
        intros Er. apply Hi. apply in_map_iff. exists r. split; [congruence | exact Hin].
      * constructor; [unfold menu_row; cbn; lia | exact Hseq].
    + destruct (IH Hid Hname Hseq) as (I1 & I2 & I3);
        [intros r Hr; apply Hother; now right|].
      repeat split.
      * constructor; [|exact I1]. intros Hin. apply Hi.
        apply in_map_iff in Hin as (r & Hr & Hin).
        apply in_map_iff in Hin as (r0 & <- & Hin).
        destruct (Z.eqb_spec (Menu.item_id r0) id); cbn in Hr; [congruence|].
        apply in_map_iff. now exists r0.
      * constructor; [|exact I2]. intros Hin.
        apply in_map_iff in Hin as (r & Hr & Hin).
        apply in_map_iff in Hin as (r0 & <- & Hin).
        destruct (Z.eqb_spec (Menu.item_id r0) id); cbn in Hr.
        -- apply (Hother m); [now left | exact E | now symmetry].
        -- apply Hn. apply in_map_iff. now exists r0.
      * constructor; [exact Hs | exact I3].
Qed.

Lemma insert_or_ignore_ok (item : string * num * Z) db db' :
  menu_ok db -> insert_or_ignore item db = Returned db' -> menu_ok db'.
Proof.
  destruct item as [[name price] avail]. unfold insert_or_ignore. intros Hok.
  destruct (max_rowid <? _)%Z; [discriminate|].
  destruct (is_nan price || name_taken (menu db) name) eqn:E; intros [= <-].
  - apply menu_ok_sequence; [exact Hok|]. unfold next_rowid. lia.
  - apply orb_false_iff in E as [_ E]. now apply menu_ok_insert.
Qed.

Lemma executemany_ok (items : list (string * num * Z)) :
  forall db db',
    menu_ok db -> executemany insert_or_ignore items db = Returned db' -> menu_ok db'.
Proof.
  induction items as [|item items IH]; cbn; intros db db' Hok.
  - now intros [= <-].
  - destruct (insert_or_ignore item db) as [db1| |] eqn:E; try discriminate.
    apply IH. now apply (insert_or_ignore_ok item db).
Qed.

End MenuFacts.

(** X11.  The keys of the menu stay unique: when no two rows share an
    [item_id] or an [item_name] and no identifier is above the sequence
    entry, the same holds after [add_menu_item], [update_menu_item],
    [delete_menu_item] and the INSERT OR IGNORE statements of
    [_seed_menu], whenever these return. *)
Theorem menu_keys_stay_unique {A : Arith} (db : @canteen_db A) :
  menu_ok db ->
  (forall (name : string) (price : num) (is_available : bool) (db' : @canteen_db A),
     add_menu_item name price is_available db = Returned db' -> menu_ok db') /\
  (forall (id : Z) (name : string) (price : num) (is_available : bool)
          (db' : @canteen_db A),
     update_menu_item id name price is_available db = Returned db' -> menu_ok db') /\
  (forall id : Z, menu_ok (delete_menu_item id db)) /\
  (forall (items : list (string * num * Z)) (db' : @canteen_db A),
     executemany insert_or_ignore items db = Returned db' -> menu_ok db').
Proof.
  intros Hok. split; [|split; [|split]].
  - intros name price is_available db'. unfold add_menu_item.
    destruct (max_rowid <? _)%Z; [discriminate|].
    destruct (is_nan price || name_taken (menu db) name) eqn:E; [discriminate|].
    intros [= <-]. apply orb_false_iff in E as [_ E].
    now apply menu_ok_insert.
  - intros id name price is_available db'. unfold update_menu_item.
    destruct (existsb (fun m => (Menu.item_id m =? id)%Z) (menu db)) eqn:Ex; cbn [andb].
    + destruct (is_nan price); cbn [orb]; [discriminate|].
      match goal with |- context [if ?b then _ else _] => destruct b eqn:E end;
        [discriminate|].
      intros [= <-]. now apply menu_ok_update.
    + intros [= <-]. rewrite replace_absent.
      * destruct db; exact Hok.
      * intros Hin. apply in_map_iff in Hin as (m & Hm & Hin).
        assert (existsb (fun m => (Menu.item_id m =? id)%Z) (menu db) = true)
          by (apply existsb_exists; exists m; split; [exact Hin | now apply Z.eqb_eq]).
        congruence.
  - intros id. now apply menu_ok_delete.
  - intros items db'. now apply executemany_ok.
Qed.

Ltac distinct_values :=
  repeat (apply NoDup_cons;
          [cbn; intros H; repeat destruct H as [H|H]; try discriminate H; exact H|]);
  apply NoDup_nil.

Lemma sample_canteen_menu_ok : menu_ok sample_canteen.
Proof.
  split; [distinct_values | split; [distinct_values|]].
  repeat constructor; cbn; lia.
Qed.

Lemma menu_keys_stay_unique_witness :
  menu_ok sample_canteen /\ menu_ok (delete_menu_item 6 sample_canteen).
Proof.
  split; [exact sample_canteen_menu_ok|].
  exact (proj1 (proj2 (proj2 (menu_keys_stay_unique sample_canteen
                                 sample_canteen_menu_ok))) 6).
Defined.

Section MenuListing.

Context {A : Arith}.
Implicit Types (db : @canteen_db A) (m : @Menu.row A).

Lemma list_menu_perm db (rows : list Menu.row) (sequence : Z) (extra : list Menu.row) :
  menu db = rows ->
  Permutation
    (list_menu (with_menu (rows ++ extra) sequence db))
    (map (fun m => {| MenuItem.item_id := Menu.item_id m;
                      MenuItem.item_name := Menu.item_name m;
                      MenuItem.price := Menu.price m;
                      MenuItem.available := negb (Menu.available m =? 0)%Z |}) extra
     ++ list_menu db).
Proof.
  intros <-. unfold list_menu. cbn [menu with_menu].
  rewrite <- map_app. apply Permutation_map.
  rewrite !order_by_perm. apply Permutation_app_comm.
Qed.

Lemma list_menu_nil db : list_menu db = [] <-> menu db = [].
Proof.
  unfold list_menu. split.
  - intros H. apply map_eq_nil in H.
    apply Permutation_nil. rewrite <- H. apply order_by_perm.
  - now intros ->.
Qed.

Lemma same_key_same_row {T K : Type} (f : T -> K) (l : list T) (x y : T) :
  NoDup (map f l) -> In x l -> In y l -> f x = f y -> x = y.
Proof.
  induction l as [|z l IH]; cbn; [contradiction|].
  intros Hnd. apply NoDup_cons_iff in Hnd as [Hz Hnd].
  intros [->|Hx] [->|Hy] E; auto.
  - exfalso. apply Hz. rewrite E. now apply in_map.
  - exfalso. apply Hz. rewrite <- E. now apply in_map.
Qed.

End MenuListing.

(** X12.  [add_menu_item] returns only when the price is a number and
    no row has the name; the new item is then in [list_menu()], under
    an identifier above every identifier the table has and has had,
    with the price and availability given, beside the items that were
    listed.  A NaN price or a name that is taken raises IntegrityError,
    a table without a rowid left OperationalError. *)
Theorem add_menu_item_then_list_menu {A : Arith} (name : string) (price : num)
    (is_available : bool) (db : @canteen_db A) :
  match add_menu_item name price is_available db with
  | Returned db' =>
      is_nan price = false /\ name_taken (menu db) name = false /\
      exists id : Z,
        menu_seq db < id /\ Forall (fun m => Menu.item_id m < id) (menu db) /\
        Permutation (list_menu db')
          ({| MenuItem.item_id := id; MenuItem.item_name := name;
              MenuItem.price := price; MenuItem.available := is_available |}
           :: list_menu db) /\
        ledger db' = ledger db /\ users db' = users db
  | Raised IntegrityError => is_nan price = true \/ name_taken (menu db) name = true
  | Raised _ => max_rowid < next_rowid (menu_seq db) (map Menu.item_id (menu db))
  | Retrying => False
  end.
Proof.
  unfold add_menu_item.
  destruct (next_rowid_above (menu_seq db) (map Menu.item_id (menu db))) as [H1 H2].
  destruct (max_rowid <? _)%Z eqn:Efull; [now apply Z.ltb_lt in Efull|].
  destruct (is_nan price) eqn:En; cbn [orb]; [now left|].
  destruct (name_taken (menu db) name) eqn:Et; [now right|].
  split; [reflexivity|]. split; [reflexivity|].
  exists (next_rowid (menu_seq db) (map Menu.item_id (menu db))).
  split; [exact H1|]. split; [now apply Forall_map in H2|].
  split; [|split; reflexivity].
  rewrite (list_menu_perm db (menu db) _ _ eq_refl). cbn.
  now destruct is_available.
Qed.

(** X13.  On a menu with unique keys, [update_menu_item] with the
    name the row has (as the price and availability buttons call it)
    and a price that is a number does not raise, and replaces just the
    price and availability of that row; with the name of another row
    it raises IntegrityError. *)
Theorem update_menu_item_own_name {A : Arith} (m : @Menu.row A) (price : num)
    (is_available : bool) (db : @canteen_db A) :
  menu_ok db -> In m (menu db) -> is_nan price = false ->
  update_menu_item (Menu.item_id m) (Menu.item_name m) price is_available db =
    Returned
      (with_menu
         (map (fun r => if (Menu.item_id r =? Menu.item_id m)%Z
                        then menu_row (Menu.item_id m) (Menu.item_name m) price
                                      is_available
                        else r) (menu db))
         (menu_seq db) db) /\
  forall other : @Menu.row A,
    In other (menu db) -> Menu.item_id other <> Menu.item_id m ->
    update_menu_item (Menu.item_id m) (Menu.item_name other) price is_available db =
    Raised IntegrityError.
Proof.
  intros (Hid & Hname & _) Hin Hnan.
  assert (Hex : existsb (fun r => (Menu.item_id r =? Menu.item_id m)%Z) (menu db) = true)
    by (apply existsb_exists; exists m; split; [exact Hin | apply Z.eqb_refl]).
  unfold update_menu_item. rewrite Hex, Hnan. cbn [andb orb]. split.
  - match goal with |- context [if ?b then _ else _] => destruct b eqn:E end;
      [|reflexivity].
    apply existsb_exists in E as (r & Hr & E).
    apply andb_true_iff in E as [E1 E2].
    apply negb_true_iff, Z.eqb_neq in E1. apply String.eqb_eq in E2.
    exfalso. apply E1. f_equal.
    exact (same_key_same_row Menu.item_name (menu db) r m Hname Hr Hin E2).
  - intros other Ho Hne.
    match goal with |- context [if ?b then _ else _] => destruct b eqn:E end;
      [reflexivity|].
    assert (existsb (fun r => negb (Menu.item_id r =? Menu.item_id m)%Z &&
                              String.eqb (Menu.item_name r) (Menu.item_name other))
                    (menu db) = true); [|congruence].
    apply existsb_exists. exists other. split; [exact Ho|].
    apply andb_true_iff. split; [|apply String.eqb_refl].
    now apply negb_true_iff, Z.eqb_neq.
Qed.

Lemma update_menu_item_own_name_witness :
  update_menu_item (A:=binary64) 6 "Tea" 12%float false sample_canteen =
    Returned
      (with_menu
         [ @Menu.Build_row binary64 1 "Masala Dosa" 50%float 1;
           @Menu.Build_row binary64 2 "Idli Sambar" 35%float 1;
           @Menu.Build_row binary64 3 "Veg Sandwich" 45%float 1;
           @Menu.Build_row binary64 4 "Pav Bhaji" 70%float 1;
           @Menu.Build_row binary64 5 "Chole Bhature" 80%float 1;
           @Menu.Build_row binary64 6 "Tea" 12%float 0;
           @Menu.Build_row binary64 7 "Coffee" 15%float 1 ] 7 sample_canteen) /\
  update_menu_item (A:=binary64) 6 "Coffee" 12%float false sample_canteen = Raised IntegrityError.
Proof.
  destruct (update_menu_item_own_name (A:=binary64)
              (@Menu.Build_row binary64 6 "Tea" 10%float 1) 12%float false sample_canteen sample_canteen_menu_ok) as [H1 H2].
  - cbn. tauto.
  - reflexivity.
  - split; [exact H1|].
    apply (H2 (@Menu.Build_row binary64 7 "Coffee" 15%float 1)); [cbn; tauto|].
    cbn. discriminate.
Defined.

Section Seeding.

Implicit Types (db : @canteen_db binary64).

(** The INSERT OR IGNORE statements touch the menu only, and take no
    row out of it. *)
Lemma seed_statements (items : list (string * float * Z)) :
  forall db db',
    executemany (insert_or_ignore (A:=binary64)) items db = Returned db' ->
    ledger db' = ledger db /\ users db' = users db /\
    offers_seq db' = offers_seq db /\
    exists extra, menu db' = (menu db ++ extra)%list.
Proof.
  induction items as [|[[name price] avail] items IH]; cbn [executemany];
    intros db db'.
  - intros [= <-]. repeat split. exists []. now rewrite app_nil_r.
  - unfold insert_or_ignore at 1.
    destruct (max_rowid <? _)%Z; [discriminate|].
    match goal with |- context [if ?b then _ else _] => destruct b end;
      intros H; apply IH in H as (H1 & H2 & H3 & extra & H4); cbn in *.
    + repeat split; try assumption. now exists extra.
    + repeat split; try assumption. eexists.
      rewrite H4, <- app_assoc. reflexivity.
Qed.

Lemma seed_first (name : string) (price : float) (avail : Z)
    (rest : list (string * float * Z)) db db' :
  menu db = [] -> @is_nan binary64 price = false ->
  executemany (insert_or_ignore (A:=binary64)) ((name, price, avail) :: rest) db
    = Returned db' ->
  menu db' <> [].
Proof.
  intros Hm Hnan. cbn [executemany].
  destruct (insert_or_ignore (A:=binary64) (name, price, avail) db) as [db1| |] eqn:E;
    try discriminate.
  intros H. apply seed_statements in H as (_ & _ & _ & extra & H).
  unfold insert_or_ignore in E. rewrite Hm, Hnan in E. cbn in E.
  destruct (max_rowid <? _)%Z; [discriminate|].
  injection E as <-. rewrite H. cbn. discriminate.
Qed.

Lemma seed_empty_menu db db' :
  menu db = [] -> _seed_menu db = Returned db' -> menu db' <> [].
Proof.
  intros Hm. unfold _seed_menu, default_items. now apply seed_first.
Qed.

End Seeding.

(** X14.  When [_ensure_db] returns, the menu is not empty and the
    orders, offers and users are as they were; a menu that had a row
    is left as it was, and running [_ensure_db] again changes
    nothing. *)
Theorem ensure_db_menu_never_empty (db db' : @canteen_db binary64) :
  _ensure_db db = Returned db' ->
  menu db' <> [] /\
  _ensure_db db' = Returned db' /\
  ledger db' = ledger db /\ users db' = users db /\
  offers_seq db' = offers_seq db /\
  (menu db <> [] -> db' = db).
Proof.
  unfold _ensure_db. intros H.
  assert (Hne : menu db' <> []).
  { destruct (list_menu db) eqn:E.
    - apply list_menu_nil in E. now apply (seed_empty_menu db).
    - injection H as <-. intros Hm. apply list_menu_nil in Hm. congruence. }
  split; [exact Hne|]. split.
  { destruct (list_menu db') eqn:E; [|reflexivity].
    apply list_menu_nil in E. contradiction. }
  destruct (list_menu db) eqn:E.
  - apply list_menu_nil in E. apply seed_statements in H as (H1 & H2 & H3 & _).
    repeat split; try assumption. intros Hm. contradiction.
  - injection H as <-. repeat split.
Qed.

Lemma ensure_db_menu_never_empty_witness :
  _ensure_db new_file =
    Returned {| ledger := empty_database; offers_seq := 0; menu := seeded_menu;
                menu_seq := 7; users := [] |} /\
  menu (A:=binary64) {| ledger := empty_database; offers_seq := 0; menu := seeded_menu;
                        menu_seq := 7; users := [] |} <> [] /\
  _ensure_db {| ledger := empty_database; offers_seq := 0; menu := seeded_menu;
                menu_seq := 7; users := [] |} =
    Returned {| ledger := empty_database; offers_seq := 0; menu := seeded_menu;
                menu_seq := 7; users := [] |}.
Proof.
  assert (H : _ensure_db new_file =
              Returned {| ledger := empty_database; offers_seq := 0;
                          menu := seeded_menu; menu_seq := 7; users := [] |})
    by reflexivity.
  split; [exact H|].
  destruct (ensure_db_menu_never_empty _ _ H) as (H1 & H2 & _).
  split; assumption.
Defined.

(** ** Offers *)

Section OfferFacts.

Context {A : Arith}.
Implicit Types (db : @canteen_db A) (r : @offer_row A).

Lemma create_offer_returned (name : string) (item : option Z) (kind : string)
    (value : num) (starts ends day : option string) (is_active : bool)
    db (id : Z) db' :
  create_offer name item kind value starts ends day is_active db = Returned (id, db') ->
  id = next_rowid (offers_seq db) (offer_ids db) /\
  is_nan value = false /\
  db' = with_offers
          (offers (ledger db) ++
           [offer_row_of id name item kind value starts ends day is_active])%list
          id db.
Proof.
  unfold create_offer. destruct (max_rowid <? _)%Z; [discriminate|].
  destruct (is_nan value); [discriminate|]. now intros [= <- <-].
Qed.

Lemma delete_offers_seq (ids : list Z) db :
  offers_seq (fold_right delete_offer db ids) = offers_seq db.
Proof. induction ids as [|i ids IH]; cbn; [reflexivity | exact IH]. Qed.

(** The WHERE clause on a row without item, dates or day. *)
Lemma offer_where_unrestricted (item : Z) (current_date current_day : string)
    (o : offer) (a : Z) :
  offer_item_id o = None -> start_date o = None -> end_date o = None ->
  day_of_week o = None ->
  Sql.holds (offer_where item current_date current_day {| columns := o; active := a |})
  = (a =? 1)%Z.
Proof.
  intros H1 H2 H3 H4. unfold offer_where. cbn [columns active].
  rewrite H1, H2, H3, H4. cbn. now destruct (a =? 1)%Z.
Qed.

(** The WHERE clause is false on a row that is not active. *)
Lemma offer_where_inactive (item : Z) (current_date current_day : string) r :
  active r <> 1 ->
  Sql.holds (offer_where item current_date current_day r) = false.
Proof.
  intros H. apply Z.eqb_neq in H. unfold offer_where. rewrite H.
  repeat match goal with
         | |- context [Sql.or_ ?a ?b] => destruct (Sql.or_ a b) as [[]|]
         end; reflexivity.
Qed.

(** The WHERE clause is false on a row for another item. *)
Lemma offer_where_other_item (item i : Z) (current_date current_day : string) r :
  offer_item_id (columns r) = Some i -> i <> item ->
  Sql.holds (offer_where item current_date current_day r) = false.
Proof.
  intros H Hne. apply Z.eqb_neq in Hne. unfold offer_where. rewrite H.
  cbn [Sql.eq_int option_map Sql.is_null Sql.or_]. rewrite Hne.
  destruct (active r =? 1)%Z; cbn [Sql.and_];
  repeat match goal with
         | |- context [Sql.or_ ?a ?b] => destruct (Sql.or_ a b) as [[]|]
         end; reflexivity.
Qed.

End OfferFacts.

(** X15.  [create_offer] returns an identifier above every identifier
    the table holds, and identifiers are not used again: after any
    deletions, also of the offer just created, the next [create_offer]
    returns a larger one. *)
Theorem offer_ids_not_reused {A : Arith}
    (name1 : string) (item1 : option Z) (kind1 : string) (value1 : num)
    (starts1 ends1 day1 : option string) (active1 : bool)
    (name2 : string) (item2 : option Z) (kind2 : string) (value2 : num)
    (starts2 ends2 day2 : option string) (active2 : bool)
    (deleted : list Z) (db db1 db2 : @canteen_db A) (id1 id2 : Z) :
  create_offer name1 item1 kind1 value1 starts1 ends1 day1 active1 db
    = Returned (id1, db1) ->
  create_offer name2 item2 kind2 value2 starts2 ends2 day2 active2
    (fold_right delete_offer db1 deleted) = Returned (id2, db2) ->
  Forall (fun i => i < id1) (offer_ids db) /\ id1 < id2.
Proof.
  intros H1 H2.
  apply create_offer_returned in H1 as (E1 & _ & ->).
  apply create_offer_returned in H2 as (E2 & _ & _).
  rewrite delete_offers_seq in E2. cbn [offers_seq with_offers] in E2.
  split.
  - rewrite E1. apply next_rowid_above.
  - rewrite E2. apply next_rowid_above.
Qed.

Lemma offer_ids_not_reused_witness :
  create_offer (A:=binary64) "Diwali" None "PERCENTAGE" 10%float None None None true
    sample_canteen = Returned (8, canteen_with_diwali) /\
  create_offer (A:=binary64) "Holi" None "FIXED" 5%float None None None true
    (delete_offer 8 canteen_with_diwali) = Returned (9, canteen_with_holi) /\
  8 < 9.
Proof.
  assert (H1 : create_offer (A:=binary64) "Diwali" None "PERCENTAGE" 10%float
                 None None None true sample_canteen
               = Returned (8, canteen_with_diwali)) by reflexivity.
  assert (H2 : create_offer (A:=binary64) "Holi" None "FIXED" 5%float
                 None None None true
                 (fold_right delete_offer canteen_with_diwali [8])
               = Returned (9, canteen_with_holi)) by reflexivity.
  split; [exact H1|]. split; [exact H2|].
  exact (proj2 (offer_ids_not_reused _ _ _ _ _ _ _ _ _ _ _ _ _ _ _ _ [8] _ _ _ _ _
                  H1 H2)).
Defined.

Section Resolving.

Context {A : Arith}.
Implicit Types (db : @canteen_db A) (r : @offer_row A).

Lemma get_active_app (now : datetime) (item : Z) (orders1 : list order) (sq : Z)
    (rows1 rows2 : list offer_row) :
  get_active_offers_for_item now item
    {| orders := orders1; orders_seq := sq; offers := (rows1 ++ rows2)%list |} =
  (get_active_offers_for_item now item
     {| orders := orders1; orders_seq := sq; offers := rows1 |} ++
   get_active_offers_for_item now item
     {| orders := orders1; orders_seq := sq; offers := rows2 |})%list.
Proof.
  unfold get_active_offers_for_item. cbn [offers]. now rewrite filter_app, map_app.
Qed.

Lemma get_active_In (now : datetime) (item : Z) (l : database) (o : offer) :
  In o (get_active_offers_for_item now item l) ->
  exists r, In r (offers l) /\ columns r = o /\
            Sql.holds (offer_where item (date_isoformat now)
                         (upper (strftime_a now)) r) = true.
Proof.
  unfold get_active_offers_for_item. intros H.
  apply in_map_iff in H as (r & E & H). apply filter_In in H as [H1 H2].
  now exists r.
Qed.

(** The rows the resolver selects after the row [id] has been
    switched off, or deleted. *)
Lemma resolve_without (id : Z) (off : offer_row) (now : datetime) (item : Z)
    (rows : list offer_row) :
  active off <> 1 ->
  let holds r := Sql.holds (offer_where item (date_isoformat now)
                              (upper (strftime_a now)) r) in
  map columns
    (filter holds
       (map (fun r => if (offer_id (columns r) =? id)%Z then off else r) rows)) =
  filter (fun o => negb (offer_id o =? id)%Z) (map columns (filter holds rows)) /\
  map columns
    (filter holds (filter (fun r => negb (offer_id (columns r) =? id)%Z) rows)) =
  filter (fun o => negb (offer_id o =? id)%Z) (map columns (filter holds rows)).
Proof.
  intros Hoff holds.
  assert (Hno : holds off = false) by now apply offer_where_inactive.
  induction rows as [|r rows [IH1 IH2]]; cbn; [split; reflexivity|].
  destruct (offer_id (columns r) =? id)%Z eqn:E; cbn.
  - rewrite Hno. destruct (holds r); cbn; [rewrite E; cbn|]; split; assumption.
  - destruct (holds r); cbn; [rewrite E; cbn|]; split; congruence.
Qed.

End Resolving.

(** X16.  An offer created without item, dates and day is returned by
    [get_active_offers_for_item] for every item at every time when it
    was created active, and for none at any time when it was not. *)
Theorem unrestricted_offer_applies {A : Arith} (name kind : string) (value : num)
    (is_active : bool) (db db' : @canteen_db A) (id : Z) :
  create_offer name None kind value None None None is_active db = Returned (id, db') ->
  forall (now : datetime) (item : Z),
    In {| offer_id := id; offer_name := name; offer_item_id := None;
          discount_type := kind; discount_value := value;
          start_date := None; end_date := None; day_of_week := None |}
       (get_active_offers_for_item now item (ledger db'))
    <-> is_active = true.
Proof.
  intros H now item. apply create_offer_returned in H as (Hid & _ & ->).
  cbn [ledger with_offers]. rewrite get_active_app, in_app_iff.
  destruct (next_rowid_above (offers_seq db) (offer_ids db)) as [_ Hlt].
  rewrite <- Hid in Hlt. split.
  - intros [H|H].
    + apply get_active_In in H as (r & Hr & E & _). cbn [offers] in Hr.
      rewrite Forall_forall in Hlt.
      assert (offer_id (columns r) < id)
        by (apply Hlt; unfold offer_ids;
            exact (in_map (fun r => offer_id (columns r)) _ r Hr)).
      rewrite E in H. cbn in H. lia.
    + unfold get_active_offers_for_item in H. cbn [offers filter] in H.
      unfold offer_row_of in H.
      rewrite offer_where_unrestricted in H by reflexivity.
      destruct is_active; [reflexivity | contradiction].
  - intros ->. right. unfold get_active_offers_for_item. cbn [offers filter].
    unfold offer_row_of. rewrite offer_where_unrestricted by reflexivity.
    now left.
Qed.

Lemma unrestricted_offer_applies_witness :
  In (@Build_offer binary64 8 "Diwali" None "PERCENTAGE" 10%float None None None)
     (get_active_offers_for_item clock_0930 6 (ledger canteen_with_diwali)).
Proof.
  apply (unrestricted_offer_applies (A:=binary64) "Diwali" "PERCENTAGE" 10%float true
           sample_canteen canteen_with_diwali 8 eq_refl clock_0930 6).
  reflexivity.
Defined.

(** X17.  Switching an offer off with [update_offer] has the effect
    of [delete_offer] on what [get_active_offers_for_item] returns: for
    every item and time, the offers returned before without the offers
    of that identifier. *)
Theorem deactivated_offer_like_deleted {A : Arith} (id : Z) (name : string)
    (item : option Z) (kind : string) (value : num) (starts ends day : option string)
    (db db' : @canteen_db A) :
  update_offer id name item kind value starts ends day false db = Returned db' ->
  forall (now : datetime) (for_item : Z),
    get_active_offers_for_item now for_item (ledger db') =
      get_active_offers_for_item now for_item (ledger (delete_offer id db)) /\
    get_active_offers_for_item now for_item (ledger db') =
      filter (fun o => negb (offer_id o =? id)%Z)
             (get_active_offers_for_item now for_item (ledger db)).
Proof.
  unfold update_offer.
  match goal with |- context [if ?b then _ else _] => destruct b end;
    [discriminate|].
  intros [= <-] now for_item.
  unfold get_active_offers_for_item, delete_offer. cbn [ledger with_offers offers].
  destruct (resolve_without id
              (offer_row_of id name item kind value starts ends day false)
              now for_item (offers (ledger db))) as [H1 H2]; [cbn; lia|].
  cbv zeta in H1, H2. rewrite H1, H2. split; reflexivity.
Qed.

Lemma deactivated_offer_like_deleted_witness :
  get_active_offers_for_item clock_0930 6
    (ledger (with_offers
               (sample_offers ++
                [offer_row_of (A:=binary64) 8 "Diwali" None "PERCENTAGE" 10%float
                   None None None false])%list 8 sample_canteen)) =
  get_active_offers_for_item clock_0930 6 (ledger (delete_offer 8 canteen_with_diwali)).
Proof.
  exact (proj1 (deactivated_offer_like_deleted (A:=binary64) 8 "Diwali" None
                  "PERCENTAGE" 10%float None None None canteen_with_diwali _ eq_refl
                  clock_0930 6)).
Defined.

Section UnknownIds.

Context {A : Arith}.
Implicit Types (db : @canteen_db A).

Lemma map_replace_absent {T : Type} (key : T -> Z) (id : Z) (new : T) (rows : list T) :
  ~ In id (map key rows) ->
  map (fun r => if (key r =? id)%Z then new else r) rows = rows.
Proof.
  intros H. rewrite <- (map_id rows) at 2. apply map_ext_in. intros r Hr.
  destruct (Z.eqb_spec (key r) id) as [E|]; [|reflexivity].
  exfalso. apply H. apply in_map_iff. now exists r.
Qed.

Lemma filter_absent {T : Type} (key : T -> Z) (id : Z) (rows : list T) :
  ~ In id (map key rows) ->
  filter (fun r => negb (key r =? id)%Z) rows = rows.
Proof.
  intros H. apply forallb_filter_id. apply forallb_forall. intros r Hr.
  apply negb_true_iff, Z.eqb_neq. intros E. apply H. apply in_map_iff. now exists r.
Qed.

Lemma existsb_absent {T : Type} (key : T -> Z) (id : Z) (rows : list T) :
  ~ In id (map key rows) -> existsb (fun r => (key r =? id)%Z) rows = false.
Proof.
  intros H. apply not_true_is_false. intros E.
  apply existsb_exists in E as (r & Hr & E). apply Z.eqb_eq in E.
  apply H. apply in_map_iff. now exists r.
Qed.

Lemma with_offers_same db : with_offers (offers (ledger db)) (offers_seq db) db = db.
Proof. destruct db as [[os sq ofs] osq m msq u]. reflexivity. Qed.

Lemma with_menu_same db : with_menu (menu db) (menu_seq db) db = db.
Proof. now destruct db. Qed.

End UnknownIds.

(** X18.  With an identifier that no row has and that is in the range
    of a 64-bit INTEGER, [update_offer] (its [item_id] in that range
    too), [delete_offer], [update_menu_item] and [delete_menu_item]
    raise nothing, whatever the texts and the value, and leave the
    file as it is.  With an identifier outside that range, or with such
    an [item_id], they raise OverflowError when the parameters are
    bound. *)
Theorem unknown_id_changes_nothing {A : Arith} (id : Z) (name : string)
    (item : option Z) (kind : string) (value : num) (starts ends day : option string)
    (is_active : bool) (db : @canteen_db A) :
  (- 2 ^ 63 <= id <= 2 ^ 63 - 1 ->
   (~ In id (offer_ids db) ->
    ((forall i, item = Some i -> - 2 ^ 63 <= i <= 2 ^ 63 - 1) ->
     Bound.update_offer id name item kind value starts ends day is_active db =
       Returned db) /\
    Bound.delete_offer id db = Returned db) /\
   (~ In id (map Menu.item_id (menu db)) ->
    Bound.update_menu_item id name value is_active db = Returned db /\
    Bound.delete_menu_item id db = Returned db)) /\
  (id < - 2 ^ 63 \/ 2 ^ 63 - 1 < id ->
   Bound.update_offer id name item kind value starts ends day is_active db =
     Raised OverflowError /\
   Bound.delete_offer id db = Raised OverflowError /\
   Bound.update_menu_item id name value is_active db = Raised OverflowError /\
   Bound.delete_menu_item id db = Raised OverflowError) /\
  (forall i, item = Some i -> i < - 2 ^ 63 \/ 2 ^ 63 - 1 < i ->
   Bound.update_offer id name item kind value starts ends day is_active db =
     Raised OverflowError).
Proof.
  unfold Bound.update_offer, Bound.delete_offer, Bound.update_menu_item,
    Bound.delete_menu_item.
  split; [|split].
  - intros Hr. apply sqlite_integer_range in Hr. rewrite Hr. split; intros H.
    + split.
      * intros Hi.
        assert (Ei : match item with Some i => sqlite_integer i | None => true end
                     = true).
        { destruct item as [i|]; [|reflexivity].
          apply sqlite_integer_range. now apply Hi. }
        rewrite Ei. cbn [andb].
        unfold update_offer, offer_ids in *.
        rewrite (existsb_absent (fun r => offer_id (columns r)) id _ H).
        rewrite (map_replace_absent (fun r => offer_id (columns r)) id _ _ H).
        cbn [andb]. now rewrite with_offers_same.
      * unfold delete_offer, offer_ids in *.
        rewrite (filter_absent (fun r => offer_id (columns r)) id _ H).
        now rewrite with_offers_same.
    + unfold update_menu_item, delete_menu_item.
      rewrite (existsb_absent Menu.item_id id _ H).
      rewrite (map_replace_absent Menu.item_id id _ _ H).
      rewrite (filter_absent Menu.item_id id _ H).
      cbn [andb]. now rewrite with_menu_same.
  - intros Hr.
    assert (E : sqlite_integer id = false).
    { destruct (sqlite_integer id) eqn:E; [|reflexivity].
      apply sqlite_integer_range in E. lia. }
    rewrite E. cbn [andb]. repeat split.
  - intros i -> Hi.
    assert (E : sqlite_integer i = false).
    { destruct (sqlite_integer i) eqn:E; [|reflexivity].
      apply sqlite_integer_range in E. lia. }
    rewrite E, andb_false_r. reflexivity.
Qed.

Lemma unknown_id_changes_nothing_witness :
  Bound.update_offer (A:=binary64) 99 "Ghost" None "FIXED" nan None None None true
    sample_canteen = Returned sample_canteen /\
  Bound.delete_menu_item 99 sample_canteen = Returned sample_canteen /\
  Bound.delete_offer (2 ^ 63) sample_canteen = Raised OverflowError /\
  Bound.update_offer (A:=binary64) 7 "Tea Tuesday" (Some (- 2 ^ 63 - 1)) "FIXED"
    2%float None None None true sample_canteen = Raised OverflowError.
Proof.
  destruct (unknown_id_changes_nothing (A:=binary64) 99 "Ghost" None "FIXED" nan
              None None None true sample_canteen) as (H1 & _ & _).
  destruct H1 as [Ho Hm]; [lia|].
  destruct (unknown_id_changes_nothing (A:=binary64) (2 ^ 63) "Ghost" None "FIXED"
              nan None None None true sample_canteen) as (_ & H2 & _).
  destruct (unknown_id_changes_nothing (A:=binary64) 7 "Tea Tuesday"
              (Some (- 2 ^ 63 - 1)) "FIXED" 2%float None None None true
              sample_canteen) as (_ & _ & H3).
  destruct Ho as [Hu _].
  { cbn. intros H. repeat destruct H as [H|H]; try discriminate H; exact H. }
  destruct Hm as [_ Hd].
  { cbn. intros H. repeat destruct H as [H|H]; try discriminate H; exact H. }
  split; [|split; [|split]].
  - apply Hu. intros i Hi. discriminate Hi.
  - exact Hd.
  - apply H2. lia.
  - apply (H3 (- 2 ^ 63 - 1)); [reflexivity | lia].
Defined.

Section Joining.

Context {A : Arith}.
Implicit Types (db : @canteen_db A) (r : @offer_row A).

Lemma filter_by_key (i : Z) (rows : list Menu.row) :
  NoDup (map Menu.item_id rows) ->
  filter (fun m => (i =? Menu.item_id m)%Z) rows =
  match find (fun m => (i =? Menu.item_id m)%Z) rows with
  | Some m => [m]
  | None => []
  end.
Proof.
  induction rows as [|m rows IH]; cbn; intros Hnd; [reflexivity|].
  apply NoDup_cons_iff in Hnd as [Hm Hnd].
  destruct (Z.eqb_spec i (Menu.item_id m)) as [E|E]; [|now apply IH].
  f_equal.
  assert (Hnone : forall l : list Menu.row,
            ~ In i (map Menu.item_id l) ->
            filter (fun m => (i =? Menu.item_id m)%Z) l = []).
  { induction l as [|x l IHl]; cbn; intros Hx; [reflexivity|].
    destruct (Z.eqb_spec i (Menu.item_id x)) as [Ex|Ex];
      [exfalso; apply Hx; now left | apply IHl; intros H; apply Hx; now right]. }
  apply Hnone. now rewrite E.
Qed.

(** With unique menu identifiers the join has one row per offer. *)
Lemma left_join_single (rows : list Menu.row) r :
  NoDup (map Menu.item_id rows) ->
  left_join_menu rows r = [(r, joined_name rows r)].
Proof.
  intros Hnd. unfold left_join_menu, joined_name.
  destruct (offer_item_id (columns r)) as [i|]; cbn [Sql.eq_int option_map].
  - replace (filter (fun m => Sql.holds (Some (i =? Menu.item_id m)%Z)) rows)
      with (filter (fun m => (i =? Menu.item_id m)%Z) rows)
      by (apply filter_ext; intros m; now destruct (i =? Menu.item_id m)%Z).
    rewrite (filter_by_key i rows Hnd).
    now destruct (find (fun m => (i =? Menu.item_id m)%Z) rows).
  - replace (filter (fun m : Menu.row => Sql.holds None) rows) with (@nil (@Menu.row A));
      [reflexivity|].
    symmetry. induction rows as [|m rows IH]; cbn; [reflexivity|].
    apply IH. now apply NoDup_cons_iff in Hnd as [_ Hnd].
Qed.

Lemma flat_map_single {X Y : Type} (f : X -> list Y) (g : X -> Y) (l : list X) :
  (forall x, f x = [g x]) -> flat_map f l = map g l.
Proof.
  intros H. induction l as [|x l IH]; cbn; [reflexivity|]. now rewrite H, IH.
Qed.

Lemma place_map {X Y : Type} (f : X -> Y) (before : X -> X -> bool)
    (before' : Y -> Y -> bool) (x : X) (l : list X) :
  (forall a b, before' (f a) (f b) = before a b) ->
  place before' (f x) (map f l) = map f (place before x l).
Proof.
  intros H. induction l as [|y l IH]; cbn; [reflexivity|].
  rewrite H. destruct (before y x); cbn; [now rewrite IH | reflexivity].
Qed.

Lemma order_by_map {X Y : Type} (f : X -> Y) (before : X -> X -> bool)
    (before' : Y -> Y -> bool) (l : list X) :
  (forall a b, before' (f a) (f b) = before a b) ->
  order_by before' (map f l) = map f (order_by before l).
Proof.
  intros H. unfold order_by. induction l as [|x l IH]; cbn; [reflexivity|].
  rewrite IH. now apply place_map.
Qed.

End Joining.

(** X19.  When no two menu rows share an [item_id], [list_offers]
    has one entry per offer, latest first (by decreasing [offer_id]),
    with the eight columns of the offer, [bool(active)], and as item
    name the name of the menu row of its [item_id], or ["All Items"]
    when the [item_id] is NULL, names no menu row, or the name is
    empty. *)
Theorem list_offers_one_per_offer {A : Arith} (db : @canteen_db A) :
  NoDup (map Menu.item_id (menu db)) ->
  list_offers db =
  map (fun r => {| listed := columns r;
                   listed_item_name := shown_item_name (joined_name (menu db) r);
                   listed_active := negb (active r =? 0)%Z |})
      (order_by (larger_first (fun r => offer_id (columns r))) (offers (ledger db))).
Proof.
  intros Hnd. unfold list_offers.
  rewrite (flat_map_single _ (fun r => (r, joined_name (menu db) r)))
    by (intros r; now apply left_join_single).
  rewrite (order_by_map (fun r => (r, joined_name (menu db) r))
             (larger_first (fun r => offer_id (columns r)))) by reflexivity.
  now rewrite map_map.
Qed.

Lemma list_offers_one_per_offer_witness :
  map (fun l => (offer_id (listed l), listed_item_name l, listed_active l))
      (list_offers sample_canteen) =
  [(7, "Tea", true); (6, "All Items", true); (3, "All Items", false);
   (1, "All Items", true)].
Proof.
  rewrite (list_offers_one_per_offer sample_canteen)
    by exact (proj1 sample_canteen_menu_ok).
  reflexivity.
Defined.

(** X20.  [delete_menu_item] leaves the offers of the item in the
    table: [list_offers] then shows them under ["All Items"], while
    [get_active_offers_for_item] returns them for no other item. *)
Theorem deleted_menu_item_keeps_offers {A : Arith} (i : Z) (r : @offer_row A)
    (db : @canteen_db A) :
  In r (offers (ledger db)) ->
  offer_item_id (columns r) = Some i ->
  In r (offers (ledger (delete_menu_item i db))) /\
  In {| listed := columns r; listed_item_name := "All Items";
        listed_active := negb (active r =? 0)%Z |}
     (list_offers (delete_menu_item i db)) /\
  forall (now : datetime) (item : Z),
    item <> i ->
    ~ In (columns r)
         (get_active_offers_for_item now item (ledger (delete_menu_item i db))).
Proof.
  intros Hin Hi. split; [exact Hin|]. split.
  - unfold list_offers. apply in_map_iff. exists (r, None). split; [reflexivity|].
    apply (Permutation_in _ (Permutation_sym (order_by_perm _ _))).
    apply in_flat_map. exists r. split; [exact Hin|].
    unfold left_join_menu, delete_menu_item. cbn [menu with_menu]. rewrite Hi.
    cbn [Sql.eq_int option_map].
    replace (filter _ (filter _ (menu db))) with (@nil (@Menu.row A)); [now left|].
    symmetry. induction (menu db) as [|m rows IH]; cbn; [reflexivity|].
    destruct (Z.eqb_spec (Menu.item_id m) i) as [E|E]; cbn; [exact IH|].
    destruct (Z.eqb_spec i (Menu.item_id m)) as [E'|E']; cbn; [congruence | exact IH].
  - intros now item Hne H. apply get_active_In in H as (r' & _ & E & Hh).
    rewrite (offer_where_other_item item i) in Hh; [discriminate | | congruence].
    now rewrite E.
Qed.

Lemma deleted_menu_item_keeps_offers_witness :
  In {| listed := tea_tuesday; listed_item_name := "All Items"; listed_active := true |}
     (list_offers (delete_menu_item 6 sample_canteen)) /\
  ~ In tea_tuesday
       (get_active_offers_for_item clock_0930 7
          (ledger (delete_menu_item 6 sample_canteen))).
Proof.
  destruct (deleted_menu_item_keeps_offers 6 {| columns := tea_tuesday; active := 1 |}
              sample_canteen) as (_ & H1 & H2).
  - cbn. tauto.
  - reflexivity.
  - split; [exact H1 | apply H2; discriminate].
Defined.

(** ** Prices after the discount *)

Lemma SF_positive_tie (x y : spec_float) :
  SFltb (S754_zero false) x = true -> SFltb (S754_zero false) y = true ->
  SFltb y x = false -> SFltb x y = false -> x = y.
Proof.
  unfold SFltb.
  destruct x as [[]|[]| |[] mx ex], y as [[]|[]| |[] my ey];
    simpl; try discriminate; try reflexivity.
  destruct (Z.compare_spec ey ex) as [E|E|E], (Z.compare_spec ex ey) as [E'|E'|E'];
    try lia; try discriminate.
  subst. change (Pos.compare_cont Eq my mx) with (Pos.compare my mx).
  change (Pos.compare_cont Eq mx my) with (Pos.compare mx my).
  destruct (Pos.compare_spec my mx), (Pos.compare_spec mx my);
    try lia; try discriminate.
  now subst.
Qed.

#[export] Instance binary64_positive : PositiveOrder binary64.
Proof.
  split; [|reflexivity].
  cbn. intros x y Hx Hy Hxy Hyx. rewrite FloatAxioms.ltb_spec in Hx, Hy, Hxy, Hyx.
  apply Prim2SF_inj.
  exact (SF_positive_tie _ _ Hx Hy Hxy Hyx).
Qed.

#[export] Instance exact_positive : PositiveOrder exact.
Proof.
  split; [|reflexivity].
  cbn. unfold Exact.gtb. intros x y _ _ Hxy Hyx.
  destruct (y ?= x)%Qc eqn:E; try discriminate.
  - symmetry. now apply Qc_eq_of_compare.
  - destruct (x ?= y)%Qc eqn:E'; try discriminate.
    + now apply Qc_eq_of_compare.
    + apply Qc_gt_of_compare in E, E'.
      exfalso. exact (Qc_lt_irrefl x (Qclt_trans _ _ _ E E')).
Qed.

Section FinalPrice.

Context {A : Arith} `{!OrderLaws A} `{!PositiveOrder A}.
Local Open Scope num_scope.

(** The best discount of the loop does not depend on the order of the
    offers. *)
Lemma best_discount_permutation (original_price : num) (offers offers' : list offer) :
  Permutation offers offers' ->
  match best_loop original_price offers, best_loop original_price offers' with
  | (Some _, bd), (Some _, bd') => bd = bd'
  | (None, _), (None, _) => True
  | _, _ => False
  end.
Proof.
  intros P.
  pose proof (best_loop_inv original_price offers) as I.
  pose proof (best_loop_inv original_price offers') as I'.
  destruct (best_loop original_price offers) as [[b|] bd],
           (best_loop original_price offers') as [[b'|] bd']; cbn in I, I'.
  - destruct I as (-> & Hpos & before & after & Hs & _ & Hall).
    destruct I' as (-> & Hpos' & before' & after' & Hs' & _ & Hall').
    rewrite Forall_forall in Hall, Hall'.
    assert (Hb : In b offers) by (rewrite Hs; apply in_or_app; right; now left).
    assert (Hb' : In b' offers') by (rewrite Hs'; apply in_or_app; right; now left).
    apply gtb_tie; try assumption.
    + apply Hall'. exact (Permutation_in _ P Hb).
    + apply Hall. exact (Permutation_in _ (Permutation_sym P) Hb').
  - destruct I as (_ & Hpos & before & after & Hs & _ & _).
    destruct I' as (_ & Hall'). rewrite Forall_forall in Hall'.
    assert (Hb : In b offers) by (rewrite Hs; apply in_or_app; right; now left).
    rewrite (Hall' b (Permutation_in _ P Hb)) in Hpos. discriminate.
  - destruct I' as (_ & Hpos & before & after & Hs & _ & _).
    destruct I as (_ & Hall). rewrite Forall_forall in Hall.
    assert (Hb : In b' offers') by (rewrite Hs; apply in_or_app; right; now left).
    rewrite (Hall b' (Permutation_in _ (Permutation_sym P) Hb)) in Hpos. discriminate.
  - trivial.
Qed.

Lemma py_max_zero_not_negative (x : num) : (py_max zero x >=? zero) = true.
Proof.
  unfold py_max. destruct (x >? zero) eqn:E; [now apply geb_of_gtb | apply geb_zero].
Qed.

End FinalPrice.

(** X21.  The price [calculate_discounted_price] returns does not
    depend on the order of the offers. *)
Theorem final_price_permutation_invariant {A : Arith} `{!OrderLaws A}
    `{!PositiveOrder A} (original_price : num) (offers offers' : list (@offer A)) :
  Permutation offers offers' ->
  fst (calculate_discounted_price original_price offers) =
  fst (calculate_discounted_price original_price offers').
Proof.
  intros P. pose proof (best_discount_permutation original_price _ _ P) as H.
  destruct (best_loop original_price offers) as [[b|] bd] eqn:E,
           (best_loop original_price offers') as [[b'|] bd'] eqn:E';
    try contradiction.
  - rewrite (calculate_of_loop _ _ _ _ E), (calculate_of_loop _ _ _ _ E'). cbn.
    now subst.
  - now rewrite (calculate_of_no_offer _ _ _ E), (calculate_of_no_offer _ _ _ E').
Qed.

Lemma final_price_permutation_invariant_witness :
  fst (calculate_discounted_price (A:=binary64) 50%float
         [happy_hour_2_off; lunch_20_percent; mega_10_off]) =
  fst (calculate_discounted_price (A:=binary64) 50%float
         [mega_10_off; happy_hour_2_off; lunch_20_percent]).
Proof.
  apply (final_price_permutation_invariant (A:=binary64) 50%float).
  apply Permutation_sym, (Permutation_cons_append [happy_hour_2_off; lunch_20_percent]).
Defined.

(** X22.  A price that [calculate_discounted_price] returns with a
    description is not negative, whatever the price and the discount
    values are; without a description it is the original price. *)
Theorem discounted_price_not_negative {A : Arith} `{!OrderLaws A}
    `{!PositiveOrder A} (original_price : num) (offers : list (@offer A)) :
  match calculate_discounted_price original_price offers with
  | (final_price, Some _) => (final_price >=? zero)%num = true
  | (final_price, None) => final_price = original_price
  end.
Proof.
  destruct (best_loop original_price offers) as [[b|] bd] eqn:E.
  - rewrite (calculate_of_loop _ _ _ _ E). apply py_max_zero_not_negative.
  - now rewrite (calculate_of_no_offer _ _ _ E).
Qed.

Lemma discounted_price_not_negative_witness :
  calculate_discounted_price (A:=binary64) 8%float [mega_10_off] =
    (0%float, Some "Mega: Rs 10.00 off") /\
  (0 <=? 0)%float = true.
Proof.
  assert (E : calculate_discounted_price (A:=binary64) 8%float [mega_10_off] =
              (0%float, Some "Mega: Rs 10.00 off")) by reflexivity.
  split; [exact E|].
  pose proof (discounted_price_not_negative (A:=binary64) 8%float [mega_10_off]) as H.
  rewrite E in H. exact H.
Defined.

(** ** The cart *)

Section CartFacts.

Context {A : Arith}.
Implicit Types (c : @cart A) (it : @cart_item A) (db : @database A).
Local Open Scope num_scope.

Lemma priced_fields (now : datetime) db it :
  item_id (priced now db it) = item_id it /\
  item_name (priced now db it) = item_name it /\
  original_price (priced now db it) = original_price it /\
  qty (priced now db it) = qty it.
Proof.
  unfold priced.
  now destruct (calculate_discounted_price (original_price it)
                  (get_active_offers_for_item now (item_id it) db)).
Qed.

(** Pricing a line again at the same moment changes nothing: the
    discount is taken from [original_price], never from [price]. *)
Lemma priced_again (now : datetime) db it :
  priced now db (priced now db it) = priced now db it.
Proof.
  unfold priced.
  destruct (calculate_discounted_price (original_price it)
              (get_active_offers_for_item now (item_id it) db)) as [p d] eqn:E.
  cbn. now rewrite E.
Qed.

Variable now_at : Z -> datetime.
Variable db : @database A.

Lemma refresh_lines_again c :
  forall total : num,
    refresh_lines now_at db (fst (refresh_lines now_at db c total)) total =
    refresh_lines now_at db c total.
Proof.
  induction c as [|[k it] c IH]; intros total; [reflexivity|].
  cbn [refresh_lines].
  destruct (line_total (priced (now_at (item_id it)) db it)) as [line|] eqn:E.
  - specialize (IH (total + line)).
    destruct (refresh_lines now_at db c (total + line)) as [rest' t] eqn:R.
    cbn [fst refresh_lines] in *.
    rewrite (proj1 (priced_fields _ db it)), priced_again, E, IH. reflexivity.
  - cbn [fst refresh_lines].
    rewrite (proj1 (priced_fields _ db it)), priced_again, E. reflexivity.
Qed.

(** What a refresh leaves of each line: its key, item and quantity. *)
Lemma refresh_lines_keeps c :
  forall total : num,
    map (fun kv => (fst kv, item_id (snd kv), qty (snd kv)))
        (fst (refresh_lines now_at db c total)) =
    map (fun kv => (fst kv, item_id (snd kv), qty (snd kv))) c.
Proof.
  induction c as [|[k it] c IH]; intros total; [reflexivity|].
  cbn [refresh_lines].
  destruct (priced_fields (now_at (item_id it)) db it) as (H1 & _ & _ & H2).
  destruct (line_total (priced (now_at (item_id it)) db it)) as [line|].
  - specialize (IH (total + line)).
    destruct (refresh_lines now_at db c (total + line)) as [rest' t].
    cbn [fst snd map] in *. now rewrite H1, H2, IH.
  - cbn [fst snd map]. now rewrite H1, H2.
Qed.

(** The total of a refresh that completes is the sum, from left to
    right, of the line totals of the cart it leaves. *)
Lemma refresh_lines_total c :
  forall (total t : num) c',
    refresh_lines now_at db c total = (c', Some t) ->
    exists ts, line_totals (map snd c') = Some ts /\ t = fold_left add ts total.
Proof.
  induction c as [|[k it] c IH]; intros total t c'; cbn [refresh_lines].
  - intros [= <- <-]. now exists [].
  - destruct (line_total (priced (now_at (item_id it)) db it)) as [line|] eqn:E;
      [|discriminate].
    destruct (refresh_lines now_at db c (total + line)) as [rest' t'] eqn:R.
    intros [= <- ->]. destruct (IH _ _ _ R) as (ts & Hts & ->).
    exists (line :: ts). cbn [map snd line_totals fold_left]. now rewrite E, Hts.
Qed.

End CartFacts.

(** X23.  Refreshing the cart a second time at the same moments
    leaves the cart and the total of the first refresh: a discount is
    not taken twice. *)
Theorem refresh_cart_twice {A : Arith} (now_at : Z -> datetime) (db : @database A)
    (c : @cart A) :
  _refresh_cart now_at db (fst (_refresh_cart now_at db c)) = _refresh_cart now_at db c.
Proof. apply refresh_lines_again. Qed.

(** X24.  When [_refresh_cart] has added up a total, [Order.create]
    computes, with the left-to-right [sum], that total rounded to two
    decimals as the amount of the order of the cart it leaves. *)
Theorem order_amount_is_cart_total {A : Arith} (now_at : Z -> datetime)
    (db : @database A) (c c' : @cart A) (shown : num) :
  _refresh_cart now_at db c = (c', Some shown) ->
  cart_total sum_left_to_right (map snd c') = Some (round2 shown).
Proof.
  intros H. apply refresh_lines_total in H as (ts & Hts & ->).
  unfold cart_total. now rewrite Hts.
Qed.

Lemma order_amount_is_cart_total_witness :
  _refresh_cart (A:=binary64) (fun _ => clock_0930) sample_database [(6, line 6 "Tea" 10%float 3)]
    = (tea_cart 3, Some 24%float) /\
  cart_total (A:=binary64) sum_left_to_right (map snd (tea_cart 3)) =
    Some (@round2 binary64 24%float).
Proof.
  assert (H : _refresh_cart (A:=binary64) (fun _ => clock_0930) sample_database
                [(6, line 6 "Tea" 10%float 3)] = (tea_cart 3, Some 24%float))
    by reflexivity.
  split; [exact H|].
  exact (order_amount_is_cart_total (A:=binary64) _ _ _ _ _ H).
Defined.

Section AddToCart.

Context {A : Arith}.
Implicit Types (c : @cart A) (it : @cart_item A).

Lemma cart_qty_shape c1 : forall c2,
  map line_shape c1 = map line_shape c2 ->
  forall k, cart_qty c1 k = cart_qty c2 k.
Proof.
  unfold cart_qty.
  induction c1 as [|[k1 i1] c1 IH]; intros [|[k2 i2] c2]; cbn; try discriminate;
    [reflexivity|].
  intros [= -> Hi Hq Hrest] k. destruct (k2 =? k)%Z; cbn; [exact Hq|].
  now apply IH.
Qed.

Lemma cart_keys_shape c1 c2 :
  map line_shape c1 = map line_shape c2 -> map fst c1 = map fst c2.
Proof.
  intros H. apply (f_equal (map (fun s : Z * Z * Z => fst (fst s)))) in H.
  now rewrite !map_map in H.
Qed.

Lemma cart_ok_shape c1 c2 :
  map line_shape c1 = map line_shape c2 -> cart_ok c1 -> cart_ok c2.
Proof.
  intros H [Hk Hnd]. split; [|now rewrite <- (cart_keys_shape _ _ H)].
  clear Hnd. revert c2 H. induction Hk as [|[k1 i1] c1 Hx Hk IH];
    intros [|[k2 i2] c2]; cbn; try discriminate; [constructor|].
  intros [= -> Hi Hq Hrest]. constructor; [cbn in *; congruence | now apply IH].
Qed.

Lemma cart_qty_absent c (k : Z) :
  pydict_has Z.eqb c k = false -> cart_qty c k = 0.
Proof.
  unfold cart_qty, pydict_has. induction c as [|[k0 i0] c IH]; cbn; [reflexivity|].
  destruct (k0 =? k)%Z; cbn; [discriminate | exact IH].
Qed.

(** The cart with the quantity of the line [selected] raised. *)
Lemma raised_line (selected quantity : Z) (f : cart_item -> cart_item) c :
  (forall it, item_id (f it) = item_id it /\ qty (f it) = qty it + quantity) ->
  let c0 := map (fun kv : Z * cart_item =>
                   if (fst kv =? selected)%Z then (fst kv, f (snd kv)) else kv) c in
  pydict_has Z.eqb c selected = true ->
  map fst c0 = map fst c /\
  cart_qty c0 selected = cart_qty c selected + quantity /\
  (forall k, k <> selected -> cart_qty c0 k = cart_qty c k) /\
  (cart_ok c -> cart_ok c0).
Proof.
  intros Hf c0 Hhas. subst c0. repeat split.
  - rewrite map_map. apply map_ext. intros kv. now destruct (fst kv =? selected)%Z.
  - unfold cart_qty, pydict_has in *.
    induction c as [|[k0 i0] c IH]; cbn in *; [discriminate|].
    destruct (k0 =? selected)%Z eqn:E; cbn; rewrite E; cbn; [apply Hf | now apply IH].
  - intros k Hk. unfold cart_qty. clear Hhas.
    induction c as [|[k0 i0] c IH]; cbn; [reflexivity|].
    destruct (Z.eqb_spec k0 selected) as [->|E]; cbn.
    + destruct (Z.eqb_spec selected k); [congruence | exact IH].
    + destruct (k0 =? k)%Z; [reflexivity | exact IH].
  - destruct H as [Hk _]. clear Hhas. induction Hk as [|[k0 i0] c Hx Hk IH]; cbn;
      [constructor|].
    constructor; [|exact IH].
    destruct (k0 =? selected)%Z; cbn in *; [|exact Hx].
    now rewrite (proj1 (Hf i0)).
  - destruct H as [_ Hnd].
    replace (map fst (map _ c)) with (map fst c); [exact Hnd|].
    rewrite map_map. apply map_ext. intros kv. now destruct (fst kv =? selected)%Z.
Qed.

(** The cart with a first line for [selected]. *)
Lemma first_line (selected : Z) (new : cart_item) c :
  item_id new = selected ->
  let c0 := pydict_set Z.eqb c selected new in
  pydict_has Z.eqb c selected = false ->
  map fst c0 = (map fst c ++ [selected])%list /\
  cart_qty c0 selected = cart_qty c selected + qty new /\
  (forall k, k <> selected -> cart_qty c0 k = cart_qty c k) /\
  (cart_ok c -> cart_ok c0).
Proof.
  intros Hnew c0 Hhas. subst c0.
  assert (Hset : pydict_set Z.eqb c selected new = (c ++ [(selected, new)])%list).
  { unfold pydict_has in Hhas. induction c as [|[k0 i0] c IH]; cbn in *; [reflexivity|].
    destruct (k0 =? selected)%Z; cbn in *; [discriminate | now rewrite IH]. }
  rewrite Hset. repeat split.
  - now rewrite map_app.
  - rewrite (cart_qty_absent c selected Hhas). unfold cart_qty.
    rewrite find_app_none by (apply find_none_existsb; exact Hhas).
    cbn. now rewrite Z.eqb_refl.
  - intros k Hk. unfold cart_qty. apply Z.eqb_neq in Hk. rewrite Z.eqb_sym in Hk.
    clear Hhas Hset. induction c as [|[k0 i0] c IH]; cbn; [now rewrite Hk|].
    destruct (k0 =? k)%Z; [reflexivity | exact IH].
  - destruct H as [Hk _]. apply Forall_app. split; [exact Hk | now repeat constructor].
  - destruct H as [_ Hnd]. rewrite map_app.
    apply NoDup_app; [exact Hnd | repeat constructor; intros [] |].
    cbn. intros k Hin [<-|[]].
    apply (pydict_has_In Z.eqb Z.eqb_eq) in Hin. congruence.
Qed.

End AddToCart.

(** X25.  [_add_to_cart] keeps one line per item: for an item that is
    in the cart the quantity is added to its line, otherwise a line
    with that quantity is put last; the lines of the other items keep
    their quantity, and no line is taken out, whatever the quantity. *)
Theorem add_to_cart_merges {A : Arith} (now_at : Z -> datetime) (db : @database A)
    (now1 now2 : datetime) (selected : Z) (name : string) (original : num)
    (quantity : Z) (c : @cart A) :
  let c' := fst (_add_to_cart now_at db now1 now2 selected name original quantity c) in
  map fst c' =
    (if pydict_has Z.eqb c selected then map fst c else map fst c ++ [selected])%list /\
  cart_qty c' selected = cart_qty c selected + quantity /\
  (forall k : Z, k <> selected -> cart_qty c' k = cart_qty c k) /\
  (cart_ok c -> cart_ok c').
Proof.
  intros c'. subst c'. unfold _add_to_cart, _refresh_cart.
  destruct (calculate_discounted_price original
              (get_active_offers_for_item now1 selected db)) as [price1 desc1].
  destruct (calculate_discounted_price original
              (get_active_offers_for_item now2 selected db)) as [price2 desc2].
  match goal with
  | |- context [refresh_lines now_at db ?c0 zero] =>
      pose proof (refresh_lines_keeps now_at db c0 zero) as Hkeep;
      set (before := c0) in *
  end.
  fold (line_shape (A:=A)) in Hkeep.
  rewrite (cart_keys_shape _ _ Hkeep).
  rewrite !(cart_qty_shape _ _ Hkeep selected).
  assert (Hall : map fst before =
                   (if pydict_has Z.eqb c selected then map fst c
                    else map fst c ++ [selected])%list /\
                 cart_qty before selected = cart_qty c selected + quantity /\
                 (forall k, k <> selected -> cart_qty before k = cart_qty c k) /\
                 (cart_ok c -> cart_ok before)).
  { subst before. destruct (pydict_has Z.eqb c selected) eqn:Hhas.
    - apply (raised_line selected quantity
               (fun it => {| item_id := item_id it; item_name := item_name it;
                             price := price2; original_price := original;
                             offer_desc := desc2; qty := qty it + quantity |}));
        [intros it; split; reflexivity | exact Hhas].
    - apply (first_line selected
               {| item_id := selected; item_name := name; price := price1;
                  original_price := original; offer_desc := desc1; qty := quantity |});
        [reflexivity | exact Hhas]. }
  destruct Hall as (H1 & H2 & H3 & H4).
  split; [exact H1|]. split; [exact H2|]. split.
  - intros k Hk. rewrite (cart_qty_shape _ _ Hkeep k). now apply H3.
  - intros Hok. apply (cart_ok_shape before); [now symmetry | now apply H4].
Qed.

Lemma add_to_cart_merges_witness :
  _add_to_cart (A:=binary64) (fun _ => clock_0930) sample_database clock_0930 clock_0930 6 "Tea"
    10%float 2 (tea_cart 3) = (tea_cart 5, Some 40%float) /\
  cart_qty (tea_cart 5) 6 = cart_qty (tea_cart 3) 6 + 2.
Proof.
  assert (H : _add_to_cart (A:=binary64) (fun _ => clock_0930) sample_database clock_0930 clock_0930
                6 "Tea" 10%float 2 (tea_cart 3) = (tea_cart 5, Some 40%float))
    by reflexivity.
  split; [exact H|].
  pose proof (add_to_cart_merges (A:=binary64) (fun _ => clock_0930) sample_database
                clock_0930 clock_0930 6 "Tea" 10%float 2 (tea_cart 3)) as (_ & Hq & _).
  rewrite H in Hq. exact Hq.
Defined.

(** ** The day of a timestamp *)

Lemma digit_not_T (n : Z) : Ascii.eqb (digit (n mod 10)) "T" = false.
Proof.
  assert (H : 0 <= n mod 10 < 10) by (apply Z.mod_pos_bound; lia).
  assert (C : n mod 10 = 0 \/ n mod 10 = 1 \/ n mod 10 = 2 \/ n mod 10 = 3 \/
              n mod 10 = 4 \/ n mod 10 = 5 \/ n mod 10 = 6 \/ n mod 10 = 7 \/
              n mod 10 = 8 \/ n mod 10 = 9) by lia.
  repeat destruct C as [C|C]; rewrite C; reflexivity.
Qed.

(** The text before the first [T] of digits followed by [s]. *)
Lemma before_T_digits (w : nat) : forall (n : Z) (s : string),
  before_T (fixed_width w n ++ s) = (fixed_width w n ++ before_T s)%string.
Proof.
  induction w as [|w IH]; intros n s; [reflexivity|].
  cbn [fixed_width]. rewrite !string_append_assoc, IH. f_equal.
  cbn [String.append before_T]. now rewrite digit_not_T.
Qed.

Lemma before_T_isoformat (now : datetime) :
  before_T (isoformat now) = date_isoformat now.
Proof.
  unfold isoformat, date_isoformat.
  rewrite !string_append_assoc.
  rewrite before_T_digits. cbn [String.append before_T Ascii.eqb Bool.eqb].
  rewrite before_T_digits. cbn [String.append before_T Ascii.eqb Bool.eqb].
  rewrite before_T_digits. cbn [String.append before_T Ascii.eqb Bool.eqb].
  now rewrite string_append_nil.
Qed.

Section RevenueDay.

Context {A : Arith}.
Implicit Types (db : @database A).

Lemma dict_set_has_key (d : @dict A) (k : string) (v : num) :
  In k (map fst (dict_set d k v)).
Proof.
  induction d as [|[k0 v0] d IH]; cbn; [now left|].
  destruct (String.eqb k0 k); cbn; [now left | now right].
Qed.

End RevenueDay.

(** X26.  The text before the first [T] of a timestamp that
    [create_order] writes is the ISO date of the clock reading, so
    [revenue_per_day] counts an order under the day it was placed on,
    whether [fromisoformat] reads the timestamp or raises on it. *)
Theorem revenue_day_of_order {A : Arith} (fromisoformat_date : string -> option string)
    (builtin_sum : list num -> num) (now : datetime) (draws : list Z) (user : string)
    (cart : list (@cart_item A)) (db db' : @database A) (id : Z) :
  fromisoformat_date (isoformat now) = None \/
  fromisoformat_date (isoformat now) = Some (date_isoformat now) ->
  Order_create builtin_sum now draws user cart db = Returned (id, db') ->
  before_T (isoformat now) = date_isoformat now /\
  day_of fromisoformat_date (isoformat now) = date_isoformat now /\
  In (date_isoformat now) (map fst (revenue_per_day fromisoformat_date db')).
Proof.
  intros Hf H. apply Order_create_returned in H as (total & token & _ & -> & ->).
  assert (Hday : day_of fromisoformat_date (isoformat now) = date_isoformat now).
  { unfold day_of. destruct Hf as [-> | ->]; [apply before_T_isoformat | reflexivity]. }
  split; [apply before_T_isoformat|]. split; [exact Hday|].
  unfold revenue_per_day. cbn [orders]. rewrite fold_left_app. cbn [fold_left].
  unfold revenue_step at 1. cbn [timestamp]. rewrite Hday.
  apply dict_set_has_key.
Qed.

Lemma revenue_day_of_order_witness :
  before_T (isoformat clock_0930) = "2025-11-04" /\
  In "2025-11-04"
     (map fst (revenue_per_day (A:=binary64) (fun _ => None) ledger_1000_4321)).
Proof.
  destruct (revenue_day_of_order (A:=binary64) (fun _ => None) sum_left_to_right
              clock_0930 [1000; 4321] "S002" three_teas ledger_1000 ledger_1000_4321 2
              (or_introl eq_refl) eq_refl) as (H1 & _ & H2).
  split; [exact H1 | exact H2].
Defined.

(** ** Orders and the reports *)

Section ReportsAfter.

Context {A : Arith}.
Implicit Types (db : @database A) (o : @order A).

Lemma quantity_sold_app (name : string) (l1 l2 : list cart_item) :
  quantity_sold name (l1 ++ l2) = quantity_sold name l1 + quantity_sold name l2.
Proof. unfold quantity_sold. now rewrite filter_app, map_app, int_sum_app. Qed.

Lemma set_status_keeps (id : Z) (s : string) o :
  items (set_status id s o) = items o /\
  total_amount (set_status id s o) = total_amount o /\
  timestamp (set_status id s o) = timestamp o.
Proof. unfold set_status. now destruct (order_id o =? id)%Z. Qed.

Lemma fold_left_map_ext {S X : Type} (f : S -> X -> S) (g : X -> X) (l : list X) :
  (forall a x, f a (g x) = f a x) ->
  forall a, fold_left f (map g l) a = fold_left f l a.
Proof.
  intros H. induction l as [|x l IH]; cbn; intros a; [reflexivity|].
  now rewrite H, IH.
Qed.

End ReportsAfter.

(** X27.  An order that [Order.create] has stored raises the count of
    every item name in [sales_by_item] by the quantity of the lines of
    the cart with that name. *)
Theorem sales_after_order {A : Arith} (builtin_sum : list num -> num)
    (now : datetime) (draws : list Z) (user : string)
    (cart : list (@cart_item A)) (db db' : @database A) (id : Z) :
  Order_create builtin_sum now draws user cart db = Returned (id, db') ->
  forall name : string,
    pydict_get String.eqb (sales_by_item db') name 0 =
    pydict_get String.eqb (sales_by_item db) name 0 + quantity_sold name cart.
Proof.
  intros H name. apply Order_create_returned in H as (total & token & _ & -> & ->).
  rewrite (proj1 (sales_by_item_inv _)), (proj1 (sales_by_item_inv db)).
  unfold sold_lines. cbn [orders]. rewrite flat_map_app. cbn [flat_map items].
  now rewrite app_nil_r, quantity_sold_app.
Qed.

Lemma sales_after_order_witness :
  pydict_get String.eqb (sales_by_item ledger_1000_4321) "Tea" 0 =
  pydict_get String.eqb (sales_by_item ledger_1000) "Tea" 0 +
  quantity_sold "Tea" three_teas.
Proof.
  exact (sales_after_order (A:=binary64) sum_left_to_right clock_0930 [1000; 4321]
           "S002" three_teas ledger_1000 ledger_1000_4321 2 eq_refl "Tea").
Defined.

(** X28.  When [fromisoformat] reads the timestamp of a new order
    with the hour of the clock reading, the order raises the bucket of
    that hour in [orders_per_hour] by one and leaves the other buckets
    as they were. *)
Theorem hour_bucket_after_order {A : Arith} (fromisoformat_hour : string -> option Z)
    (builtin_sum : list num -> num) (now : datetime) (draws : list Z) (user : string)
    (cart : list (@cart_item A)) (db db' : @database A) (id : Z) :
  datetime_ok now ->
  fromisoformat_hour (isoformat now) = Some (hour now) ->
  Order_create builtin_sum now draws user cart db = Returned (id, db') ->
  forall h : Z,
    pydict_get Z.eqb (orders_per_hour fromisoformat_hour db') h 0 =
    pydict_get Z.eqb (orders_per_hour fromisoformat_hour db) h 0 +
    (if (h =? hour now)%Z then 1 else 0).
Proof.
  intros Hok Hf H h. apply Order_create_returned in H as (total & token & _ & -> & ->).
  destruct Hok as (_ & _ & _ & Hh & _).
  unfold orders_per_hour. cbn [orders]. rewrite fold_left_app. cbn [fold_left].
  destruct (hours_fold fromisoformat_hour (orders db) empty_hours) as [Hk _].
  set (buckets := fold_left (hour_step fromisoformat_hour) (orders db) empty_hours) in *.
  assert (Hhas : forall k, pydict_has Z.eqb buckets k = (0 <=? k)%Z && (k <? 24)%Z).
  { intros k. rewrite <- empty_hours_has. now apply pydict_has_keys. }
  unfold hour_step. cbn [timestamp]. rewrite Hf, Hhas.
  replace ((0 <=? hour now) && (hour now <? 24)) with true
    by (symmetry; apply andb_true_iff; split; [apply Z.leb_le | apply Z.ltb_lt]; lia).
  rewrite (pydict_get_set Z.eqb Z.eqb_eq).
  destruct (Z.eqb_spec (hour now) h) as [<-|Hne].
  - rewrite Z.eqb_refl. reflexivity.
  - destruct (Z.eqb_spec h (hour now)); [congruence | lia].
Qed.

Lemma hour_bucket_after_order_witness :
  pydict_get Z.eqb (orders_per_hour fromisoformat_hour_written ledger_1000_4321) 9 0 =
  pydict_get Z.eqb (orders_per_hour fromisoformat_hour_written ledger_1000) 9 0 + 1.
Proof.
  apply (hour_bucket_after_order (A:=binary64) fromisoformat_hour_written
           sum_left_to_right clock_0930 [1000; 4321] "S002" three_teas ledger_1000
           ledger_1000_4321 2); [unfold datetime_ok; cbn; lia | reflexivity | reflexivity].
Defined.

(** X29.  The reports do not look at the status: after
    [update_order_status], [revenue_per_day], [sales_by_item] and
    [orders_per_hour] are what they were. *)
Theorem reports_ignore_status {A : Arith} (fromisoformat_date : string -> option string)
    (fromisoformat_hour : string -> option Z) (id : Z) (s : string)
    (db : @database A) :
  revenue_per_day fromisoformat_date (update_order_status id s db) =
    revenue_per_day fromisoformat_date db /\
  sales_by_item (update_order_status id s db) = sales_by_item db /\
  orders_per_hour fromisoformat_hour (update_order_status id s db) =
    orders_per_hour fromisoformat_hour db.
Proof.
  unfold revenue_per_day, sales_by_item, orders_per_hour. cbn [orders update_order_status].
  repeat split; apply fold_left_map_ext; intros a o;
    destruct (set_status_keeps id s o) as (Hi & Ha & Ht).
  - unfold revenue_step. now rewrite Ha, Ht.
  - now rewrite Hi.
  - unfold hour_step. now rewrite Ht.
Qed.
